(** * LLM response analyzer: parameter expansion, batch generation, quality metrics

    A shallow embedding of the backend services

      - [app/models/schemas.py]       (request schema and its validators),
      - [app/services/experiment.py]  (parameter expansion and its guard),
      - [app/services/llm_service.py] (concurrent batch generation),
      - [app/services/metrics.py]     (text quality metrics),
      - [app/api/experiments.py]      (the [create_experiment] route and the
                                       routes that list, read, delete and
                                       export stored experiments),
      - [app/db/models.py]            (the stored rows),

    followed by the properties established about them.

    The database session of [create_experiment] (the experiment and
    response rows that are added, committed and refreshed) is left out:
    that route is modelled by the calls it issues and the responses it
    builds.  The other routes are functions of the table of stored
    experiments, each experiment carrying its responses; the CSV export is
    modelled by the rows handed to the CSV writer.

    Conventions.
      - Python [float]s of the request (parameter ranges) are IEEE binary64
        numbers: Rocq's primitive floats.
      - Python [str] is a sequence of code points; texts are modelled as
        [list ascii], one [ascii] per code point below 256, with Python's
        character classes on that range.
      - The metric scores are computed over exact rationals ([Q]); a Python
        division whose divisor may vanish is a checked division that raises
        [ZeroDivisionError].
      - Python dictionaries are [gmap string pyval].
      - A [while] loop takes a fuel argument; running out of fuel is the
        outcome [OutOfFuel], distinct from returning and from raising. *)

From Stdlib Require Import ZArith QArith Qminmax Qabs Floats Lia Lqa.
From Stdlib Require Import Ascii String DecimalString.
From stdpp Require Import base option list gmap strings.

Set Default Proof Using "Type".
Set Warnings "-inexact-float,-clear-no-such-hyp".

(* ===================================================================== *)
(** * Texts and outcomes of Python computations *)
(* ===================================================================== *)

(** A Python [str]. *)
Definition str : Type := list ascii.

(** A string literal of the source. *)
Definition lit (s : string) : str := list_ascii_of_string s.

(** [str(n)] for an integer [n]. *)
Definition str_of_int (n : Z) : str := lit (NilZero.string_of_int (Z.to_int n)).

Inductive exn : Type :=
  | ZeroDivisionError
  | ValueError (msg : str)
  | OverflowError
  | KeyError (key : string)
  | TypeError
  | ValidationError (msg : str)
  | HTTPException (status_code : Z) (detail : str)
  | LLMError (msg : str).

(** [str(e)] for an exception [e]. *)
Definition exn_str (e : exn) : str :=
  match e with
  | ZeroDivisionError => lit "division by zero"
  | ValueError msg => msg
  | OverflowError => lit "cannot convert float infinity to integer"
  | KeyError key => lit "'" ++ lit key ++ lit "'"
  | TypeError => lit "unsupported operand type"
  | ValidationError msg => msg
  | HTTPException _ detail => detail
  | LLMError msg => msg
  end.

Inductive outcome (A : Type) : Type :=
  | Return (a : A)
  | Raise (e : exn)
  | OutOfFuel.
Arguments Return {A} a.
Arguments Raise {A} e.
Arguments OutOfFuel {A}.

Definition obind {A B} (m : outcome A) (k : A -> outcome B) : outcome B :=
  match m with
  | Return a => k a
  | Raise e => Raise e
  | OutOfFuel => OutOfFuel
  end.

Fixpoint omapM {A B} (f : A -> outcome B) (l : list A) : outcome (list B) :=
  match l with
  | [] => Return []
  | a :: l' =>
      obind (f a) (fun b => obind (omapM f l') (fun bs => Return (b :: bs)))
  end.

(* ===================================================================== *)
(** * Python floats (binary64) *)
(* ===================================================================== *)

Module PyFloat.

(** [bool(x)]: a float is falsy exactly when it compares equal to zero. *)
Definition truthy (x : float) : bool := negb (PrimFloat.eqb x 0%float).

(** [int(x)]: truncation towards zero; [int(nan)] raises [ValueError] and
    [int(inf)] raises [OverflowError]. *)
Definition to_int (x : float) : outcome Z :=
  match Prim2SF x with
  | S754_zero _ => Return 0%Z
  | S754_finite s m e =>
      let a := Z.shiftl (Z.pos m) e in
      Return (if s then (- a)%Z else a)
  | S754_infinity _ => Raise OverflowError
  | S754_nan => Raise (ValueError (lit "cannot convert float NaN to integer"))
  end.

(** Nearest integer to [num / den], ties to even ([0 <= num], [0 < den]). *)
Definition round_half_even (num den : Z) : Z :=
  let q := (num / den)%Z in
  let r := (num mod den)%Z in
  match (2 * r ?= den)%Z with
  | Lt => q
  | Gt => (q + 1)%Z
  | Eq => if Z.even q then q else (q + 1)%Z
  end.

(** [round(x, 3)]: the exact value of [x] is rounded to three decimal
    places (ties to even) and the decimal result is converted back to the
    nearest binary64 number.  Numbers with no fractional bits, infinities
    and NaN are returned unchanged. *)
Definition round3 (x : float) : float :=
  match Prim2SF x with
  | S754_finite s m e =>
      if (0 <=? e)%Z then x
      else
        match round_half_even (Z.pos m * 1000) (2 ^ (- e)) with
        | Zpos p =>
            SF2Prim (SFdiv prec emax (S754_finite s p 0) (S754_finite false 1000 0))
        | _ => SF2Prim (S754_zero s)
        end
  | _ => x
  end.

End PyFloat.

(* ===================================================================== *)
(** * Request schema ([app/models/schemas.py]) *)
(* ===================================================================== *)

Module ParameterRange.

(** The fields of [class ParameterRange(BaseModel)]. *)
Record t : Type := Build {
  min : float;
  max : float;
  step : option float;
  values : option (list float)
}.

(** [Field(..., ge=0)] on [min] and on [max], and the field validator
    [max_greater_than_min], which raises when [v < info.data['min']]. *)
Definition validate (r : t) : outcome t :=
  if negb (PrimFloat.leb 0%float (min r)) then
    Raise (ValidationError (lit "Input should be greater than or equal to 0"))
  else if negb (PrimFloat.leb 0%float (max r)) then
    Raise (ValidationError (lit "Input should be greater than or equal to 0"))
  else if PrimFloat.ltb (max r) (min r) then
    Raise (ValidationError (lit "max must be greater than or equal to min"))
  else Return r.

Definition validate_opt (r : option t) : outcome (option t) :=
  match r with
  | None => Return None
  | Some r => obind (validate r) (fun r => Return (Some r))
  end.

(** The same range with no [step]. *)
Definition without_step (r : t) : t := Build (min r) (max r) None (values r).

End ParameterRange.

Module ExperimentRequest.

(** The fields of [class ExperimentRequest(BaseModel)]. *)
Record t : Type := Build {
  prompt : str;
  name : option str;
  temperature : option ParameterRange.t;
  top_p : option ParameterRange.t;
  max_tokens : option ParameterRange.t;
  presence_penalty : option ParameterRange.t;
  frequency_penalty : option ParameterRange.t;
  model : str
}.

(** Construction of the model from the request body: [prompt] has
    [min_length=1], [name] has [max_length=255], and every range that is
    present is validated as a [ParameterRange]. *)
Definition validate (r : t) : outcome t :=
  if (length (prompt r) <? 1)%nat then
    Raise (ValidationError (lit "String should have at least 1 character"))
  else if match name r with Some n => (255 <? length n)%nat | None => false end then
    Raise (ValidationError (lit "String should have at most 255 characters"))
  else
    obind (ParameterRange.validate_opt (temperature r)) (fun _ =>
    obind (ParameterRange.validate_opt (top_p r)) (fun _ =>
    obind (ParameterRange.validate_opt (max_tokens r)) (fun _ =>
    obind (ParameterRange.validate_opt (presence_penalty r)) (fun _ =>
    obind (ParameterRange.validate_opt (frequency_penalty r)) (fun _ =>
    Return r))))).

(** The five range fields. *)
Definition ranges_of (r : t) : list (option ParameterRange.t) :=
  [temperature r; top_p r; max_tokens r; presence_penalty r; frequency_penalty r].

End ExperimentRequest.

(* ===================================================================== *)
(** * Python values and dictionaries *)
(* ===================================================================== *)

Inductive pyval : Type :=
  | VNone
  | VStr (s : str)
  | VInt (n : Z)
  | VFloat (x : float).

(** [d[key]]: raises [KeyError] when the key is absent. *)
Definition getitem (d : gmap string pyval) (key : string) : outcome pyval :=
  match d !! key with
  | Some v => Return v
  | None => Raise (KeyError key)
  end.

(** [d.get(key)]: [None] when the key is absent. *)
Definition dict_get (d : gmap string pyval) (key : string) : pyval :=
  default VNone (d !! key).

(** [{**d, **e}] and [d.update(e)]: the entries of [e] override those of
    [d]. *)
Definition dict_update (d e : gmap string pyval) : gmap string pyval := e ∪ d.

(* ===================================================================== *)
(** * Parameter expansion ([app/services/experiment.py]) *)
(* ===================================================================== *)

Module ExperimentService.

(** The [while current <= param_range.max] loop of [get_values], on its
    state ([values], [current]). *)
Fixpoint get_values_loop (fuel : nat) (r : ParameterRange.t) (step : float)
    (values : list float) (current : float) : outcome (list float) :=
  if PrimFloat.leb current (ParameterRange.max r) then
    match fuel with
    | O => OutOfFuel
    | S fuel' =>
        get_values_loop fuel' r step
          (values ++ [PyFloat.round3 current]) (PrimFloat.add current step)
    end
  else Return values.

(** Truth value of an optional list ([None] and [[]] are falsy) and of an
    optional float ([None] and zero are falsy). *)
Definition truthy_values (vs : option (list float)) : bool :=
  match vs with
  | Some (_ :: _) => true
  | _ => false
  end.

Definition truthy_step (st : option float) : bool :=
  match st with
  | Some x => PyFloat.truthy x
  | None => false
  end.

(** The list, resp. the float, held by a field known to be truthy. *)
Definition the_values (vs : option (list float)) : list float :=
  match vs with Some l => l | None => [] end.

Definition the_step (st : option float) : float :=
  match st with Some x => x | None => 0%float end.

(** The helper [get_values] of [generate_parameter_combinations]. *)
Definition get_values (fuel : nat) (param_range : option ParameterRange.t)
    (default : float) : outcome (list float) :=
  match param_range with
  | None => Return [default]
  | Some r =>
      if truthy_values (ParameterRange.values r) then
        Return (the_values (ParameterRange.values r))
      else if truthy_step (ParameterRange.step r) then
        obind (get_values_loop fuel r (the_step (ParameterRange.step r))
                 [] (ParameterRange.min r))
          (fun values =>
             Return (match values with [] => [default] | _ :: _ => values end))
      else
        Return (if negb (PrimFloat.eqb (ParameterRange.min r) (ParameterRange.max r))
                then [ParameterRange.min r; ParameterRange.max r]
                else [ParameterRange.min r])
  end.

(** The five entries of a combination dictionary. *)
Definition combination (temperature top_p : float) (max_tokens : Z)
    (presence_penalty frequency_penalty : float) : gmap string pyval :=
  <["temperature" := VFloat temperature]>
  (<["top_p" := VFloat top_p]>
  (<["max_tokens" := VInt max_tokens]>
  (<["presence_penalty" := VFloat presence_penalty]>
  (<["frequency_penalty" := VFloat frequency_penalty]> ∅)))).

(** [itertools.product] of the five value lists, first list outermost,
    each tuple turned into a dictionary. *)
Definition product5 (temperatures top_ps : list float) (max_tokens_list : list Z)
    (presence_penalties frequency_penalties : list float)
    : list (gmap string pyval) :=
  t ← temperatures; p ← top_ps; m ← max_tokens_list;
  pp ← presence_penalties; fp ← frequency_penalties;
  [combination t p m pp fp].

Definition generate_parameter_combinations (fuel : nat)
    (request : ExperimentRequest.t) : outcome (list (gmap string pyval)) :=
  obind (get_values fuel (ExperimentRequest.temperature request) 0.7%float)
    (fun temperatures =>
  obind (get_values fuel (ExperimentRequest.top_p request) 1.0%float)
    (fun top_ps =>
  obind (obind (get_values fuel (ExperimentRequest.max_tokens request) 1000%float)
           (omapM PyFloat.to_int))
    (fun max_tokens_list =>
  obind (get_values fuel (ExperimentRequest.presence_penalty request) 0.0%float)
    (fun presence_penalties =>
  obind (get_values fuel (ExperimentRequest.frequency_penalty request) 0.0%float)
    (fun frequency_penalties =>
  Return (product5 temperatures top_ps max_tokens_list
            presence_penalties frequency_penalties)))))).

(** The helper [count_values] of [validate_parameter_ranges]. *)
Definition count_values (param_range : option ParameterRange.t)
    (default : float) : outcome Z :=
  match param_range with
  | None => Return 1%Z
  | Some r =>
      if truthy_values (ParameterRange.values r) then
        Return (Z.of_nat (length (the_values (ParameterRange.values r))))
      else if truthy_step (ParameterRange.step r) then
        obind (PyFloat.to_int
                 (PrimFloat.div
                    (PrimFloat.sub (ParameterRange.max r) (ParameterRange.min r))
                    (the_step (ParameterRange.step r))))
          (fun q => Return (Z.max (q + 1) 1))
      else
        Return (if negb (PrimFloat.eqb (ParameterRange.min r) (ParameterRange.max r))
                then 2%Z else 1%Z)
  end.

Definition total_combinations (request : ExperimentRequest.t) : outcome Z :=
  obind (count_values (ExperimentRequest.temperature request) 0.7%float) (fun c1 =>
  obind (count_values (ExperimentRequest.top_p request) 1.0%float) (fun c2 =>
  obind (count_values (ExperimentRequest.max_tokens request) 1000%float) (fun c3 =>
  obind (count_values (ExperimentRequest.presence_penalty request) 0.0%float) (fun c4 =>
  obind (count_values (ExperimentRequest.frequency_penalty request) 0.0%float) (fun c5 =>
  Return (c1 * c2 * c3 * c4 * c5)%Z))))).

Definition MAX_COMBINATIONS : Z := 50.

Definition too_many_message (total : Z) : str :=
  lit "Too many parameter combinations (" ++ str_of_int total
  ++ lit "). Maximum allowed is " ++ str_of_int MAX_COMBINATIONS
  ++ lit ". Please reduce the ranges or step sizes.".

(** Returns the pair ([is_valid], [error_message]). *)
Definition validate_parameter_ranges (request : ExperimentRequest.t)
    : outcome (bool * option str) :=
  obind (total_combinations request) (fun total =>
  if (MAX_COMBINATIONS <? total)%Z then
    Return (false, Some (too_many_message total))
  else Return (true, None)).

(** The step formula of [count_values] and the enumeration of [get_values]
    give the same number for a slot. *)
Definition slot_agrees (fuel : nat) (param_range : option ParameterRange.t)
    (default : float) : Prop :=
  exists values,
    get_values fuel param_range default = Return values
    /\ count_values param_range default = Return (Z.of_nat (length values)).

(** The step-counting formula on its own:
    [max(int((max - min) / step) + 1, 1)]. *)
Definition step_formula (r : ParameterRange.t) : outcome Z :=
  obind (PyFloat.to_int
           (PrimFloat.div
              (PrimFloat.sub (ParameterRange.max r) (ParameterRange.min r))
              (the_step (ParameterRange.step r))))
    (fun q => Return (Z.max (q + 1) 1)).

(** Step-based counting and enumeration agree on a slot.  Only a slot that
    is walked in steps (no explicit values, a step that is not zero) is
    concerned: the walk from [min] ends, and the step formula gives the
    number of values walked, an empty walk counting for the one default
    value.  For any other slot the condition is [True]. *)
Definition step_counting_agrees (fuel : nat)
    (param_range : option ParameterRange.t) : Prop :=
  match param_range with
  | None => True
  | Some r =>
      if truthy_values (ParameterRange.values r) then True
      else if truthy_step (ParameterRange.step r) then
        exists values,
          get_values_loop fuel r (the_step (ParameterRange.step r))
            [] (ParameterRange.min r) = Return values
          /\ step_formula r = Return (Z.max (Z.of_nat (length values)) 1)
      else True
  end.

End ExperimentService.

(* ===================================================================== *)
(** * Operations on Python strings *)
(* ===================================================================== *)

Module PyStr.

Definition code (c : ascii) : N := N_of_ascii c.

(** [str.isspace], the white space of [str.strip] and [str.split], and the
    class [\s] of [re]: code points 9-13, 28-32, 133 and 160. *)
Definition is_space (c : ascii) : bool :=
  let n := code c in
  ((9 <=? n) && (n <=? 13) || (28 <=? n) && (n <=? 32)
   || (n =? 133) || (n =? 160))%N.

(** The class [\d] of [re]: the decimal digits. *)
Definition is_digit (c : ascii) : bool :=
  let n := code c in ((48 <=? n) && (n <=? 57))%N.

(** The class [[a-z]]. *)
Definition is_lower_az (c : ascii) : bool :=
  let n := code c in ((97 <=? n) && (n <=? 122))%N.

(** The class [\w] of [re]: alphanumeric code points and the underscore. *)
Definition is_word (c : ascii) : bool :=
  let n := code c in
  ((48 <=? n) && (n <=? 57) || (65 <=? n) && (n <=? 90) || (n =? 95)
   || (97 <=? n) && (n <=? 122)
   || (n =? 170) || (n =? 178) || (n =? 179) || (n =? 181) || (n =? 185)
   || (n =? 186) || (188 <=? n) && (n <=? 190)
   || (192 <=? n) && (n <=? 214) || (216 <=? n) && (n <=? 246)
   || (248 <=? n))%N.

(** The class [[.!?]]. *)
Definition is_terminator (c : ascii) : bool :=
  let n := code c in ((n =? 46) || (n =? 33) || (n =? 63))%N.

(** [str.lower] on one code point. *)
Definition lower_char (c : ascii) : ascii :=
  let n := code c in
  if ((65 <=? n) && (n <=? 90) || (192 <=? n) && (n <=? 214)
      || (216 <=? n) && (n <=? 222))%N
  then ascii_of_N (n + 32) else c.

Definition lower (s : str) : str := map lower_char s.

Fixpoint lstrip (s : str) : str :=
  match s with
  | c :: s' => if is_space c then lstrip s' else s
  | [] => []
  end.

(** [s.strip()]. *)
Definition strip (s : str) : str := rev (lstrip (rev (lstrip s))).

(** [s.split()]: the maximal runs of characters that are not white space;
    [cur] is the run being read. *)
Fixpoint split_aux (cur : str) (s : str) : list str :=
  match s with
  | [] => match cur with [] => [] | _ :: _ => [cur] end
  | c :: s' =>
      if is_space c then
        match cur with
        | [] => split_aux [] s'
        | _ :: _ => cur :: split_aux [] s'
        end
      else split_aux (cur ++ [c]) s'
  end.

Definition split (s : str) : list str := split_aux [] s.

(** [re.split(r'[.!?]+', s)]: the pieces between maximal runs of
    terminators, empty pieces at both ends included. *)
Fixpoint re_split_aux (cur : str) (in_run : bool) (s : str) : list str :=
  match s with
  | [] => [cur]
  | c :: s' =>
      if is_terminator c then
        if in_run then re_split_aux [] true s'
        else cur :: re_split_aux [] true s'
      else re_split_aux (cur ++ [c]) false s'
  end.

Definition re_split_terminators (s : str) : list str := re_split_aux [] false s.

(** [sep.join(l)]. *)
Fixpoint join (sep : str) (l : list str) : str :=
  match l with
  | [] => []
  | x :: l' =>
      match l' with
      | [] => x
      | _ :: _ => x ++ sep ++ join sep l'
      end
  end.

(** No character of [s] is in the class [p]. *)
Definition free_of (p : ascii -> bool) (s : str) : Prop :=
  Forall (fun c => p c = false) s.

(** The number of characters of [s] that are not white space. *)
Definition visible (s : str) : nat :=
  length (List.filter (fun c => negb (is_space c)) s).

Fixpoint startswith (s prefix : str) : bool :=
  match prefix, s with
  | [], _ => true
  | p :: prefix', c :: s' => if Ascii.eqb p c then startswith s' prefix' else false
  | _ :: _, [] => false
  end.

(** [sub in s]. *)
Fixpoint contains (s sub : str) : bool :=
  startswith s sub
  || match s with
     | [] => false
     | _ :: s' => contains s' sub
     end.

(** [s.count(sub)]: occurrences found from left to right without overlap;
    [skip] characters of the last occurrence are still to be passed. *)
Fixpoint count_aux (sub : str) (skip : nat) (s : str) : nat :=
  match s with
  | [] => match sub, skip with [], O => 1 | _, _ => 0 end
  | _ :: s' =>
      match skip with
      | S k => count_aux sub k s'
      | O =>
          if startswith s sub then S (count_aux sub (length sub - 1) s')
          else count_aux sub 0 s'
      end
  end.

Definition count (s sub : str) : nat := count_aux sub 0 s.

(** [s.split(sep)] for a non-empty separator. *)
Fixpoint split_sep_aux (sep : str) (skip : nat) (cur : str) (s : str) : list str :=
  match s with
  | [] => [cur]
  | c :: s' =>
      match skip with
      | S k => split_sep_aux sep k cur s'
      | O =>
          if startswith s sep then cur :: split_sep_aux sep (length sep - 1) [] s'
          else split_sep_aux sep 0 (cur ++ [c]) s'
      end
  end.

Definition split_sep (s sep : str) : list str := split_sep_aux sep 0 [] s.

(** The maximal runs of word characters, empty runs included. *)
Fixpoint word_runs (cur : str) (s : str) : list str :=
  match s with
  | [] => [cur]
  | c :: s' =>
      if is_word c then word_runs (cur ++ [c]) s'
      else cur :: word_runs [] s'
  end.

(** [re.findall(r'\b\w{3,}\b', s)]: the maximal runs of word characters
    that have at least three characters. *)
Definition findall_words3 (s : str) : list str :=
  filter (fun w => 3 <= length w) (word_runs [] s).

Fixpoint span (p : ascii -> bool) (s : str) : nat * str :=
  match s with
  | c :: s' => if p c then let '(n, r) := span p s' in (S n, r) else (O, s)
  | [] => (O, [])
  end.

(** Length of the match of a list-marker pattern at the head of [s], if
    there is one: a newline, white space, then [bullet], then white space.
    [bullet] returns the length of the marker at the head of its argument. *)
Definition match_list_marker (bullet : str -> option nat) (s : str) : option nat :=
  match s with
  | c :: s1 =>
      if Ascii.eqb c "010"%char then
        let '(n1, s2) := span is_space s1 in
        match bullet s2 with
        | Some n2 =>
            let '(n3, _) := span is_space (drop n2 s2) in
            if (1 <=? n3)%nat then Some (1 + n1 + n2 + n3)%nat else None
        | None => None
        end
      else None
  | [] => None
  end.

Definition is_dot_or_paren (c : ascii) : bool :=
  let n := code c in ((n =? 46) || (n =? 41))%N.

(** [\d+[\.\)]]. *)
Definition numbered (s : str) : option nat :=
  let '(n, r) := span is_digit s in
  match r with
  | c :: _ => if (1 <=? n)%nat && is_dot_or_paren c then Some (S n) else None
  | [] => None
  end.

(** [[-•*]]; the bullet U+2022 lies outside the code points modelled. *)
Definition bulleted (s : str) : option nat :=
  match s with
  | c :: _ => if ((code c =? 45) || (code c =? 42))%N then Some 1%nat else None
  | [] => None
  end.

(** [[a-z][\.\)]]. *)
Definition lettered (s : str) : option nat :=
  match s with
  | c :: d :: _ => if is_lower_az c && is_dot_or_paren d then Some 2%nat else None
  | _ => None
  end.

(** [len(re.findall(pattern, s))] for a list-marker pattern: matches are
    searched from left to right and do not overlap. *)
Fixpoint findall_count (bullet : str -> option nat) (skip : nat) (s : str) : nat :=
  match s with
  | [] => O
  | _ :: s' =>
      match skip with
      | S k => findall_count bullet k s'
      | O =>
          match match_list_marker bullet s with
          | Some n => S (findall_count bullet (n - 1) s')
          | None => findall_count bullet 0 s'
          end
      end
  end.

End PyStr.

(* ===================================================================== *)
(** * Quality metrics ([app/services/metrics.py]) *)
(* ===================================================================== *)

Module QualityMetricsCalculator.

Local Open Scope Q_scope.

(** [len(x)] as a number. *)
Definition len {A} (l : list A) : Q := inject_Z (Z.of_nat (length l)).

Definition of_nat (n : nat) : Q := inject_Z (Z.of_nat n).

(** [a / b]: raises [ZeroDivisionError] when [b] is zero. *)
Definition truediv (a b : Q) : outcome Q :=
  if Qeq_bool b 0 then Raise ZeroDivisionError else Return (a / b).

(** [sum(1 for x in l if p(x))]. *)
Definition count_if {A} (p : A -> bool) (l : list A) : nat :=
  length (List.filter p l).

Definition qsum (l : list Q) : Q := fold_right Qplus 0 l.

(** [[s.strip() for s in re.split(r'[.!?]+', text) if s.strip()]]. *)
Definition sentences_of (text : str) : list str :=
  map PyStr.strip
    (List.filter (fun s => negb (Nat.eqb (length (PyStr.strip s)) 0))
       (PyStr.re_split_terminators text)).

(** [s and s[-1] in '.!?']. *)
Definition proper_ending (s : str) : bool :=
  match last s with
  | Some c => PyStr.is_terminator c
  | None => false
  end.

Definition transitions : list str :=
  map lit ["however"; "therefore"; "furthermore"; "moreover"; "additionally";
           "consequently"; "thus"; "hence"; "meanwhile"; "subsequently";
           "nevertheless"; "nonetheless"; "accordingly"; "indeed";
           "specifically"]%string.

(** [sum((l - avg_length) ** 2 for l in lengths) / len(lengths)]. *)
Definition variance_of (lengths : list Q) : outcome Q :=
  obind (truediv (qsum lengths) (len lengths)) (fun avg_length =>
  truediv (qsum (map (fun l => (l - avg_length) ^ 2) lengths)) (len lengths)).

Definition _coherence_score (text : str) : outcome Q :=
  if Nat.eqb (length text) 0 || (length (PyStr.strip text) <? 10)%nat then Return 0.3
  else
    let sentences := sentences_of text in
    if (length sentences <? 2)%nat then Return 0.5
    else
      let score := 0 in
      (* Punctuation quality (40% weight) *)
      let proper_endings := count_if proper_ending sentences in
      obind (match sentences with
             | [] => Return 0
             | _ :: _ =>
                 obind (truediv (of_nat proper_endings) (len sentences))
                   (fun q => Return (Qmin q 1))
             end) (fun punctuation_score =>
      let score := score + punctuation_score * 0.4 in
      (* Transition words (30% weight) *)
      let text_lower := PyStr.lower text in
      let transition_count :=
        count_if (fun t => PyStr.contains text_lower t) transitions in
      obind (truediv (of_nat transition_count) (Qmax (len sentences * 0.3) 1))
        (fun q =>
      let transition_score := Qmin q 1 in
      let score := score + transition_score * 0.3 in
      (* Sentence length variance (30% weight) *)
      obind (if (1 <? length sentences)%nat then
               let lengths := map (fun s : str => len s) sentences in
               obind (variance_of lengths) (fun variance =>
               let variance_score := 1 - Qmin (Qabs (variance - 250) / 250) 1 in
               Return (score + variance_score * 0.3))
             else Return score) (fun score =>
      Return (Qmin score 1)))).

Definition question_words : list str :=
  map lit ["what"; "who"; "when"; "where"; "why"; "how"; "which"; "explain";
           "describe"; "list"]%string.

Definition stop_words : gset str :=
  list_to_set
    (map lit ["the"; "a"; "an"; "and"; "or"; "but"; "in"; "on"; "at"; "to";
              "for"; "of"; "with"; "by"; "is"; "are"; "was"; "were"]%string).

(** [set(w.lower() for w in re.findall(r'\b\w{3,}\b', s)
         if w.lower() not in stop_words)]. *)
Definition keywords (s : str) : gset str :=
  list_to_set
    (filter (fun w => w ∉ stop_words) (map PyStr.lower (PyStr.findall_words3 s))).

Definition _completeness_score (text prompt : str) : outcome Q :=
  if Nat.eqb (length text) 0 || Nat.eqb (length prompt) 0 then Return 0
  else
    let score := 0 in
    let prompt_lower := PyStr.lower prompt in
    let text_lower := PyStr.lower text in
    (* Question word coverage (40% weight) *)
    let found_questions :=
      count_if (fun qw => PyStr.contains prompt_lower qw) question_words in
    obind (if (0 <? found_questions)%nat then
             obind (truediv (len text) (Qmax (len prompt * 2) 100)) (fun q =>
             let answered_score := Qmin q 1 in
             Return (score + answered_score * 0.4))
           else Return score) (fun score =>
    (* Keyword overlap (40% weight) *)
    let prompt_words := keywords prompt in
    let text_words := keywords text in
    obind (if negb (Nat.eqb (size prompt_words) 0) then
             obind (truediv (of_nat (size (prompt_words ∩ text_words)))
                      (of_nat (size prompt_words))) (fun overlap =>
             Return (score + overlap * 0.4))
           else Return score) (fun score =>
    (* Response length adequacy (20% weight) *)
    obind (truediv (len text) (Qmax (len prompt) 50)) (fun q =>
    let length_score := Qmin q 2 / 2 in
    let score := score + length_score * 0.2 in
    Return (Qmin score 1)))).

Definition _length_appropriateness (text prompt : str) (tokens_used : option Z)
    : outcome Q :=
  if Nat.eqb (length text) 0 then Return 0
  else
    let text_length := len text in
    let prompt_length := len prompt in
    (* computed by the source and never used *)
    let prompt_complexity :=
      (length (PyStr.split prompt) + PyStr.count prompt (lit "?") * 5
       + PyStr.count prompt (lit "!") * 3)%nat in
    let ideal_min := prompt_length * 1.5 in
    let ideal_max := prompt_length * 8 in
    obind (if Qle_bool ideal_min text_length && Qle_bool text_length ideal_max then
             Return 1
           else if negb (Qle_bool ideal_min text_length) then
             (* Too short *)
             truediv text_length ideal_min
           else
             (* Too long *)
             let excess := text_length - ideal_max in
             obind (truediv excess ideal_max) (fun q =>
             Return (Qmax 0.5 (1 - q * 0.5)))) (fun score =>
    (* Factor in token usage if available *)
    obind (match tokens_used with
           | Some tokens =>
               if negb (Z.eqb tokens 0) then
                 obind (if (0 <? tokens)%Z then truediv text_length (inject_Z tokens)
                        else Return 4) (fun chars_per_token =>
                 if negb (Qle_bool 2 chars_per_token) then Return (score * 0.8)
                 else Return score)
               else Return score
           | None => Return score
           end) (fun score =>
    Return (Qmin score 1))).

(** [[tuple(words[i:i+n]) for i in range(len(words) - n + 1)]]. *)
Definition ngrams_of (n : nat) (words : list str) : list (list str) :=
  map (fun i => take n (drop i words)) (seq 0 (length words + 1 - n)).

(** [[s.strip().lower() for s in re.split(r'[.!?]+', text)
      if len(s.strip()) > 10]]. *)
Definition long_sentences_of (text : str) : list str :=
  map (fun s => PyStr.lower (PyStr.strip s))
    (List.filter (fun s => (10 <? length (PyStr.strip s))%nat)
       (PyStr.re_split_terminators text)).

(** [1.0 - len(set(l)) / len(l)]. *)
Definition repetition_of `{Countable A} (l : list A) : outcome Q :=
  obind (truediv (of_nat (size (list_to_set l : gset A))) (len l)) (fun q =>
  Return (1 - q)).

(** The repetition ratio that [_repetition_penalty] turns into a score:
    the 3-gram ratio, raised to 0.7 times the sentence ratio when there
    are at least two long sentences. *)
Definition repetition_ratio (text : str) (words : list str) : outcome Q :=
  let ngrams := ngrams_of 3 words in
  obind (repetition_of ngrams) (fun repetition_ratio =>
  let sentences := long_sentences_of text in
  if (1 <? length sentences)%nat then
    obind (repetition_of sentences) (fun sentence_repetition =>
    Return (Qmax repetition_ratio (sentence_repetition * 0.7)))
  else Return repetition_ratio).

(** The score made from a repetition ratio:
    [max(1.0 - min(repetition_ratio, 0.8), 0.2)]. *)
Definition score_of_ratio (repetition_ratio : Q) : Q :=
  Qmax (1 - Qmin repetition_ratio 0.8) 0.2.

Definition _repetition_penalty (text : str) : outcome Q :=
  if Nat.eqb (length text) 0 || (length text <? 20)%nat then Return 0.7
  else
    let words := PyStr.split (PyStr.lower text) in
    if (length words <? 5)%nat then Return 0.8
    else
      if Nat.eqb (length (ngrams_of 3 words)) 0 then Return 0.8
      else
        obind (repetition_ratio text words) (fun repetition_ratio =>
        let score := 1 - Qmin repetition_ratio 0.8 in
        Return (Qmax score 0.2)).

(** The dictionary that [calculate_all] returns, from the five scores. *)
Definition metrics_of (c p l r s : Q) : gmap string Q :=
  <["overall_score" := 0 + c * 0.25 + p * 0.30 + l * 0.15 + r * 0.15 + s * 0.15]>
  (<["structural_richness" := s]>
  (<["repetition_penalty" := r]>
  (<["length_appropriateness" := l]>
  (<["completeness_score" := p]>
  (<["coherence_score" := c]> ∅)))))%string.

Definition metric_keys : list string :=
  ["coherence_score"; "completeness_score"; "length_appropriateness";
   "repetition_penalty"; "structural_richness"; "overall_score"]%string.

(** The text made of ten copies of [s] separated by single spaces. *)
Definition ten_times (s : str) : str := PyStr.join (lit " ") (replicate 10 s).

Definition formatting_markers : list str :=
  map lit ["**"; "*"; "_"; "`"; "#"]%string.

(** [s.split()[0].lower() if s.split() else '']. *)
Definition starter (s : str) : str :=
  match PyStr.split s with
  | w :: _ => PyStr.lower w
  | [] => []
  end.

Definition _structural_richness (text : str) : outcome Q :=
  if Nat.eqb (length text) 0 then Return 0
  else
    let score := 0 in
    (* Paragraph breaks (30% weight) *)
    let paragraphs := PyStr.split_sep text (lit (String "010" (String "010" ""))) in
    let score :=
      if (1 <? length paragraphs)%nat then
        let paragraph_score := Qmin (len paragraphs / 5) 1 in
        score + paragraph_score * 0.3
      else score + 0.1 in
    (* List detection (30% weight) *)
    let list_count :=
      (PyStr.findall_count PyStr.numbered 0 text
       + PyStr.findall_count PyStr.bulleted 0 text
       + PyStr.findall_count PyStr.lettered 0 text)%nat in
    let score :=
      if (0 <? list_count)%nat then
        let list_score := Qmin (of_nat list_count / 3) 1 in
        score + list_score * 0.3
      else score in
    (* Formatting markers (20% weight) *)
    let formatting_count :=
      fold_right Nat.add 0%nat (map (PyStr.count text) formatting_markers) in
    let formatting_score := Qmin (of_nat formatting_count / 5) 1 in
    let score := score + formatting_score * 0.2 in
    (* Sentence variety (20% weight) *)
    let sentences := sentences_of text in
    obind (if (1 <? length sentences)%nat then
             let starters := map starter (take 10 sentences) in
             let unique_starters := size (list_to_set starters : gset str) in
             obind (truediv (of_nat unique_starters) (Qmax (len sentences) 5))
               (fun q =>
             let variety_score := Qmin q 1 in
             Return (score + variety_score * 0.2))
           else Return score) (fun score =>
    Return (Qmin score 1)).

(** The dictionary [weights], in the order of its keys. *)
Definition weights : list (string * Q) :=
  [("coherence_score", 0.25); ("completeness_score", 0.30);
   ("length_appropriateness", 0.15); ("repetition_penalty", 0.15);
   ("structural_richness", 0.15)]%string.

(** [metrics[key]] on the dictionary of scores. *)
Definition metric (metrics : gmap string Q) (key : string) : outcome Q :=
  match metrics !! key with
  | Some v => Return v
  | None => Raise (KeyError key)
  end.

(** [sum(metrics[key] * weights[key] for key in weights)]. *)
Fixpoint weighted_sum (metrics : gmap string Q) (ws : list (string * Q)) (acc : Q)
    : outcome Q :=
  match ws with
  | [] => Return acc
  | (key, w) :: ws' =>
      obind (metric metrics key) (fun v => weighted_sum metrics ws' (acc + v * w))
  end.

Definition calculate_all (response_text prompt : str) (tokens_used : option Z)
    : outcome (gmap string Q) :=
  obind (_coherence_score response_text) (fun coherence_score =>
  obind (_completeness_score response_text prompt) (fun completeness_score =>
  obind (_length_appropriateness response_text prompt tokens_used)
    (fun length_appropriateness =>
  obind (_repetition_penalty response_text) (fun repetition_penalty =>
  obind (_structural_richness response_text) (fun structural_richness =>
  let metrics : gmap string Q :=
    <["structural_richness" := structural_richness]>
    (<["repetition_penalty" := repetition_penalty]>
    (<["length_appropriateness" := length_appropriateness]>
    (<["completeness_score" := completeness_score]>
    (<["coherence_score" := coherence_score]> ∅))))%string in
  obind (weighted_sum metrics weights 0) (fun overall_score =>
  Return (<["overall_score"%string := overall_score]> metrics))))))).

End QualityMetricsCalculator.

(* ===================================================================== *)
(** * Batch generation ([app/services/llm_service.py]) *)
(* ===================================================================== *)

Module LLMService.

(** What one call of the model provider yields: the content of the
    response and the total token count of the callback, or an exception. *)
Record reply : Type := Reply { content : str; total_tokens : Z }.

(** The generation capability.  The first argument is the position of the
    call in the batch, so that equal arguments may get different replies;
    the others are the arguments of [generate_response]. *)
Definition provider : Type :=
  nat -> str -> pyval -> pyval -> pyval -> pyval -> pyval -> str -> reply + exn.

(** The service holds the API key read by [__init__]. *)
Record t : Type := Build { api_key : str; invoke : provider }.

(** [LLMService()]: raises [ValueError] when there is no API key. *)
Definition init (key : option str) (invoke : provider) : outcome t :=
  match key with
  | Some (c :: k) => Return (Build (c :: k) invoke)
  | _ => Raise (ValueError (lit "OPENAI_API_KEY not found in environment variables"))
  end.

Definition generate_response (self : t) (i : nat) (prompt : str)
    (temperature top_p max_tokens presence_penalty frequency_penalty : pyval)
    (model : str) : outcome (gmap string pyval) :=
  match invoke self i prompt temperature top_p max_tokens presence_penalty
          frequency_penalty model with
  | inl response =>
      let tokens_used :=
        if Z.eqb (total_tokens response) 0 then VNone
        else VInt (total_tokens response) in
      Return (<["text" := VStr (content response)]>
              (<["tokens_used" := tokens_used]> ∅))
  | inr e => Raise e
  end.

(** The arguments of the task created for one combination; a missing key
    raises [KeyError] while the list of tasks is being built. *)
Definition task_of (self : t) (prompt model : str) (i : nat)
    (combo : gmap string pyval) : outcome (outcome (gmap string pyval)) :=
  obind (getitem combo "temperature") (fun temperature =>
  obind (getitem combo "top_p") (fun top_p =>
  obind (getitem combo "max_tokens") (fun max_tokens =>
  obind (getitem combo "presence_penalty") (fun presence_penalty =>
  obind (getitem combo "frequency_penalty") (fun frequency_penalty =>
  Return (generate_response self i prompt temperature top_p max_tokens
            presence_penalty frequency_penalty model)))))).

Fixpoint tasks_from (self : t) (prompt model : str) (i : nat)
    (combos : list (gmap string pyval))
    : outcome (list (outcome (gmap string pyval))) :=
  match combos with
  | [] => Return []
  | combo :: combos' =>
      obind (task_of self prompt model i combo) (fun task =>
      obind (tasks_from self prompt model (S i) combos') (fun tasks =>
      Return (task :: tasks)))
  end.

(** [asyncio.gather] over the tasks, with [return_exceptions=True]: every task that
    completes stores its result, or the exception it raised, in the slot
    of its own position; [completion_order] lists the tasks in the order
    in which they complete. *)
Definition gather_slots {A} (tasks : list A) (completion_order : list nat)
    : list (option A) :=
  foldl (fun slots i =>
           match tasks !! i with
           | Some r => <[i := Some r]> slots
           | None => slots
           end)
    (replicate (length tasks) None) completion_order.

(** The awaited value: the list of all results once every slot is filled. *)
Definition gather {A} (tasks : list A) (completion_order : list nat)
    : outcome (list A) :=
  match mapM id (gather_slots tasks completion_order) with
  | Some results => Return results
  | None => OutOfFuel
  end.

(** The body of the loop over [enumerate(completed_tasks)]. *)
Definition collect (combo : gmap string pyval)
    (result : outcome (gmap string pyval)) : gmap string pyval :=
  match result with
  | Return result => dict_update result combo
  | Raise e =>
      dict_update
        (<["text" := VStr (lit "Error: " ++ exn_str e)]>
         (<["tokens_used" := VNone]> ∅))
        combo
  | OutOfFuel => combo
  end.

Definition generate_batch (self : t) (completion_order : list nat)
    (prompt : str) (parameter_combinations : list (gmap string pyval))
    (model : str) : outcome (list (gmap string pyval)) :=
  obind (tasks_from self prompt model 0 parameter_combinations) (fun tasks =>
  obind (gather tasks completion_order) (fun completed_tasks =>
  Return (zip_with collect parameter_combinations completed_tasks))).

Definition parameter_keys : list string :=
  ["temperature"; "top_p"; "max_tokens"; "presence_penalty"; "frequency_penalty"].

(** A dictionary with exactly the five parameter keys. *)
Definition is_combination (combo : gmap string pyval) : Prop :=
  dom combo = list_to_set parameter_keys.

(** What the provider answers to the call made for [combo] at position
    [i], and the task of that call. *)
Definition reply_of (self : t) (prompt model : str) (i : nat)
    (combo : gmap string pyval) : reply + exn :=
  invoke self i prompt
    (dict_get combo "temperature") (dict_get combo "top_p")
    (dict_get combo "max_tokens") (dict_get combo "presence_penalty")
    (dict_get combo "frequency_penalty") model.

Definition call_of (self : t) (prompt model : str) (i : nat)
    (combo : gmap string pyval) : outcome (gmap string pyval) :=
  generate_response self i prompt
    (dict_get combo "temperature") (dict_get combo "top_p")
    (dict_get combo "max_tokens") (dict_get combo "presence_penalty")
    (dict_get combo "frequency_penalty") model.

(** Each of the [n] calls completes at some point. *)
Definition every_call_completes (n : nat) (completion_order : list nat) : Prop :=
  Forall (fun i => i ∈ completion_order) (seq 0 n).

(** The text and the token count of the entry made from a reply. *)
Definition outcome_text (r : reply + exn) : str :=
  match r with
  | inl response => content response
  | inr e => lit "Error: " ++ exn_str e
  end.

Definition outcome_tokens (r : reply + exn) : option Z :=
  match r with
  | inl response =>
      if Z.eqb (total_tokens response) 0 then None else Some (total_tokens response)
  | inr _ => None
  end.

(** An entry with no text: the key is absent or bound to [None]. *)
Definition no_text (entry : gmap string pyval) : Prop :=
  entry !! "text" = None \/ entry !! "text" = Some VNone.

End LLMService.

(* ===================================================================== *)
(** * The route [create_experiment] ([app/api/experiments.py]) *)
(* ===================================================================== *)

Module Api.

(** A row of the table [responses]. *)
Record Response : Type := {
  temperature : pyval;
  top_p : pyval;
  max_tokens : pyval;
  presence_penalty : pyval;
  frequency_penalty : pyval;
  response_text : str;
  tokens_used : option Z;
  metrics : gmap string Q
}.

Definition as_str (v : pyval) : outcome str :=
  match v with
  | VStr s => Return s
  | _ => Raise TypeError
  end.

Definition as_tokens (v : pyval) : outcome (option Z) :=
  match v with
  | VNone => Return None
  | VInt n => Return (Some n)
  | _ => Raise TypeError
  end.

(** The body of the loop that computes metrics and saves responses. *)
Definition score (prompt : str) (llm_result : gmap string pyval) : outcome Response :=
  obind (getitem llm_result "text") (fun text =>
  obind (as_str text) (fun text =>
  obind (as_tokens (dict_get llm_result "tokens_used")) (fun tokens =>
  obind (QualityMetricsCalculator.calculate_all text prompt tokens)
    (fun metrics_dict =>
  obind (getitem llm_result "temperature") (fun temperature =>
  obind (getitem llm_result "top_p") (fun top_p =>
  obind (getitem llm_result "max_tokens") (fun max_tokens =>
  obind (getitem llm_result "presence_penalty") (fun presence_penalty =>
  obind (getitem llm_result "frequency_penalty") (fun frequency_penalty =>
  Return {| temperature := temperature; top_p := top_p;
            max_tokens := max_tokens; presence_penalty := presence_penalty;
            frequency_penalty := frequency_penalty; response_text := text;
            tokens_used := tokens; metrics := metrics_dict |}))))))))).

(** The environment of a request: the API key of the process, the model
    provider, and the order in which the concurrent calls complete. *)
Record env : Type := {
  api_key : option str;
  invoke : LLMService.provider;
  completion_order : list nat
}.

(** [except Exception as e] around [generate_batch]. *)
Definition guard_batch {A} (m : outcome A) : outcome A :=
  match m with
  | Raise e =>
      Raise (HTTPException 500 (lit "Error generating LLM responses: " ++ exn_str e))
  | _ => m
  end.

(** The route.  The first component of the result is the list of
    combinations for which a generation call has been issued; the second
    is the outcome of the request.  The request body is validated against
    the schema before the body of the route runs. *)
Definition create_experiment (e : env) (fuel : nat) (body : ExperimentRequest.t)
    : list (gmap string pyval) * outcome (list Response) :=
  match ExperimentRequest.validate body with
  | Return request =>
      match ExperimentService.validate_parameter_ranges request with
      | Return (false, error_msg) =>
          ([], Raise (HTTPException 400
                        (match error_msg with Some m => m | None => [] end)))
      | Return (true, _) =>
          match ExperimentService.generate_parameter_combinations fuel request with
          | Return combinations =>
              match LLMService.init (api_key e) (invoke e) with
              | Return llm_service =>
                  match LLMService.tasks_from llm_service
                          (ExperimentRequest.prompt request)
                          (ExperimentRequest.model request) 0 combinations with
                  | Return _ =>
                      (combinations,
                       obind (guard_batch
                                (LLMService.generate_batch llm_service
                                   (completion_order e)
                                   (ExperimentRequest.prompt request) combinations
                                   (ExperimentRequest.model request)))
                         (omapM (score (ExperimentRequest.prompt request))))
                  | Raise x =>
                      ([], Raise (HTTPException 500
                                    (lit "Error generating LLM responses: "
                                     ++ exn_str x)))
                  | OutOfFuel => ([], OutOfFuel)
                  end
              | Raise x => ([], Raise x)
              | OutOfFuel => ([], OutOfFuel)
              end
          | Raise x => ([], Raise x)
          | OutOfFuel => ([], OutOfFuel)
          end
      | Raise x => ([], Raise x)
      | OutOfFuel => ([], OutOfFuel)
      end
  | Raise x => ([], Raise x)
  | OutOfFuel => ([], OutOfFuel)
  end.

End Api.

(* ===================================================================== *)
(** * Response schemas ([app/models/schemas.py]) *)
(* ===================================================================== *)

Module QualityMetrics.

(** The fields of [class QualityMetrics(BaseModel)]. *)
Record t : Type := Build {
  coherence_score : Q;
  completeness_score : Q;
  length_appropriateness : Q;
  repetition_penalty : Q;
  structural_richness : Q;
  overall_score : Q
}.

(** One field of [QualityMetrics] built from the entries of [d]:
    [Field(..., ge=0, le=1)]. *)
Definition field (d : gmap string Q) (key : string) : outcome Q :=
  match d !! key with
  | None => Raise (ValidationError (lit "Field required"))
  | Some v =>
      if negb (Qle_bool 0 v) then
        Raise (ValidationError (lit "Input should be greater than or equal to 0"))
      else if negb (Qle_bool v 1) then
        Raise (ValidationError (lit "Input should be less than or equal to 1"))
      else Return v
  end.

(** [QualityMetrics] built from the entries of [d]: the six fields are
    required and validated, any other key of [d] is ignored. *)
Definition from_dict (d : gmap string Q) : outcome t :=
  obind (field d "coherence_score") (fun c =>
  obind (field d "completeness_score") (fun p =>
  obind (field d "length_appropriateness") (fun l =>
  obind (field d "repetition_penalty") (fun r =>
  obind (field d "structural_richness") (fun s =>
  obind (field d "overall_score") (fun o =>
  Return (Build c p l r s o))))))).

(** [QualityMetrics(coherence_score=0.0, ..., overall_score=0.0)]. *)
Definition zeros : t := Build 0 0 0 0 0 0.

End QualityMetrics.

(** A [datetime] value. *)
Definition datetime : Type := Z.

Module ResponseResult.

(** The fields of [class ResponseResult(BaseModel)]. *)
Record t : Type := Build {
  id : Z;
  temperature : float;
  top_p : float;
  max_tokens : Z;
  presence_penalty : float;
  frequency_penalty : float;
  response_text : str;
  tokens_used : option Z;
  metrics : QualityMetrics.t;
  created_at : datetime
}.

End ResponseResult.

Module ExperimentResponse.

(** The fields of [class ExperimentResponse(BaseModel)]. *)
Record t : Type := Build {
  id : Z;
  name : option str;
  prompt : str;
  created_at : datetime;
  responses : list ResponseResult.t
}.

End ExperimentResponse.

Module ExperimentSummary.

(** The fields of [class ExperimentSummary(BaseModel)]. *)
Record t : Type := Build {
  id : Z;
  name : option str;
  prompt : str;
  created_at : datetime;
  response_count : Z
}.

End ExperimentSummary.

(** A required [datetime] field: [None] is refused. *)
Definition required_datetime (v : option datetime) : outcome datetime :=
  match v with
  | Some d => Return d
  | None => Raise (ValidationError (lit "Input should be a valid datetime"))
  end.

(* ===================================================================== *)
(** * Stored rows ([app/db/models.py]) *)
(* ===================================================================== *)

Module Response.

(** A row of the table [responses]. *)
Record t : Type := Build {
  id : Z;
  experiment_id : Z;
  temperature : float;
  top_p : float;
  max_tokens : Z;
  presence_penalty : float;
  frequency_penalty : float;
  response_text : str;
  tokens_used : option Z;
  metrics : option (gmap string Q);
  created_at : option datetime
}.

End Response.

Module Experiment.

(** A row of the table [experiments] with its relationship [responses]
    (cascade ["all, delete-orphan"]: the responses go with their
    experiment). *)
Record t : Type := Build {
  id : Z;
  name : option str;
  prompt : str;
  created_at : option datetime;
  updated_at : option datetime;
  responses : list Response.t
}.

End Experiment.

(* ===================================================================== *)
(** * The reading routes ([app/api/experiments.py]) *)
(* ===================================================================== *)

Module Routes.

(** [db.query(Experiment).filter(Experiment.id == experiment_id).first()]
    on the rows of the table. *)
Definition first_with_id (experiment_id : Z) (db : list Experiment.t)
    : option Experiment.t :=
  List.find (fun e => Z.eqb (Experiment.id e) experiment_id) db.

Definition not_found (experiment_id : Z) : exn :=
  HTTPException 404 (lit "Experiment " ++ str_of_int experiment_id ++ lit " not found").

(** The truth value of [resp.metrics]: [None] and the empty dictionary are
    falsy. *)
Definition truthy_metrics (m : option (gmap string Q)) : bool :=
  match m with
  | Some d => negb (Nat.eqb (size d) 0)
  | None => false
  end.

Definition the_metrics (m : option (gmap string Q)) : gmap string Q :=
  match m with Some d => d | None => ∅ end.

(** One [ResponseResult(...)] of [_experiment_to_response]. *)
Definition response_result (resp : Response.t) : outcome ResponseResult.t :=
  obind (if truthy_metrics (Response.metrics resp)
         then QualityMetrics.from_dict (the_metrics (Response.metrics resp))
         else Return QualityMetrics.zeros) (fun metrics =>
  obind (required_datetime (Response.created_at resp)) (fun created_at =>
  Return (ResponseResult.Build (Response.id resp) (Response.temperature resp)
            (Response.top_p resp) (Response.max_tokens resp)
            (Response.presence_penalty resp) (Response.frequency_penalty resp)
            (Response.response_text resp) (Response.tokens_used resp)
            metrics created_at))).

Definition _experiment_to_response (experiment : Experiment.t)
    : outcome ExperimentResponse.t :=
  obind (omapM response_result (Experiment.responses experiment)) (fun responses =>
  obind (required_datetime (Experiment.created_at experiment)) (fun created_at =>
  Return (ExperimentResponse.Build (Experiment.id experiment)
            (Experiment.name experiment) (Experiment.prompt experiment)
            created_at responses))).

(** [exp.prompt[:100] + "..." if len(exp.prompt) > 100 else exp.prompt]. *)
Definition summary_prompt (prompt : str) : str :=
  if (100 <? length prompt)%nat then take 100 prompt ++ lit "..." else prompt.

Definition summary_of (exp : Experiment.t) : outcome ExperimentSummary.t :=
  obind (required_datetime (Experiment.created_at exp)) (fun created_at =>
  Return (ExperimentSummary.Build (Experiment.id exp) (Experiment.name exp)
            (summary_prompt (Experiment.prompt exp)) created_at
            (Z.of_nat (length (Experiment.responses exp))))).

(** [db.query(Experiment).offset(skip).limit(limit).all()] for [skip] and
    [limit] that are not negative, then one summary per experiment. *)
Definition list_experiments (skip limit : nat) (db : list Experiment.t)
    : outcome (list ExperimentSummary.t) :=
  omapM summary_of (take limit (drop skip db)).

Definition get_experiment (experiment_id : Z) (db : list Experiment.t)
    : outcome ExperimentResponse.t :=
  match first_with_id experiment_id db with
  | None => Raise (not_found experiment_id)
  | Some experiment => _experiment_to_response experiment
  end.

(** The table without the row that [first_with_id] finds. *)
Fixpoint without_first (experiment_id : Z) (db : list Experiment.t)
    : list Experiment.t :=
  match db with
  | [] => []
  | e :: db' =>
      if Z.eqb (Experiment.id e) experiment_id then db'
      else e :: without_first experiment_id db'
  end.

(** The route returns the new state of the table and its outcome. *)
Definition delete_experiment (experiment_id : Z) (db : list Experiment.t)
    : list Experiment.t * outcome unit :=
  match first_with_id experiment_id db with
  | None => (db, Raise (not_found experiment_id))
  | Some experiment => (without_first experiment_id db, Return tt)
  end.

(** A value handed to [csv.writer.writerow]; how the writer prints a
    value is the writer's business. *)
Inductive cell : Type :=
  | CInt (n : Z)
  | CFloat (x : float)
  | CScore (q : Q)
  | CStr (s : str)
  | CIso (d : datetime).

Definition csv_header : list cell :=
  map (fun s => CStr (lit s))
    ["Response ID"; "Temperature"; "Top P"; "Max Tokens"; "Presence Penalty";
     "Frequency Penalty"; "Response Text"; "Tokens Used"; "Coherence Score";
     "Completeness Score"; "Length Appropriateness"; "Repetition Penalty";
     "Structural Richness"; "Overall Score"; "Created At"]%string.

(** [s.replace(old, new)] for one-character [old] and [new]. *)
Definition replace_char (old new : ascii) (s : str) : str :=
  map (fun c => if Ascii.eqb c old then new else c) s.

(** [metrics.get(key, "")]. *)
Definition metric_cell (metrics : gmap string Q) (key : string) : cell :=
  match metrics !! key with
  | Some v => CScore v
  | None => CStr []
  end.

(** [resp.tokens_used or ""]. *)
Definition tokens_cell (tokens_used : option Z) : cell :=
  match tokens_used with
  | Some n => if Z.eqb n 0 then CStr [] else CInt n
  | None => CStr []
  end.

Definition csv_row (resp : Response.t) : list cell :=
  (* resp.metrics or {} *)
  let metrics :=
    if truthy_metrics (Response.metrics resp) then the_metrics (Response.metrics resp)
    else ∅ in
  [CInt (Response.id resp); CFloat (Response.temperature resp);
   CFloat (Response.top_p resp); CInt (Response.max_tokens resp);
   CFloat (Response.presence_penalty resp); CFloat (Response.frequency_penalty resp);
   CStr (replace_char "013" " " (replace_char "010" " " (Response.response_text resp)));
   tokens_cell (Response.tokens_used resp);
   metric_cell metrics "coherence_score"; metric_cell metrics "completeness_score";
   metric_cell metrics "length_appropriateness"; metric_cell metrics "repetition_penalty";
   metric_cell metrics "structural_richness"; metric_cell metrics "overall_score";
   match Response.created_at resp with Some d => CIso d | None => CStr [] end]%string.

(** What [export_experiment] returns: the dumped response model, or the
    rows written to the CSV attachment and its file name. *)
Inductive export : Type :=
  | ExportJson (response : ExperimentResponse.t)
  | ExportCsv (filename : str) (rows : list (list cell)).

Definition unsupported_format (format : str) : exn :=
  HTTPException 400
    (lit "Unsupported format: " ++ format ++ lit ". Use 'json' or 'csv'.").

Definition export_experiment (experiment_id : Z) (format : str)
    (db : list Experiment.t) : outcome export :=
  match first_with_id experiment_id db with
  | None => Raise (not_found experiment_id)
  | Some experiment =>
      if bool_decide (format = lit "json") then
        obind (_experiment_to_response experiment) (fun r => Return (ExportJson r))
      else if bool_decide (format = lit "csv") then
        Return (ExportCsv
                  (lit "experiment_" ++ str_of_int experiment_id ++ lit ".csv")
                  (csv_header :: map csv_row (Experiment.responses experiment)))
      else Raise (unsupported_format format)
  end.

End Routes.

(* ===================================================================== *)
(** * Notions used in the statements *)
(* ===================================================================== *)

(** The score that the token count leaves: multiplied by 0.8 when the
    count is positive and there are fewer than two characters per token. *)
Definition after_tokens (text : str) (tokens_used : option Z) (score : Q) : Q :=
  match tokens_used with
  | Some tokens =>
      if ((0 <? tokens) && (Z.of_nat (length text) <? 2 * tokens))%Z
      then (score * 0.8)%Q else score
  | None => score
  end.

(** A range that the expansion reads without stepping: it is absent, or
    lists explicit values, or has no step (or a zero step). *)
Definition step_free (param_range : option ParameterRange.t) : bool :=
  match param_range with
  | None => true
  | Some r =>
      ExperimentService.truthy_values (ParameterRange.values r)
      || negb (ExperimentService.truthy_step (ParameterRange.step r))
  end.

(** A dictionary that the schema [QualityMetrics] accepts: the six scores
    are present and lie in the unit interval. *)
Definition valid_metrics (d : gmap string Q) : Prop :=
  Forall (fun key => exists v, d !! key = Some v /\ (0 <= v)%Q /\ (v <= 1)%Q)
    QualityMetricsCalculator.metric_keys.

(** A stored response that the conversion accepts: it has its creation
    time, and its metrics are missing, empty or valid. *)
Definition readable (resp : Response.t) : Prop :=
  is_Some (Response.created_at resp)
  /\ (Routes.truthy_metrics (Response.metrics resp) = true ->
      valid_metrics (Routes.the_metrics (Response.metrics resp))).

(* ===================================================================== *)
(** * Sample requests, providers and texts *)
(* ===================================================================== *)

Module Examples.

Definition step_range (min max step : float) : option ParameterRange.t :=
  Some (ParameterRange.Build min max (Some step) None).

Definition request_with (temperature : option ParameterRange.t)
    : ExperimentRequest.t :=
  ExperimentRequest.Build (lit "Explain photosynthesis") None temperature
    None None None None (lit "gpt-3.5-turbo").

(** Temperature from 0 to 1 in steps of 0.5. *)
Definition sweep_request : ExperimentRequest.t :=
  request_with (step_range 0 1 0.5).

(** Temperature from 0 to 0.6 and nucleus threshold from 0 to 0.7, both in
    steps of 0.1; and temperature from 0 to 1 in steps of 0.02. *)
Definition fine_request : ExperimentRequest.t :=
  ExperimentRequest.Build (lit "Explain photosynthesis") None
    (step_range 0 0.6 0.1) (step_range 0 0.7 0.1) None None None
    (lit "gpt-3.5-turbo").

Definition fifty_request : ExperimentRequest.t :=
  request_with (step_range 0 1 0.02).

Definition zero_step_request : ExperimentRequest.t :=
  request_with (step_range 0 1 0).

Definition inverted_range : ParameterRange.t :=
  ParameterRange.Build 1 0 None None.

Definition inverted_request : ExperimentRequest.t :=
  request_with (Some inverted_range).

(** A negative step that the addition absorbs: [2.0 ** 60 - 1.0] is
    [2.0 ** 60]. *)
Definition absorbed_step_request : ExperimentRequest.t :=
  request_with (step_range 1152921504606846976 2305843009213693952 (-1)).

Definition answer : str :=
  lit "Plants turn light into sugar. However, they also need water.".

(** A provider that answers every call, and one whose call at position
    [k] fails. *)
Definition answering : LLMService.provider :=
  fun _ _ _ _ _ _ _ _ => inl (LLMService.Reply answer 42).

Definition failing_at (k : nat) : LLMService.provider :=
  fun i _ _ _ _ _ _ _ =>
    if Nat.eqb i k then inr (LLMError (lit "rate limit exceeded"))
    else inl (LLMService.Reply answer 42).

Definition env_of (invoke : LLMService.provider) (completion_order : list nat)
    : Api.env :=
  {| Api.api_key := Some (lit "sk-test"); Api.invoke := invoke;
     Api.completion_order := completion_order |}.

Definition service_of (invoke : LLMService.provider) : LLMService.t :=
  LLMService.Build (lit "sk-test") invoke.

Definition prompt : str := lit "Explain photosynthesis".

Definition model : str := lit "gpt-3.5-turbo".

Definition two_combinations : list (gmap string pyval) :=
  [ExperimentService.combination 0 1 1000 0 0;
   ExperimentService.combination 1 1 1000 0 0].

Definition sweep_combinations : list (gmap string pyval) :=
  [ExperimentService.combination 0 1 1000 0 0;
   ExperimentService.combination 0.5 1 1000 0 0;
   ExperimentService.combination 1 1 1000 0 0].

Definition sample_text : str :=
  lit "Photosynthesis is the process by which plants make food. However, it requires sunlight! Does it need water? Yes, indeed it does.".

Definition sample_metrics : gmap string Q :=
  Eval vm_compute in
    match QualityMetricsCalculator.calculate_all sample_text prompt None with
    | Return metrics => metrics
    | _ => ∅
    end.

(** Ten sentences that differ in their last word only, and a text of ten
    different short sentences. *)
Definition going (w : string) : str :=
  lit "go go go go go go go go go go go go go go " ++ lit w ++ lit ".".

Definition going_sentences : list str :=
  map going ["a"; "b"; "c"; "d"; "e"; "f"; "g"; "h"; "i"; "j"]%string.

Definition going_text : str := PyStr.join (lit " ") going_sentences.

Definition stop_sentences : list str :=
  map lit ["Stop."; "Wait."; "Look."; "Turn."; "Walk."; "Jump."; "Read."; "Sing.";
           "Play."; "Rest."]%string.

Definition varied_text : str :=
  PyStr.join (lit " ")
    (map lit ["The cat sat down."; "A dog ran off."; "My bird flew up.";
              "Her fish swam by."; "One frog hopped in."; "Two cows ate hay.";
              "Six pigs dug mud."; "Ten ants got lost."; "His owl saw mice.";
              "Our fox hid well."]%string).

End Examples.

(* ===================================================================== *)
(** * Sample rows and further sample requests *)
(* ===================================================================== *)

Module Samples.

(** Temperature from 0 to 1 in steps of 0.5 and two explicit frequency
    penalties: six combinations. *)
Definition grid_request : ExperimentRequest.t :=
  ExperimentRequest.Build (lit "Explain photosynthesis") None
    (Examples.step_range 0 1 0.5) None None None
    (Some (ParameterRange.Build 0 2 None (Some [0; 0.5]%float)))
    (lit "gpt-3.5-turbo").

Definition grid_combinations : list (gmap string pyval) :=
  [ExperimentService.combination 0 1 1000 0 0;
   ExperimentService.combination 0 1 1000 0 0.5;
   ExperimentService.combination 0.5 1 1000 0 0;
   ExperimentService.combination 0.5 1 1000 0 0.5;
   ExperimentService.combination 1 1 1000 0 0;
   ExperimentService.combination 1 1 1000 0 0.5].

(** Explicit temperatures and a top-p given by min and max only. *)
Definition listed_request : ExperimentRequest.t :=
  ExperimentRequest.Build (lit "Explain photosynthesis") None
    (Some (ParameterRange.Build 0 2 None (Some [0.2; 0.7; 1.2]%float)))
    (Some (ParameterRange.Build 0.5 1 None None)) None None None
    (lit "gpt-3.5-turbo").

Definition stored (id : Z) (text : str) (tokens_used : option Z)
    (metrics : option (gmap string Q)) : Response.t :=
  Response.Build id 1 0.7 1 1000 0 0 text tokens_used metrics (Some 1700000000%Z).

Definition two_lines : str :=
  lit "Plants make sugar." ++ ["010"; "013"]%char ++ lit "They need light.".

(** An experiment with a scored response and a response of two lines
    that has neither metrics nor token count. *)
Definition first_experiment : Experiment.t :=
  Experiment.Build 1 (Some (lit "baseline")) (lit "Explain photosynthesis")
    (Some 1700000000%Z) None
    [stored 1 Examples.sample_text (Some 42%Z) (Some Examples.sample_metrics);
     stored 2 two_lines None None].

(** An experiment with a response whose stored coherence is 1.5. *)
Definition damaged_experiment : Experiment.t :=
  Experiment.Build 2 None (lit "Explain photosynthesis") (Some 1700000000%Z) None
    [stored 3 Examples.answer (Some 12%Z)
       (Some (<["coherence_score"%string := 1.5%Q]> Examples.sample_metrics))].

(** An experiment with a prompt of 130 characters and no response. *)
Definition long_experiment : Experiment.t :=
  Experiment.Build 3 None (concat (replicate 10 (lit "Explain this.")))
    (Some 1700000000%Z) None [].

Definition table : list Experiment.t :=
  [first_experiment; damaged_experiment; long_experiment].

End Samples.

(* ===================================================================== *)
(** * Properties *)
(* ===================================================================== *)

Local Open Scope string_scope.
Local Open Scope list_scope.

(** ** Outcomes and parameter expansion *)

Section Outcomes.
Lemma obind_Return_inv {A B} (m : outcome A) (k : A -> outcome B) (b : B) :
  obind m k = Return b -> exists a, m = Return a /\ k a = Return b.
Proof. destruct m as [a| |]; simpl; [eauto | discriminate | discriminate]. Qed.

Lemma omapM_length {A B} (f : A -> outcome B) (l : list A) (bs : list B) :
  omapM f l = Return bs -> length bs = length l.
Proof.
  revert bs. induction l as [|a l IH]; intros bs H; simpl in H.
  - by inversion H.
  - apply obind_Return_inv in H as (b & _ & H).
    apply obind_Return_inv in H as (bs' & Hbs & H).
    inversion H; subst. simpl. f_equal. by apply IH.
Qed.
Lemma length_Return_inv {A} (m : outcome (list A)) (n : nat) :
  obind m (fun l => Return (length l)) = Return n ->
  exists l, m = Return l /\ length l = n.
Proof.
  intros H. apply obind_Return_inv in H as (l & -> & H). exists l.
  split; [done | by inversion H].
Qed.
End Outcomes.

Section Expansion.
Import ExperimentService.

Lemma length_bind_const {A B} (f : A -> list B) (l : list A) (n : nat) :
  (forall a, length (f a) = n) -> length (l ≫= f) = length l * n.
Proof.
  intros Hf. induction l as [|a l IH]; [done|].
  rewrite bind_cons, length_app, Hf, IH. simpl. lia.
Qed.

Lemma length_product5 (ts ps : list float) (ms : list Z) (pps fps : list float) :
  length (product5 ts ps ms pps fps)
  = length ts * (length ps * (length ms * (length pps * length fps))).
Proof.
  unfold product5.
  apply length_bind_const. intros t.
  apply length_bind_const. intros p.
  apply length_bind_const. intros m.
  apply length_bind_const. intros pp.
  rewrite (length_bind_const _ fps 1); [lia | done].
Qed.

Lemma generate_parameter_combinations_inv (fuel : nat) (request : ExperimentRequest.t)
    (combos : list (gmap string pyval)) :
  generate_parameter_combinations fuel request = Return combos ->
  exists ts ps vs ms pps fps,
    get_values fuel (ExperimentRequest.temperature request) 0.7%float = Return ts
    /\ get_values fuel (ExperimentRequest.top_p request) 1.0%float = Return ps
    /\ get_values fuel (ExperimentRequest.max_tokens request) 1000%float = Return vs
    /\ omapM PyFloat.to_int vs = Return ms
    /\ get_values fuel (ExperimentRequest.presence_penalty request) 0.0%float
       = Return pps
    /\ get_values fuel (ExperimentRequest.frequency_penalty request) 0.0%float
       = Return fps
    /\ combos = product5 ts ps ms pps fps.
Proof.
  unfold generate_parameter_combinations. intros H.
  apply obind_Return_inv in H as (ts & Hts & H).
  apply obind_Return_inv in H as (ps & Hps & H).
  apply obind_Return_inv in H as (ms & Hms & H).
  apply obind_Return_inv in Hms as (vs & Hvs & Hms).
  apply obind_Return_inv in H as (pps & Hpps & H).
  apply obind_Return_inv in H as (fps & Hfps & H).
  exists ts, ps, vs, ms, pps, fps. repeat split; try assumption. by inversion H.
Qed.

Lemma total_combinations_agrees (fuel : nat) (request : ExperimentRequest.t)
    (combos : list (gmap string pyval)) :
  slot_agrees fuel (ExperimentRequest.temperature request) 0.7%float ->
  slot_agrees fuel (ExperimentRequest.top_p request) 1.0%float ->
  slot_agrees fuel (ExperimentRequest.max_tokens request) 1000%float ->
  slot_agrees fuel (ExperimentRequest.presence_penalty request) 0.0%float ->
  slot_agrees fuel (ExperimentRequest.frequency_penalty request) 0.0%float ->
  generate_parameter_combinations fuel request = Return combos ->
  total_combinations request = Return (Z.of_nat (length combos)).
Proof.
  intros (ts & Hts & Ct) (ps & Hps & Cp) (vs & Hvs & Cv) (pps & Hpps & Cpp)
    (fps & Hfps & Cfp) H.
  apply generate_parameter_combinations_inv in H
    as (ts' & ps' & vs' & ms & pps' & fps' & Hts' & Hps' & Hvs' & Hms & Hpps'
        & Hfps' & ->).
  rewrite Hts in Hts'. rewrite Hps in Hps'. rewrite Hvs in Hvs'.
  rewrite Hpps in Hpps'. rewrite Hfps in Hfps'.
  inversion Hts'; inversion Hps'; inversion Hvs'; inversion Hpps';
    inversion Hfps'; subst.
  unfold total_combinations. rewrite Ct, Cp, Cv, Cpp, Cfp. cbn [obind].
  rewrite length_product5, (omapM_length _ _ _ Hms). f_equal. lia.
Qed.

(** On a slot that is not walked in steps the count and the enumeration
    agree by themselves; on a slot walked in steps they agree as soon as
    the step formula gives the number of values of the walk. *)
Lemma step_counting_agrees_slot (fuel : nat) (param_range : option ParameterRange.t)
    (default : float) (values : list float) :
  step_counting_agrees fuel param_range ->
  get_values fuel param_range default = Return values ->
  count_values param_range default = Return (Z.of_nat (length values)).
Proof.
  unfold step_counting_agrees, get_values, count_values.
  destruct param_range as [r|]; [|by intros _ [= <-]].
  destruct (truthy_values (ParameterRange.values r)); [by intros _ [= <-]|].
  destruct (truthy_step (ParameterRange.step r)).
  - intros (walked & Hw & Hf) H. rewrite Hw in H. cbn [obind] in H.
    unfold step_formula in Hf. rewrite Hf. inversion H. f_equal.
    destruct walked; simpl; lia.
  - intros _. by destruct (negb (PrimFloat.eqb _ _)); intros [= <-].
Qed.
End Expansion.

Section Fuel.
Import ExperimentService.

(** More fuel does not change what a loop that returned has returned. *)
Lemma get_values_loop_more_fuel (fuel fuel' : nat) (r : ParameterRange.t)
    (step : float) (values : list float) (current : float) (result : list float) :
  fuel <= fuel' ->
  get_values_loop fuel r step values current = Return result ->
  get_values_loop fuel' r step values current = Return result.
Proof.
  revert fuel' values current.
  induction fuel as [|fuel IH]; intros fuel' values current Hle H.
  - destruct fuel'; simpl in *;
      destruct (PrimFloat.leb current (ParameterRange.max r)); congruence.
  - destruct fuel' as [|fuel']; [lia|]. simpl in *.
    destruct (PrimFloat.leb current (ParameterRange.max r)); [|assumption].
    apply IH; [lia | assumption].
Qed.

Lemma get_values_more_fuel (fuel fuel' : nat) (param_range : option ParameterRange.t)
    (default : float) (result : list float) :
  fuel <= fuel' ->
  get_values fuel param_range default = Return result ->
  get_values fuel' param_range default = Return result.
Proof.
  intros Hle. unfold get_values. destruct param_range as [r|]; [|done].
  destruct (truthy_values _); [done|]. destruct (truthy_step _); [|done].
  intros H. apply obind_Return_inv in H as (values & Hv & H).
  by rewrite (get_values_loop_more_fuel _ _ _ _ _ _ _ Hle Hv).
Qed.

Lemma generate_parameter_combinations_more_fuel (fuel fuel' : nat)
    (request : ExperimentRequest.t) (combos : list (gmap string pyval)) :
  fuel <= fuel' ->
  generate_parameter_combinations fuel request = Return combos ->
  generate_parameter_combinations fuel' request = Return combos.
Proof.
  intros Hle H.
  apply generate_parameter_combinations_inv in H
    as (ts & ps & vs & ms & pps & fps & Hts & Hps & Hvs & Hms & Hpps & Hfps & ->).
  unfold generate_parameter_combinations.
  rewrite (get_values_more_fuel _ _ _ _ _ Hle Hts),
    (get_values_more_fuel _ _ _ _ _ Hle Hps),
    (get_values_more_fuel _ _ _ _ _ Hle Hvs),
    (get_values_more_fuel _ _ _ _ _ Hle Hpps),
    (get_values_more_fuel _ _ _ _ _ Hle Hfps).
  cbn [obind]. rewrite Hms. reflexivity.
Qed.
End Fuel.

(** ** Rational arithmetic *)

Section QFacts.
Local Open Scope Q_scope.
Import QualityMetricsCalculator.

Lemma of_nat_nonneg (n : nat) : 0 <= of_nat n.
Proof. unfold of_nat, Qle; simpl. lia. Qed.

Lemma of_nat_pos (n : nat) : (0 < n)%nat -> 0 < of_nat n.
Proof. intros H. unfold of_nat, Qlt; simpl. lia. Qed.

Lemma of_nat_le (n m : nat) : (n <= m)%nat -> of_nat n <= of_nat m.
Proof. intros H. unfold of_nat, Qle; simpl. lia. Qed.

Lemma len_of_nat {A} (l : list A) : len l = of_nat (length l).
Proof. reflexivity. Qed.

Lemma truediv_pos (a b : Q) : 0 < b -> truediv a b = Return (a / b).
Proof.
  intros Hb. unfold truediv.
  destruct (Qeq_bool b 0) eqn:E; [|reflexivity].
  apply Qeq_bool_iff in E. rewrite E in Hb. lra.
Qed.

Lemma truediv_zero (a b : Q) : b == 0 -> truediv a b = Raise ZeroDivisionError.
Proof.
  intros Hb. unfold truediv.
  apply Qeq_bool_iff in Hb. now rewrite Hb.
Qed.

Lemma Qdiv_nonneg (a b : Q) : 0 <= a -> 0 < b -> 0 <= a / b.
Proof. intros Ha Hb. apply Qle_shift_div_l; [assumption|lra]. Qed.

Lemma Qdiv_le_1 (a b : Q) : a <= b -> 0 < b -> a / b <= 1.
Proof. intros Ha Hb. apply Qle_shift_div_r; [assumption|lra]. Qed.

Lemma Qmin_unit (q : Q) : 0 <= q -> 0 <= Qmin q 1 <= 1.
Proof. intros H. split; [apply Q.min_glb; lra | apply Q.le_min_r]. Qed.
End QFacts.

(** ** Strings *)

Section StringFacts.
Import PyStr.

Lemma re_split_aux_free (s cur : str) (in_run : bool) :
  free_of is_terminator cur ->
  Forall (free_of is_terminator) (re_split_aux cur in_run s).
Proof.
  revert cur in_run. induction s as [|c s IH]; intros cur in_run Hcur; simpl.
  - by constructor.
  - destruct (is_terminator c) eqn:E.
    + destruct in_run.
      * apply IH. constructor.
      * constructor; [assumption|]. apply IH. constructor.
    + apply IH. apply Forall_app. split; [assumption|]. by repeat constructor.
Qed.

Lemma re_split_terminators_free (s : str) :
  Forall (free_of is_terminator) (re_split_terminators s).
Proof. apply re_split_aux_free. constructor. Qed.

Lemma elem_of_lstrip (c : ascii) (s : str) : c ∈ lstrip s -> c ∈ s.
Proof.
  induction s as [|d s IH]; simpl; [done|].
  destruct (is_space d); [|done]. intros H. right. by apply IH.
Qed.

Lemma elem_of_rev (c : ascii) (s : str) : c ∈ rev s <-> c ∈ s.
Proof. rewrite !list_elem_of_In. symmetry. apply in_rev. Qed.

Lemma elem_of_strip (c : ascii) (s : str) : c ∈ strip s -> c ∈ s.
Proof.
  unfold strip. rewrite elem_of_rev.
  intros H%elem_of_lstrip. apply (proj1 (elem_of_rev _ _)) in H. by apply elem_of_lstrip.
Qed.

Lemma strip_free (p : ascii -> bool) (s : str) : free_of p s -> free_of p (strip s).
Proof.
  unfold free_of. rewrite !Forall_forall. intros H c Hc. apply H.
  by apply elem_of_strip.
Qed.

(** White space stripped from either end is white space: the characters
    that are not white space are all kept. *)
Lemma visible_lstrip (s : str) : visible (lstrip s) = visible s.
Proof.
  unfold visible. induction s as [|c s IH]; simpl; [done|].
  destruct (is_space c) eqn:E; simpl; [done|]. by rewrite E.
Qed.

Lemma visible_rev (s : str) : visible (rev s) = visible s.
Proof. unfold visible. by rewrite List.filter_rev, length_rev. Qed.

Lemma visible_strip (s : str) : visible (strip s) = visible s.
Proof.
  unfold strip. by rewrite visible_rev, visible_lstrip, visible_rev, visible_lstrip.
Qed.

Lemma visible_le_length (s : str) : visible s <= length s.
Proof. unfold visible. apply List.filter_length_le. Qed.

Lemma visible_le_strip (s : str) : visible s <= length (strip s).
Proof. rewrite <- visible_strip. apply visible_le_length. Qed.
End StringFacts.

Section SentenceEndings.
Import PyStr QualityMetricsCalculator.
Local Open Scope Q_scope.

Lemma sentences_of_free (text : str) :
  Forall (free_of is_terminator) (sentences_of text).
Proof.
  unfold sentences_of. apply Forall_forall. intros s Hs.
  apply list_elem_of_fmap in Hs as (p & -> & Hp).
  apply strip_free.
  apply list_elem_of_In, List.filter_In in Hp as [Hp _].
  pose proof (re_split_terminators_free text) as H.
  rewrite Forall_forall in H. apply H. by apply list_elem_of_In.
Qed.

Lemma proper_ending_free (s : str) : free_of is_terminator s -> proper_ending s = false.
Proof.
  intros H. unfold proper_ending. destruct (last s) as [c|] eqn:E; [|done].
  apply last_Some_elem_of in E. unfold free_of in H. rewrite Forall_forall in H.
  by apply H.
Qed.

Lemma proper_endings_zero (text : str) :
  count_if proper_ending (sentences_of text) = 0%nat.
Proof.
  unfold count_if.
  pose proof (sentences_of_free text) as H.
  induction H as [|s l Hs _ IH]; simpl; [done|].
  by rewrite (proper_ending_free s Hs).
Qed.
End SentenceEndings.

(** ** Coherence *)

Section Coherence.
Import PyStr QualityMetricsCalculator.
Local Open Scope Q_scope.

Lemma len_pos {A} (l : list A) : (0 < length l)%nat -> 0 < len l.
Proof. apply of_nat_pos. Qed.

Lemma len_nonneg {A} (l : list A) : 0 <= len l.
Proof. apply of_nat_nonneg. Qed.

Lemma Qmax_ge_1 (q : Q) : 0 < Qmax q 1.
Proof. pose proof (Q.le_max_r q 1). lra. Qed.

Lemma variance_of_returns (lengths : list Q) :
  (0 < length lengths)%nat ->
  exists v, variance_of lengths = Return v.
Proof.
  intros H. unfold variance_of.
  rewrite truediv_pos by (by apply len_pos). simpl.
  rewrite truediv_pos by (by apply len_pos). eauto.
Qed.

Lemma variance_score_unit (variance : Q) :
  0 <= 1 - Qmin (Qabs (variance - 250) / 250) 1 <= 1.
Proof.
  assert (0 <= Qabs (variance - 250) / 250) as H.
  { apply Qdiv_nonneg; [apply Qabs_nonneg | lra]. }
  pose proof (Qmin_unit _ H). lra.
Qed.

(** The coherence score of any text: the function returns, and since no
    sentence ends in a terminator the punctuation term vanishes. *)
Lemma _coherence_score_spec (text : str) :
  exists q, _coherence_score text = Return q /\ 0 <= q <= 0.6.
Proof.
  unfold _coherence_score.
  destruct (_ || _); [eexists; split; [reflexivity | lra]|].
  pose proof (proper_endings_zero text) as Hpe.
  destruct (length (sentences_of text) <? 2)%nat eqn:Hlen;
    [eexists; split; [reflexivity | lra]|].
  apply Nat.ltb_ge in Hlen.
  destruct (sentences_of text) as [|s1 sentences] eqn:Hs; [simpl in Hlen; lia|].
  rewrite Hpe.
  set (ss := s1 :: sentences) in *.
  assert (0 < len ss) as Hpos by (apply len_pos; lia).
  rewrite truediv_pos by assumption. cbn [obind].
  rewrite truediv_pos by apply Qmax_ge_1. cbn [obind].
  assert ((1 <? length ss)%nat = true) as -> by (apply Nat.ltb_lt; lia).
  destruct (variance_of_returns (map (fun s : str => len s) ss)) as [v Hv].
  { rewrite length_map. lia. }
  rewrite Hv. cbn [obind].
  eexists; split; [reflexivity|].
  set (t := Qmin (of_nat _ / Qmax _ 1) 1).
  assert (0 <= t <= 1) as Ht.
  { apply Qmin_unit. apply Qdiv_nonneg; [apply of_nat_nonneg | apply Qmax_ge_1]. }
  pose proof (variance_score_unit v) as Hvs.
  set (vs := 1 - Qmin (Qabs (v - 250) / 250) 1) in *.
  assert (Qmin (of_nat 0 / len ss) 1 == 0) as Hp.
  { assert (of_nat 0 / len ss == 0) as -> by (unfold of_nat; simpl; field; lra).
    apply Q.min_l. lra. }
  rewrite Hp.
  split; [apply Q.min_glb; lra|].
  eapply Qle_trans; [apply Q.le_min_l|]. lra.
Qed.
End Coherence.

(** ** Completeness and length *)

Section CompletenessAndLength.
Import PyStr QualityMetricsCalculator.
Local Open Scope Q_scope.

Lemma Qmax_pos_r (a b : Q) : 0 < b -> 0 < Qmax a b.
Proof. intros H. pose proof (Q.le_max_r a b). lra. Qed.

Lemma eqb_length_nil {A} (l : list A) : Nat.eqb (length l) 0 = true <-> l = [].
Proof. destruct l; simpl; split; congruence. Qed.

Lemma _completeness_score_spec (text prompt : str) :
  exists q, _completeness_score text prompt = Return q /\ 0 <= q <= 1.
Proof.
  unfold _completeness_score.
  destruct (_ || _); [eexists; split; [reflexivity | lra]|].
  set (found := count_if _ question_words).
  assert (exists a, (if (0 <? found)%nat
                     then obind (truediv (len text) (Qmax (len prompt * 2) 100))
                            (fun q => Return (0 + Qmin q 1 * 0.4))
                     else Return 0) = Return a /\ 0 <= a) as (a & -> & Ha).
  { destruct (0 <? found)%nat; [|eexists; split; [reflexivity | lra]].
    rewrite truediv_pos by (apply Qmax_pos_r; lra). cbn [obind].
    eexists; split; [reflexivity|].
    assert (0 <= len text / Qmax (len prompt * 2) 100) as H.
    { apply Qdiv_nonneg; [apply len_nonneg | apply Qmax_pos_r; lra]. }
    pose proof (Qmin_unit _ H). lra. }
  cbn [obind].
  set (pw := keywords prompt). set (tw := keywords text).
  assert (exists b, (if negb (Nat.eqb (size pw) 0)
                     then obind (truediv (of_nat (size (pw ∩ tw))) (of_nat (size pw)))
                            (fun overlap => Return (a + overlap * 0.4))
                     else Return a) = Return b /\ 0 <= b) as (b & -> & Hb).
  { destruct (Nat.eqb (size pw) 0) eqn:E; cbn [negb];
      [eexists; split; [reflexivity | lra]|].
    apply Nat.eqb_neq in E.
    assert (0 < of_nat (size pw)) as Hpos by (apply of_nat_pos; lia).
    rewrite truediv_pos by assumption. cbn [obind].
    eexists; split; [reflexivity|].
    assert (0 <= of_nat (size (pw ∩ tw)) / of_nat (size pw)) as H.
    { apply Qdiv_nonneg; [apply of_nat_nonneg | assumption]. }
    lra. }
  cbn [obind].
  rewrite truediv_pos by (apply Qmax_pos_r; lra). cbn [obind].
  eexists; split; [reflexivity|].
  assert (0 <= len text / Qmax (len prompt) 50) as H.
  { apply Qdiv_nonneg; [apply len_nonneg | apply Qmax_pos_r; lra]. }
  assert (0 <= Qmin (len text / Qmax (len prompt) 50) 2) as H2
    by (apply Q.min_glb; lra).
  assert (0 <= Qmin (len text / Qmax (len prompt) 50) 2 / 2) as H3
    by (apply Qdiv_nonneg; lra).
  split; [apply Q.min_glb; lra | apply Q.le_min_r].
Qed.

Lemma _completeness_score_empty_prompt (text : str) :
  _completeness_score text [] = Return 0.
Proof. unfold _completeness_score. simpl. by rewrite orb_true_r. Qed.

Lemma _length_appropriateness_spec (text prompt : str) (tokens_used : option Z) :
  prompt <> [] ->
  exists q, _length_appropriateness text prompt tokens_used = Return q /\ 0 <= q <= 1.
Proof.
  intros Hp. unfold _length_appropriateness.
  destruct (Nat.eqb (length text) 0); [eexists; split; [reflexivity | lra]|].
  assert (0 < len prompt) as Hlen.
  { apply len_pos. destruct prompt; [done | simpl; lia]. }
  pose proof (len_nonneg text) as Htext.
  set (ideal_min := len prompt * 1.5). set (ideal_max := len prompt * 8).
  assert (exists score,
    (if Qle_bool ideal_min (len text) && Qle_bool (len text) ideal_max then Return 1
     else if negb (Qle_bool ideal_min (len text)) then truediv (len text) ideal_min
     else obind (truediv (len text - ideal_max) ideal_max)
            (fun q => Return (Qmax 0.5 (1 - q * 0.5)))) = Return score
    /\ 0 <= score) as (score & -> & Hscore).
  { destruct (_ && _); [eexists; split; [reflexivity | lra]|].
    destruct (Qle_bool ideal_min (len text)) eqn:E; cbn [negb].
    - rewrite truediv_pos by (unfold ideal_max; lra). cbn [obind].
      eexists; split; [reflexivity|].
      pose proof (Q.le_max_l 0.5 (1 - (len text - ideal_max) / ideal_max * 0.5)). lra.
    - rewrite truediv_pos by (unfold ideal_min; lra).
      eexists; split; [reflexivity|].
      apply Qdiv_nonneg; [assumption | unfold ideal_min; lra]. }
  cbn [obind].
  assert (0 <= Qmin score 1 <= 1) as Hm by (by apply Qmin_unit).
  destruct tokens_used as [tokens|]; cbn [obind];
    [|eexists; split; [reflexivity | assumption]].
  destruct (Z.eqb tokens 0); cbn [negb obind];
    [eexists; split; [reflexivity | assumption]|].
  assert (exists c, (if (0 <? tokens)%Z then truediv (len text) (inject_Z tokens)
                     else Return 4) = Return c) as [c ->].
  { destruct (0 <? tokens)%Z eqn:Epos; [|eauto].
    apply Z.ltb_lt in Epos. rewrite truediv_pos by (unfold Qlt; simpl; lia). eauto. }
  cbn [obind]. destruct (negb _); cbn [obind]; eexists; (split; [reflexivity|]).
  - split; [apply Q.min_glb; lra | apply Q.le_min_r].
  - assumption.
Qed.

(** With an empty prompt the ideal window is [[0, 0]]: a text that is not
    empty lies above it, and the excess is divided by zero. *)
Lemma _length_appropriateness_empty_prompt (c : ascii) (text : str)
    (tokens_used : option Z) :
  _length_appropriateness (c :: text) [] tokens_used = Raise ZeroDivisionError.
Proof.
  unfold _length_appropriateness. cbn [length Nat.eqb].
  assert (len ([] : str) = 0) as -> by reflexivity.
  assert (0 < len (c :: text)) as Hpos by (apply len_pos; simpl; lia).
  assert (Qle_bool (0 * 1.5) (len (c :: text)) = true) as ->
    by (apply Qle_bool_iff; lra).
  assert (Qle_bool (len (c :: text)) (0 * 8) = false) as ->.
  { destruct (Qle_bool _ _) eqn:E; [|done]. apply Qle_bool_iff in E. lra. }
  cbn [andb negb].
  rewrite truediv_zero by lra. reflexivity.
Qed.
End CompletenessAndLength.

(** ** Repetition and structure *)

Section RepetitionAndStructure.
Import PyStr QualityMetricsCalculator.
Local Open Scope Q_scope.

Lemma size_list_to_set_le `{Countable A} (l : list A) :
  (size (list_to_set l : gset A) <= length l)%nat.
Proof.
  induction l as [|x l IH]; cbn [list_to_set foldr length].
  - by rewrite size_empty.
  - rewrite size_union_alt, size_singleton.
    assert (size (list_to_set l ∖ {[x]} : gset A) <= size (list_to_set l : gset A))%nat
      as Hle; [apply subseteq_size; set_solver | lia].
Qed.

Lemma repetition_of_spec `{Countable A} (l : list A) :
  (0 < length l)%nat ->
  exists r, repetition_of l = Return r /\ 0 <= r <= 1.
Proof.
  intros Hl. unfold repetition_of.
  assert (0 < len l) as Hpos by (by apply len_pos).
  rewrite truediv_pos by assumption. cbn [obind].
  eexists; split; [reflexivity|].
  assert (0 <= of_nat (size (list_to_set l : gset A)) / len l)
    by (apply Qdiv_nonneg; [apply of_nat_nonneg | assumption]).
  assert (of_nat (size (list_to_set l : gset A)) / len l <= 1).
  { apply Qdiv_le_1; [|assumption]. apply of_nat_le, size_list_to_set_le. }
  lra.
Qed.

Lemma repetition_ratio_spec (text : str) (words : list str) :
  (0 < length (ngrams_of 3 words))%nat ->
  exists r, repetition_ratio text words = Return r /\ 0 <= r <= 1.
Proof.
  intros Hn. unfold repetition_ratio.
  destruct (repetition_of_spec (ngrams_of 3 words) Hn) as (r & -> & Hr).
  cbn [obind].
  destruct (1 <? length (long_sentences_of text))%nat eqn:E;
    [|eexists; split; [reflexivity | assumption]].
  apply Nat.ltb_lt in E.
  destruct (repetition_of_spec (long_sentences_of text)) as (sr & -> & Hsr); [lia|].
  cbn [obind]. eexists; split; [reflexivity|].
  split.
  - pose proof (Q.le_max_l r (sr * 0.7)). lra.
  - apply Q.max_lub; lra.
Qed.

Lemma score_of_ratio_bounds (r : Q) : 0 <= r -> 0.2 <= score_of_ratio r <= 1.
Proof.
  intros Hr. unfold score_of_ratio. split; [apply Q.le_max_r|].
  apply Q.max_lub; [|lra].
  assert (0 <= Qmin r 0.8) by (apply Q.min_glb; lra). lra.
Qed.

Lemma score_of_ratio_floor (r : Q) : 0.8 <= r -> score_of_ratio r == 0.2.
Proof.
  intros Hr. unfold score_of_ratio.
  rewrite (Q.min_r r 0.8) by assumption. apply Q.max_r. lra.
Qed.

Lemma score_of_ratio_above (r : Q) : r < 0.8 -> 0.2 < score_of_ratio r.
Proof.
  intros Hr. unfold score_of_ratio.
  rewrite (Q.min_l r 0.8) by lra.
  pose proof (Q.le_max_l (1 - r) 0.2). lra.
Qed.

Lemma _repetition_penalty_spec (text : str) :
  exists q, _repetition_penalty text = Return q /\ 0.2 <= q <= 1.
Proof.
  unfold _repetition_penalty.
  destruct (_ || _); [eexists; split; [reflexivity | lra]|].
  destruct (_ <? 5)%nat; [eexists; split; [reflexivity | lra]|].
  destruct (Nat.eqb (length (ngrams_of 3 _)) 0) eqn:E;
    [eexists; split; [reflexivity | lra]|].
  apply Nat.eqb_neq in E.
  destruct (repetition_ratio_spec text (split (lower text))) as (r & -> & Hr); [lia|].
  cbn [obind]. eexists; split; [reflexivity|].
  apply (score_of_ratio_bounds r). lra.
Qed.

Lemma _structural_richness_spec (text : str) :
  exists q, _structural_richness text = Return q /\ 0 <= q <= 1.
Proof.
  unfold _structural_richness.
  destruct (Nat.eqb (length text) 0); [eexists; split; [reflexivity | lra]|].
  set (paragraphs := split_sep text _).
  set (list_count := (_ + _ + _)%nat).
  set (formatting_count := fold_right Nat.add 0%nat _).
  set (score1 := if (1 <? length paragraphs)%nat
                 then 0 + Qmin (len paragraphs / 5) 1 * 0.3 else 0 + 0.1).
  assert (0 <= score1) as H1.
  { unfold score1. destruct (1 <? length paragraphs)%nat; [|lra].
    assert (0 <= len paragraphs / 5)
      by (apply Qdiv_nonneg; [apply len_nonneg | lra]).
    pose proof (Qmin_unit _ H). lra. }
  set (score2 := if (0 <? list_count)%nat
                 then score1 + Qmin (of_nat list_count / 3) 1 * 0.3 else score1).
  assert (0 <= score2) as H2.
  { unfold score2. destruct (0 <? list_count)%nat; [|lra].
    assert (0 <= of_nat list_count / 3)
      by (apply Qdiv_nonneg; [apply of_nat_nonneg | lra]).
    pose proof (Qmin_unit _ H). lra. }
  set (score3 := score2 + Qmin (of_nat formatting_count / 5) 1 * 0.2).
  assert (0 <= score3) as H3.
  { unfold score3.
    assert (0 <= of_nat formatting_count / 5)
      by (apply Qdiv_nonneg; [apply of_nat_nonneg | lra]).
    pose proof (Qmin_unit _ H). lra. }
  destruct (1 <? length (sentences_of text))%nat.
  - rewrite truediv_pos by (apply Qmax_pos_r; lra). cbn [obind].
    eexists; split; [reflexivity|].
    set (u := of_nat _ / Qmax _ 5).
    assert (0 <= u)
      by (apply Qdiv_nonneg; [apply of_nat_nonneg | apply Qmax_pos_r; lra]).
    pose proof (Qmin_unit _ H).
    split; [apply Q.min_glb; lra | apply Q.le_min_r].
  - cbn [obind]. eexists; split; [reflexivity|].
    split; [apply Q.min_glb; lra | apply Q.le_min_r].
Qed.
End RepetitionAndStructure.

(** ** The dictionary of scores *)

Section Dictionary.
Import PyStr QualityMetricsCalculator.
Local Open Scope Q_scope.
Local Open Scope string_scope.

Lemma weighted_sum_scores (c p l r s : Q) :
  weighted_sum
    (<["structural_richness" := s]>
    (<["repetition_penalty" := r]>
    (<["length_appropriateness" := l]>
    (<["completeness_score" := p]>
    (<["coherence_score" := c]> ∅))))) weights 0
  = Return (0 + c * 0.25 + p * 0.30 + l * 0.15 + r * 0.15 + s * 0.15).
Proof.
  unfold weights, weighted_sum, metric.
  repeat (rewrite ?lookup_insert_eq; rewrite ?lookup_insert_ne by done; cbn [obind]).
  reflexivity.
Qed.

Lemma calculate_all_inv (text prompt : str) (tokens_used : option Z)
    (metrics : gmap string Q) :
  calculate_all text prompt tokens_used = Return metrics ->
  exists c p l r s,
    _coherence_score text = Return c
    /\ _completeness_score text prompt = Return p
    /\ _length_appropriateness text prompt tokens_used = Return l
    /\ _repetition_penalty text = Return r
    /\ _structural_richness text = Return s
    /\ metrics = metrics_of c p l r s.
Proof.
  unfold calculate_all. intros H.
  destruct (_coherence_score text) as [c| |]; try discriminate.
  destruct (_completeness_score text prompt) as [p| |]; try discriminate.
  destruct (_length_appropriateness text prompt tokens_used) as [l| |];
    try discriminate.
  destruct (_repetition_penalty text) as [r| |]; try discriminate.
  destruct (_structural_richness text) as [s| |]; try discriminate.
  cbn [obind] in H. rewrite weighted_sum_scores in H. cbn [obind] in H.
  exists c, p, l, r, s. repeat split; try reflexivity. by inversion H.
Qed.

Lemma metrics_of_lookup (c p l r s : Q) (key : string) (v : Q) :
  metrics_of c p l r s !! key = Some v ->
  (key = "coherence_score" /\ v = c)
  \/ (key = "completeness_score" /\ v = p)
  \/ (key = "length_appropriateness" /\ v = l)
  \/ (key = "repetition_penalty" /\ v = r)
  \/ (key = "structural_richness" /\ v = s)
  \/ (key = "overall_score"
      /\ v = 0 + c * 0.25 + p * 0.30 + l * 0.15 + r * 0.15 + s * 0.15).
Proof.
  unfold metrics_of. intros H.
  repeat (apply lookup_insert_Some in H as [[<- <-]|[_ H]]; [tauto|]).
  by rewrite lookup_empty in H.
Qed.

(** For a prompt that is not empty, [calculate_all] returns the dictionary
    of the six scores, each of them in the unit interval. *)
Lemma calculate_all_spec (text prompt : str) (tokens_used : option Z) :
  prompt <> [] ->
  exists c p l r s,
    calculate_all text prompt tokens_used = Return (metrics_of c p l r s)
    /\ _coherence_score text = Return c
    /\ _completeness_score text prompt = Return p
    /\ _length_appropriateness text prompt tokens_used = Return l
    /\ _repetition_penalty text = Return r
    /\ _structural_richness text = Return s
    /\ 0 <= c <= 1 /\ 0 <= p <= 1 /\ 0 <= l <= 1 /\ 0 <= r <= 1 /\ 0 <= s <= 1.
Proof.
  intros Hp.
  destruct (_coherence_score_spec text) as (c & Hc & Hcb).
  destruct (_completeness_score_spec text prompt) as (p & Hpp & Hpb).
  destruct (_length_appropriateness_spec text prompt tokens_used Hp) as (l & Hl & Hlb).
  destruct (_repetition_penalty_spec text) as (r & Hr & Hrb).
  destruct (_structural_richness_spec text) as (s & Hs & Hsb).
  exists c, p, l, r, s. repeat split; try assumption; try lra.
  unfold calculate_all. rewrite Hc, Hpp, Hl, Hr, Hs. cbn [obind].
  rewrite weighted_sum_scores. reflexivity.
Qed.

Lemma calculate_all_in_unit_interval (text prompt : str) (tokens_used : option Z) :
  prompt <> [] ->
  exists metrics,
    calculate_all text prompt tokens_used = Return metrics
    /\ dom metrics = list_to_set ["coherence_score"; "completeness_score";
                                  "length_appropriateness"; "repetition_penalty";
                                  "structural_richness"; "overall_score"]
    /\ forall key v, metrics !! key = Some v -> 0 <= v <= 1.
Proof.
  intros Hp.
  destruct (calculate_all_spec text prompt tokens_used Hp)
    as (c & p & l & r & s & -> & _ & _ & _ & _ & _ & Hc & Hpb & Hl & Hr & Hs).
  eexists; split; [reflexivity|]. split.
  - unfold metrics_of. rewrite !dom_insert_L, dom_empty_L. set_solver.
  - intros key v H.
    apply metrics_of_lookup in H
      as [[_ ->]|[[_ ->]|[[_ ->]|[[_ ->]|[[_ ->]|[_ ->]]]]]]; lra.
Qed.
End Dictionary.

(** ** Words of a repeated text *)

Section Words.
Import PyStr.

Lemma split_aux_app_space (a cur b : str) (sp : ascii) :
  is_space sp = true ->
  split_aux cur (a ++ sp :: b) = split_aux cur a ++ split b.
Proof.
  intros Hsp. revert cur. induction a as [|c a IH]; intros cur; simpl.
  - rewrite Hsp. by destruct cur.
  - destruct (is_space c); [|apply IH].
    destruct cur; simpl; by rewrite IH.
Qed.

Lemma split_join_space (sp : ascii) (l : list str) :
  is_space sp = true ->
  split (join [sp] l) = concat (map split l).
Proof.
  intros Hsp. induction l as [|x l IH]; [done|].
  destruct l as [|y l].
  - simpl. by rewrite app_nil_r.
  - change (join [sp] (x :: y :: l)) with (x ++ sp :: join [sp] (y :: l)).
    unfold split at 1. rewrite split_aux_app_space by assumption.
    rewrite IH. reflexivity.
Qed.

Lemma lower_join (sep : str) (l : list str) :
  lower (join sep l) = join (lower sep) (map lower l).
Proof.
  induction l as [|x l IH]; [done|].
  destruct l as [|y l]; [done|].
  change (join sep (x :: y :: l)) with (x ++ sep ++ join sep (y :: l)).
  unfold lower at 1. rewrite !map_app. fold (lower x) (lower sep).
  fold (lower (join sep (y :: l))). rewrite IH. reflexivity.
Qed.

Lemma length_join_replicate (sep s : str) (n : nat) :
  length (join sep (replicate (S n) s)) = (S n) * length s + n * length sep.
Proof.
  induction n as [|n IH]; [simpl; lia|].
  change (join sep (replicate (S (S n)) s))
    with (s ++ sep ++ join sep (replicate (S n) s)).
  rewrite !length_app, IH. lia.
Qed.

(** The words of a text made of [n] copies of [s] separated by single
    spaces: [n] copies of the words of [s]. *)
Lemma words_of_repeated (s : str) (n : nat) :
  split (lower (join (lit " ") (replicate n s)))
  = concat (replicate n (split (lower s))).
Proof.
  rewrite lower_join.
  change (lower (lit " ")) with [" "%char].
  rewrite split_join_space by reflexivity.
  by rewrite <- !fmap_replicate.
Qed.
End Words.

Section Periodic.
Context {A : Type}.
Implicit Types w : list A.

Lemma concat_replicate_snoc w (n : nat) :
  concat (replicate (S n) w) = concat (replicate n w) ++ w.
Proof.
  induction n as [|n IH]; simpl in *; [by rewrite app_nil_r|].
  by rewrite IH at 1; rewrite app_assoc.
Qed.

Lemma length_concat_replicate w (n : nat) :
  length (concat (replicate n w)) = n * length w.
Proof. induction n as [|n IH]; simpl; [done|]. rewrite length_app, IH. lia. Qed.

(** In a list made of copies of [w], the window at position [j] is the
    window one period earlier. *)
Lemma window_period w (n m j : nat) :
  length w <= j -> j + m <= S n * length w ->
  take m (drop j (concat (replicate (S n) w)))
  = take m (drop (j - length w) (concat (replicate (S n) w))).
Proof.
  intros Hj Hm.
  rewrite (concat_replicate_snoc w n) at 2.
  change (concat (replicate (S n) w)) with (w ++ concat (replicate n w)).
  rewrite drop_app_ge by assumption.
  rewrite drop_app_le by (rewrite length_concat_replicate; simpl in Hm; lia).
  rewrite take_app_le; [done|].
  rewrite length_drop, length_concat_replicate. simpl in Hm. lia.
Qed.

Lemma window_first_period w (n m j : nat) :
  0 < length w -> j + m <= S n * length w ->
  exists i, i < length w
    /\ take m (drop j (concat (replicate (S n) w)))
       = take m (drop i (concat (replicate (S n) w))).
Proof.
  intros Hw. induction j as [j IH] using lt_wf_ind. intros Hm.
  destruct (decide (j < length w)) as [Hlt|Hge]; [by exists j|].
  destruct (IH (j - length w)) as (i & Hi & Heq); [lia | lia|].
  exists i. split; [assumption|].
  rewrite window_period by lia. assumption.
Qed.
End Periodic.

Section Ngrams.
Import PyStr QualityMetricsCalculator.
Local Open Scope Q_scope.

Lemma length_ngrams_of (n : nat) (words : list str) :
  length (ngrams_of n words) = (length words + 1 - n)%nat.
Proof. unfold ngrams_of. by rewrite length_map, length_seq. Qed.

(** A list of [S n] copies of [w] has at most [length w] distinct 3-grams. *)
Lemma ngrams_of_repeated_size (w : list str) (n : nat) :
  (0 < length w)%nat ->
  (size (list_to_set (ngrams_of 3 (concat (replicate (S n) w))) : gset (list str))
   <= length w)%nat.
Proof.
  intros Hw. set (W := concat (replicate (S n) w)).
  transitivity (size (list_to_set
                        (map (fun i => take 3 (drop i W)) (seq 0 (length w)))
                      : gset (list str))).
  - apply subseteq_size. intros g Hg.
    apply elem_of_list_to_set in Hg. apply elem_of_list_to_set.
    unfold ngrams_of in Hg. apply list_elem_of_fmap in Hg as (j & -> & Hj).
    apply elem_of_seq in Hj.
    destruct (window_first_period w n 3 j Hw) as (i & Hi & Heq).
    { unfold W in Hj. rewrite length_concat_replicate in Hj. lia. }
    apply list_elem_of_fmap. exists i. split; [exact Heq|].
    apply elem_of_seq. lia.
  - etransitivity; [apply size_list_to_set_le|].
    by rewrite length_map, length_seq.
Qed.
End Ngrams.

(** ** The repeated sentence *)

Section LowerCase.
Import PyStr.

Lemma is_space_lower_char (c : ascii) : is_space (lower_char c) = is_space c.
Proof. destruct c as [[] [] [] [] [] [] [] []]; reflexivity. Qed.

Lemma split_aux_lower (cur s : str) :
  split_aux (lower cur) (lower s) = map lower (split_aux cur s).
Proof.
  revert cur. induction s as [|c s IH]; intros cur; simpl.
  - by destruct cur.
  - rewrite is_space_lower_char. destruct (is_space c).
    + destruct cur; simpl; [apply (IH [])|]. f_equal. apply (IH []).
    + rewrite <- IH. unfold lower. by rewrite map_app.
Qed.

Lemma split_lower (s : str) : split (lower s) = map lower (split s).
Proof. apply (split_aux_lower []). Qed.
End LowerCase.

Section Repeated.
Import PyStr QualityMetricsCalculator.
Local Open Scope Q_scope.

(** The 3-gram repetition of ten copies of a list of words is at least
    0.8. *)
Lemma repetition_of_repeated (w : list str) :
  (0 < length w)%nat ->
  exists r, repetition_of (ngrams_of 3 (concat (replicate 10 w))) = Return r
            /\ 0.8 <= r.
Proof.
  intros Hw. unfold repetition_of.
  pose proof (ngrams_of_repeated_size w 9 Hw) as Hu.
  set (g := ngrams_of 3 (concat (replicate 10 w))) in *.
  assert (length g = (10 * length w - 2)%nat) as Hg.
  { unfold g. rewrite length_ngrams_of, length_concat_replicate. lia. }
  assert (0 < len g) as Hpos by (apply len_pos; lia).
  rewrite truediv_pos by assumption. cbn [obind].
  eexists; split; [reflexivity|].
  assert (of_nat (size (list_to_set g : gset (list str))) / len g <= 0.2); [|lra].
  apply Qle_shift_div_r; [assumption|].
  unfold len, of_nat. rewrite Hg. unfold Qle; simpl. lia.
Qed.

Lemma repetition_ratio_repeated (text : str) (w : list str) :
  (0 < length w)%nat ->
  exists r, repetition_ratio text (concat (replicate 10 w)) = Return r /\ 0.8 <= r.
Proof.
  intros Hw. unfold repetition_ratio.
  destruct (repetition_of_repeated w Hw) as (r & -> & Hr). cbn [obind].
  destruct (1 <? length (long_sentences_of text))%nat eqn:E;
    [|eexists; split; [reflexivity | assumption]].
  apply Nat.ltb_lt in E.
  destruct (repetition_of_spec (long_sentences_of text)) as (sr & -> & Hsr); [lia|].
  cbn [obind]. eexists; split; [reflexivity|].
  pose proof (Q.le_max_l r (sr * 0.7)). lra.
Qed.

(** A text in which no 3-gram of words and no long sentence occurs twice
    has repetition ratio zero. *)
Lemma repetition_of_NoDup `{Countable A} (l : list A) :
  (0 < length l)%nat -> NoDup l ->
  exists r, repetition_of l = Return r /\ r == 0.
Proof.
  intros Hl Hnd. unfold repetition_of.
  assert (0 < len l) as Hpos by (by apply len_pos).
  rewrite truediv_pos by assumption. cbn [obind].
  eexists; split; [reflexivity|].
  rewrite size_list_to_set by assumption.
  change (of_nat (length l)) with (len l). field. lra.
Qed.

Lemma repetition_ratio_distinct (text : str) (words : list str) :
  (0 < length (ngrams_of 3 words))%nat ->
  NoDup (ngrams_of 3 words) -> NoDup (long_sentences_of text) ->
  exists r, repetition_ratio text words = Return r /\ r == 0.
Proof.
  intros Hn Hg Hs. unfold repetition_ratio.
  destruct (repetition_of_NoDup (ngrams_of 3 words) Hn Hg) as (r & -> & Hr).
  cbn [obind].
  destruct (1 <? length (long_sentences_of text))%nat eqn:E;
    [|eexists; split; [reflexivity | assumption]].
  apply Nat.ltb_lt in E.
  destruct (repetition_of_NoDup (long_sentences_of text)) as (sr & -> & Hsr);
    [lia | assumption|].
  cbn [obind]. eexists; split; [reflexivity|].
  rewrite Hr, Hsr. apply Q.max_l. lra.
Qed.

Lemma _repetition_penalty_ten_times (s : str) :
  (2 <= length s)%nat -> split s <> [] ->
  exists q, _repetition_penalty (ten_times s) = Return q /\ q == 0.2.
Proof.
  intros Hlen Hw. unfold _repetition_penalty, ten_times.
  rewrite words_of_repeated, split_lower.
  set (w := map lower (split s)).
  assert (0 < length w)%nat as Hk.
  { unfold w. rewrite length_map. destruct (split s); [done | simpl; lia]. }
  rewrite length_join_replicate.
  assert (Nat.eqb (10 * length s + 9 * length (lit " ")) 0
          || (10 * length s + 9 * length (lit " ") <? 20)%nat = false) as ->.
  { apply orb_false_iff. split; [apply Nat.eqb_neq | apply Nat.ltb_ge]; simpl; lia. }
  rewrite length_concat_replicate.
  assert ((10 * length w <? 5)%nat = false) as -> by (apply Nat.ltb_ge; lia).
  rewrite length_ngrams_of, length_concat_replicate.
  assert (Nat.eqb (10 * length w + 1 - 3) 0 = false) as ->
    by (apply Nat.eqb_neq; lia).
  destruct (repetition_ratio_repeated (join (lit " ") (replicate 10 s)) w Hk)
    as (r & -> & Hr).
  cbn [obind]. eexists; split; [reflexivity|].
  by apply score_of_ratio_floor.
Qed.

Lemma _repetition_penalty_ratio (text : str) (r : Q) :
  (20 <= length text)%nat -> (5 <= length (split (lower text)))%nat ->
  repetition_ratio text (split (lower text)) = Return r ->
  _repetition_penalty text = Return (score_of_ratio r).
Proof.
  intros Hlen Hw Hr. unfold _repetition_penalty.
  assert (Nat.eqb (length text) 0 || (length text <? 20)%nat = false) as ->.
  { apply orb_false_iff. split; [apply Nat.eqb_neq | apply Nat.ltb_ge]; lia. }
  assert ((length (split (lower text)) <? 5)%nat = false) as ->
    by (apply Nat.ltb_ge; lia).
  rewrite length_ngrams_of.
  assert (Nat.eqb (length (split (lower text)) + 1 - 3) 0 = false) as ->
    by (apply Nat.eqb_neq; lia).
  rewrite Hr. reflexivity.
Qed.
End Repeated.

(** ** Batch generation *)

Section Batch.
Import LLMService.

Lemma is_combination_lookup (combo : gmap string pyval) (key : string) :
  is_combination combo -> key ∈ parameter_keys ->
  exists v, combo !! key = Some v.
Proof.
  intros Hd Hk. apply (elem_of_dom (D:=gset string)). rewrite Hd.
  by apply elem_of_list_to_set.
Qed.

Lemma is_combination_no_text (combo : gmap string pyval) :
  is_combination combo ->
  combo !! "text" = None /\ combo !! "tokens_used" = None.
Proof.
  intros Hd. split; apply (not_elem_of_dom (D:=gset string)); rewrite Hd;
    unfold parameter_keys; set_solver.
Qed.

Lemma getitem_dict_get (d : gmap string pyval) (key : string) (v : pyval) :
  d !! key = Some v -> getitem d key = Return v /\ dict_get d key = v.
Proof. intros H. unfold getitem, dict_get. by rewrite H. Qed.

Lemma task_of_combination (self : t) (prompt model : str) (i : nat)
    (combo : gmap string pyval) :
  is_combination combo ->
  task_of self prompt model i combo = Return (call_of self prompt model i combo).
Proof.
  intros Hc. unfold task_of, call_of.
  destruct (is_combination_lookup combo "temperature" Hc) as [v1 H1];
    [unfold parameter_keys; set_solver|].
  destruct (is_combination_lookup combo "top_p" Hc) as [v2 H2];
    [unfold parameter_keys; set_solver|].
  destruct (is_combination_lookup combo "max_tokens" Hc) as [v3 H3];
    [unfold parameter_keys; set_solver|].
  destruct (is_combination_lookup combo "presence_penalty" Hc) as [v4 H4];
    [unfold parameter_keys; set_solver|].
  destruct (is_combination_lookup combo "frequency_penalty" Hc) as [v5 H5];
    [unfold parameter_keys; set_solver|].
  destruct (getitem_dict_get _ _ _ H1) as [-> ->].
  destruct (getitem_dict_get _ _ _ H2) as [-> ->].
  destruct (getitem_dict_get _ _ _ H3) as [-> ->].
  destruct (getitem_dict_get _ _ _ H4) as [-> ->].
  destruct (getitem_dict_get _ _ _ H5) as [-> ->].
  reflexivity.
Qed.

Lemma tasks_from_combinations (self : t) (prompt model : str) (i : nat)
    (combos : list (gmap string pyval)) :
  Forall is_combination combos ->
  tasks_from self prompt model i combos
  = Return (imap (fun j combo => call_of self prompt model (i + j) combo) combos).
Proof.
  intros H. revert i. induction H as [|combo combos Hc _ IH]; intros i; [done|].
  cbn [tasks_from]. rewrite task_of_combination by assumption. cbn [obind].
  rewrite IH. cbn [obind imap]. rewrite Nat.add_0_r. do 2 f_equal.
  apply imap_ext. intros j c _. simpl. f_equal. lia.
Qed.

Lemma every_call_completes_elem (n : nat) (completion_order : list nat) (i : nat) :
  every_call_completes n completion_order -> i < n -> i ∈ completion_order.
Proof.
  unfold every_call_completes. rewrite Forall_forall. intros H Hi.
  apply H, elem_of_seq. lia.
Qed.

Lemma gather_slots_length {A} (tasks : list A) (order : list nat) (slots : list (option A)) :
  length (foldl (fun slots i =>
                   match tasks !! i with
                   | Some r => <[i := Some r]> slots
                   | None => slots
                   end) slots order) = length slots.
Proof.
  induction order as [|j order IH] using rev_ind; [done|].
  rewrite foldl_snoc. destruct (tasks !! j); [|assumption].
  by rewrite length_insert.
Qed.

Lemma gather_slots_lookup {A} (tasks : list A) (order : list nat)
    (slots : list (option A)) (i : nat) (r : A) :
  length slots = length tasks -> i ∈ order -> tasks !! i = Some r ->
  foldl (fun slots i =>
           match tasks !! i with
           | Some r => <[i := Some r]> slots
           | None => slots
           end) slots order !! i = Some (Some r).
Proof.
  intros Hlen Hi Hr.
  induction order as [|j order IH] using rev_ind; [by apply elem_of_nil in Hi|].
  rewrite foldl_snoc.
  destruct (decide (i = j)) as [<-|Hne].
  - rewrite Hr. apply list_lookup_insert_eq.
    rewrite gather_slots_length, Hlen. by eapply lookup_lt_Some.
  - apply elem_of_app in Hi as [Hi|Hi]; [|set_solver].
    destruct (tasks !! j); [|by apply IH].
    rewrite list_lookup_insert_ne by done. by apply IH.
Qed.

(** Whatever the order in which the tasks complete, [gather] returns
    their results in the order of the tasks. *)
Lemma gather_in_order {A} (tasks : list A) (completion_order : list nat) :
  every_call_completes (length tasks) completion_order ->
  gather tasks completion_order = Return tasks.
Proof.
  intros Hall. unfold gather.
  assert (gather_slots tasks completion_order = Some <$> tasks) as ->.
  { apply list_eq. intros i. rewrite list_lookup_fmap. unfold gather_slots.
    destruct (tasks !! i) as [r|] eqn:Hr; simpl.
    - apply gather_slots_lookup; [by rewrite length_replicate| |assumption].
      eapply every_call_completes_elem; [exact Hall|]. by eapply lookup_lt_Some.
    - apply lookup_ge_None. rewrite gather_slots_length, length_replicate.
      by apply lookup_ge_None. }
  by rewrite mapM_fmap_Some.
Qed.

Lemma generate_batch_combinations (self : t) (completion_order : list nat)
    (prompt model : str) (combos : list (gmap string pyval)) :
  Forall is_combination combos ->
  every_call_completes (length combos) completion_order ->
  generate_batch self completion_order prompt combos model
  = Return (imap (fun i combo => collect combo (call_of self prompt model i combo))
              combos).
Proof.
  intros Hc Hall. unfold generate_batch.
  rewrite tasks_from_combinations by assumption. cbn [obind].
  rewrite gather_in_order by (by rewrite length_imap). cbn [obind]. f_equal.
  apply list_eq. intros i.
  rewrite lookup_zip_with, !list_lookup_imap.
  destruct (combos !! i) as [combo|]; simpl; reflexivity.
Qed.

Lemma collect_keeps_parameters (combo : gmap string pyval)
    (result : outcome (gmap string pyval)) (key : string) (v : pyval) :
  combo !! key = Some v -> collect combo result !! key = Some v.
Proof.
  intros H. unfold collect, dict_update.
  destruct result; [| |assumption]; by apply lookup_union_Some_l.
Qed.

Lemma collect_failure (combo : gmap string pyval) (e : exn) :
  is_combination combo ->
  collect combo (Raise e) !! "text" = Some (VStr (lit "Error: " ++ exn_str e))
  /\ collect combo (Raise e) !! "tokens_used" = Some VNone.
Proof.
  intros [Ht Hu]%is_combination_no_text. unfold collect, dict_update.
  rewrite !lookup_union_r by assumption.
  by rewrite lookup_insert_eq, lookup_insert_ne, lookup_insert_eq.
Qed.
End Batch.

(** ** The route *)

Section Route.
Import ExperimentService LLMService Api.

Lemma combination_is_combination (t p : float) (m : Z) (pp fp : float) :
  is_combination (combination t p m pp fp).
Proof.
  unfold is_combination, combination, parameter_keys.
  rewrite !dom_insert_L, dom_empty_L. set_solver.
Qed.

Lemma product5_combinations (ts ps : list float) (ms : list Z) (pps fps : list float) :
  Forall is_combination (product5 ts ps ms pps fps).
Proof.
  apply Forall_forall. intros combo H. unfold product5 in H.
  apply list_elem_of_bind in H as (t & H & _).
  apply list_elem_of_bind in H as (p & H & _).
  apply list_elem_of_bind in H as (m & H & _).
  apply list_elem_of_bind in H as (pp & H & _).
  apply list_elem_of_bind in H as (fp & H & _).
  apply list_elem_of_singleton in H as ->. apply combination_is_combination.
Qed.

Lemma generate_parameter_combinations_combinations (fuel : nat)
    (request : ExperimentRequest.t) (combos : list (gmap string pyval)) :
  generate_parameter_combinations fuel request = Return combos ->
  Forall is_combination combos.
Proof.
  intros H. apply generate_parameter_combinations_inv in H
    as (ts & ps & vs & ms & pps & fps & _ & _ & _ & _ & _ & _ & ->).
  apply product5_combinations.
Qed.

Lemma ParameterRange_validate_cases (r : ParameterRange.t) :
  ParameterRange.validate r = Return r
  \/ exists msg, ParameterRange.validate r = Raise (ValidationError msg).
Proof.
  unfold ParameterRange.validate.
  repeat (match goal with |- context [if ?b then _ else _] => destruct b end; eauto).
Qed.

Lemma validate_opt_cases (r : option ParameterRange.t) :
  ParameterRange.validate_opt r = Return r
  \/ exists msg, ParameterRange.validate_opt r = Raise (ValidationError msg).
Proof.
  destruct r as [r|]; simpl; [|by left].
  destruct (ParameterRange_validate_cases r) as [->|[msg ->]]; simpl; eauto.
Qed.

Lemma ExperimentRequest_validate_cases (body : ExperimentRequest.t) :
  ExperimentRequest.validate body = Return body
  \/ exists msg, ExperimentRequest.validate body = Raise (ValidationError msg).
Proof.
  unfold ExperimentRequest.validate.
  destruct (_ <? 1)%nat; [eauto|]. destruct (match ExperimentRequest.name body with
                                         | Some n => _ | None => _ end); [eauto|].
  destruct (validate_opt_cases (ExperimentRequest.temperature body))
    as [->|[msg ->]]; simpl; [|eauto].
  destruct (validate_opt_cases (ExperimentRequest.top_p body))
    as [->|[msg ->]]; simpl; [|eauto].
  destruct (validate_opt_cases (ExperimentRequest.max_tokens body))
    as [->|[msg ->]]; simpl; [|eauto].
  destruct (validate_opt_cases (ExperimentRequest.presence_penalty body))
    as [->|[msg ->]]; simpl; [|eauto].
  destruct (validate_opt_cases (ExperimentRequest.frequency_penalty body))
    as [->|[msg ->]]; simpl; eauto.
Qed.

Lemma ExperimentRequest_validate_Return (body request : ExperimentRequest.t) :
  ExperimentRequest.validate body = Return request ->
  request = body /\ ExperimentRequest.prompt body <> [].
Proof.
  intros H. split.
  - destruct (ExperimentRequest_validate_cases body) as [E|[msg E]];
      rewrite E in H; by inversion H.
  - unfold ExperimentRequest.validate in H.
    destruct (ExperimentRequest.prompt body); [discriminate | done].
Qed.

(** An inverted range in any slot makes the schema reject the body. *)
Lemma validate_inverted (r : ParameterRange.t) :
  PrimFloat.ltb (ParameterRange.max r) (ParameterRange.min r) = true ->
  exists msg, ParameterRange.validate r = Raise (ValidationError msg).
Proof.
  intros H. unfold ParameterRange.validate. rewrite H.
  repeat (match goal with |- context [if ?b then _ else _] => destruct b end; eauto).
Qed.

Lemma ExperimentRequest_validate_inverted (body : ExperimentRequest.t)
    (r : ParameterRange.t) :
  Some r ∈ ExperimentRequest.ranges_of body ->
  PrimFloat.ltb (ParameterRange.max r) (ParameterRange.min r) = true ->
  exists msg, ExperimentRequest.validate body = Raise (ValidationError msg).
Proof.
  intros Hin Hlt.
  destruct (ExperimentRequest_validate_cases body) as [E|?]; [|assumption].
  exfalso. destruct (validate_inverted r Hlt) as [msg Hr].
  assert (ParameterRange.validate_opt (Some r) = Raise (ValidationError msg)) as Ho
    by (simpl; by rewrite Hr).
  unfold ExperimentRequest.validate in E.
  destruct (_ <? 1)%nat; [discriminate|].
  destruct (match ExperimentRequest.name body with Some n => _ | None => _ end);
    [discriminate|].
  destruct (validate_opt_cases (ExperimentRequest.temperature body))
    as [E1|[? E1]]; rewrite E1 in E; cbn [obind] in E; [|discriminate].
  destruct (validate_opt_cases (ExperimentRequest.top_p body))
    as [E2|[? E2]]; rewrite E2 in E; cbn [obind] in E; [|discriminate].
  destruct (validate_opt_cases (ExperimentRequest.max_tokens body))
    as [E3|[? E3]]; rewrite E3 in E; cbn [obind] in E; [|discriminate].
  destruct (validate_opt_cases (ExperimentRequest.presence_penalty body))
    as [E4|[? E4]]; rewrite E4 in E; cbn [obind] in E; [|discriminate].
  destruct (validate_opt_cases (ExperimentRequest.frequency_penalty body))
    as [E5|[? E5]]; rewrite E5 in E; cbn [obind] in E; [|discriminate].
  unfold ExperimentRequest.ranges_of in Hin.
  repeat (apply elem_of_cons in Hin as [Hin|Hin]; [congruence|]).
  by apply elem_of_nil in Hin.
Qed.

Lemma validate_parameter_ranges_total (request : ExperimentRequest.t) (total : Z) :
  total_combinations request = Return total ->
  validate_parameter_ranges request
  = Return (if (MAX_COMBINATIONS <? total)%Z
            then (false, Some (too_many_message total)) else (true, None)).
Proof.
  intros H. unfold validate_parameter_ranges. rewrite H. cbn [obind].
  by destruct (_ <? _)%Z.
Qed.

(** A request that the guard rejects is answered with status 400 and the
    message carrying the count, and no generation call is issued. *)
Lemma create_experiment_too_many (e : env) (fuel : nat) (body : ExperimentRequest.t)
    (total : Z) :
  ExperimentRequest.validate body = Return body ->
  total_combinations body = Return total ->
  (MAX_COMBINATIONS < total)%Z ->
  create_experiment e fuel body
  = ([], Raise (HTTPException 400 (too_many_message total))).
Proof.
  intros Hv Ht Hgt. unfold create_experiment.
  rewrite Hv, (validate_parameter_ranges_total _ _ Ht).
  apply Z.ltb_lt in Hgt. by rewrite Hgt.
Qed.
End Route.

(** ** Scoring the batch *)

Section Scoring.
Import ExperimentService LLMService Api QualityMetricsCalculator.
Local Open Scope Q_scope.

Lemma omapM_Return {A B} (f : A -> outcome B) (l : list A) :
  (forall x, x ∈ l -> exists y, f x = Return y) ->
  exists ys, omapM f l = Return ys /\ Forall2 (fun x y => f x = Return y) l ys.
Proof.
  induction l as [|x l IH]; intros H; simpl.
  - exists []. split; [done | constructor].
  - destruct (H x) as [y Hy]; [left|].
    destruct IH as (ys & Hys & HF); [intros z Hz; apply H; by right|].
    rewrite Hy, Hys. simpl. exists (y :: ys). split; [done | by constructor].
Qed.

Lemma call_of_reply (self : LLMService.t) (prompt model : str) (i : nat)
    (combo : gmap string pyval) :
  call_of self prompt model i combo
  = match reply_of self prompt model i combo with
    | inl response =>
        Return (<["text" := VStr (content response)]>
                (<["tokens_used" := if Z.eqb (total_tokens response) 0 then VNone
                                     else VInt (total_tokens response)]> ∅))
    | inr e => Raise e
    end.
Proof. reflexivity. Qed.

Lemma call_of_same_reply (self self' : LLMService.t) (prompt model : str) (i : nat)
    (combo : gmap string pyval) :
  reply_of self' prompt model i combo = reply_of self prompt model i combo ->
  call_of self' prompt model i combo = call_of self prompt model i combo.
Proof. intros H. by rewrite !call_of_reply, H. Qed.

(** The text and the token count that the route reads from the entry of
    a call: those of the reply, or the error text and no count. *)
Lemma collect_text_tokens (self : LLMService.t) (prompt model : str) (i : nat)
    (combo : gmap string pyval) :
  is_combination combo ->
  let entry := collect combo (call_of self prompt model i combo) in
  let r := reply_of self prompt model i combo in
  entry !! "text" = Some (VStr (outcome_text r))
  /\ as_tokens (dict_get entry "tokens_used") = Return (outcome_tokens r).
Proof.
  intros Hc entry r. destruct (is_combination_no_text combo Hc) as [Ht Hu].
  subst entry. rewrite call_of_reply. fold r. unfold collect, dict_update, dict_get.
  destruct r as [reply|e]; simpl; rewrite !lookup_union_r by assumption;
    rewrite lookup_insert_eq, lookup_insert_ne, lookup_insert_eq by done;
    [|done].
  split; [done|]. by destruct (Z.eqb (total_tokens reply) 0).
Qed.

Lemma score_collect (self : LLMService.t) (prompt model : str) (i : nat)
    (combo : gmap string pyval) :
  is_combination combo -> prompt <> [] ->
  let r := reply_of self prompt model i combo in
  exists resp,
    score prompt (collect combo (call_of self prompt model i combo)) = Return resp
    /\ response_text resp = outcome_text r
    /\ tokens_used resp = outcome_tokens r
    /\ calculate_all (outcome_text r) prompt (outcome_tokens r) = Return (metrics resp)
    /\ Some (temperature resp) = combo !! "temperature"
    /\ Some (top_p resp) = combo !! "top_p"
    /\ Some (max_tokens resp) = combo !! "max_tokens"
    /\ Some (presence_penalty resp) = combo !! "presence_penalty"
    /\ Some (frequency_penalty resp) = combo !! "frequency_penalty".
Proof.
  intros Hc Hp r.
  destruct (collect_text_tokens self prompt model i combo Hc) as [Ht Hu].
  fold r in Ht, Hu. unfold score, getitem.
  rewrite Ht. cbn [obind as_str]. rewrite Hu. cbn [obind].
  destruct (calculate_all_in_unit_interval (outcome_text r) prompt (outcome_tokens r) Hp)
    as (m & -> & _). cbn [obind].
  destruct (is_combination_lookup combo "temperature" Hc) as [v1 H1];
    [unfold parameter_keys; set_solver|].
  destruct (is_combination_lookup combo "top_p" Hc) as [v2 H2];
    [unfold parameter_keys; set_solver|].
  destruct (is_combination_lookup combo "max_tokens" Hc) as [v3 H3];
    [unfold parameter_keys; set_solver|].
  destruct (is_combination_lookup combo "presence_penalty" Hc) as [v4 H4];
    [unfold parameter_keys; set_solver|].
  destruct (is_combination_lookup combo "frequency_penalty" Hc) as [v5 H5];
    [unfold parameter_keys; set_solver|].
  rewrite (collect_keeps_parameters _ _ _ _ H1), (collect_keeps_parameters _ _ _ _ H2),
    (collect_keeps_parameters _ _ _ _ H3), (collect_keeps_parameters _ _ _ _ H4),
    (collect_keeps_parameters _ _ _ _ H5). cbn [obind].
  eexists; split; [reflexivity|]. simpl. rewrite H1, H2, H3, H4, H5. tauto.
Qed.

(** What [create_experiment] does with a request that passes the schema
    and the guard. *)
Lemma create_experiment_accepted (e : env) (fuel : nat) (body : ExperimentRequest.t)
    (combos : list (gmap string pyval)) (c : ascii) (key : str) :
  ExperimentRequest.validate body = Return body ->
  validate_parameter_ranges body = Return (true, None) ->
  generate_parameter_combinations fuel body = Return combos ->
  api_key e = Some (c :: key) ->
  every_call_completes (length combos) (completion_order e) ->
  let self := LLMService.Build (c :: key) (invoke e) in
  let prompt := ExperimentRequest.prompt body in
  let model := ExperimentRequest.model body in
  exists responses,
    create_experiment e fuel body = (combos, Return responses)
    /\ Forall2 (fun entry resp => score prompt entry = Return resp)
         (imap (fun i combo => collect combo (call_of self prompt model i combo)) combos)
         responses.
Proof.
  intros Hv Hg Hc Hk Hall self prompt model.
  pose proof (generate_parameter_combinations_combinations _ _ _ Hc) as Hcombos.
  destruct (ExperimentRequest_validate_Return _ _ Hv) as [_ Hp].
  unfold create_experiment. rewrite Hv, Hg, Hc, Hk. cbn [init].
  fold self prompt model.
  rewrite tasks_from_combinations by assumption.
  rewrite generate_batch_combinations by assumption. cbn [guard_batch obind].
  destruct (omapM_Return (score prompt)
              (imap (fun i combo => collect combo (call_of self prompt model i combo))
                 combos)) as (responses & -> & HF).
  { intros entry Hentry. apply list_elem_of_lookup in Hentry as [i Hi].
    rewrite list_lookup_imap in Hi.
    destruct (combos !! i) as [combo|] eqn:Hcombo; [|discriminate].
    simpl in Hi. inversion Hi; subst.
    destruct (score_collect self prompt model i combo) as (resp & Hr & _); eauto.
    rewrite Forall_forall in Hcombos. apply Hcombos.
    apply list_elem_of_lookup. eauto. }
  eauto.
Qed.
End Scoring.

(* ===================================================================== *)
(** * The claims *)
(* ===================================================================== *)

(** ** The scores *)

Section ScoreClaims.
Import PyStr QualityMetricsCalculator.
Local Open Scope Q_scope.

(** C1.  [calculate_all] does not return for every input: whenever the
    response text is not empty and the prompt is empty, it raises
    [ZeroDivisionError] (from [_length_appropriateness], whose ideal
    window is then [[0, 0]]), whatever the token count. *)
Theorem calculate_all_empty_prompt_raises (c : ascii) (text : str)
    (tokens_used : option Z) :
  calculate_all (c :: text) [] tokens_used = Raise ZeroDivisionError.
Proof.
  unfold calculate_all.
  destruct (_coherence_score_spec (c :: text)) as (q & -> & _).
  rewrite _completeness_score_empty_prompt, _length_appropriateness_empty_prompt.
  reflexivity.
Qed.

(** C7.  Whenever [calculate_all] returns, the overall score of the
    dictionary is 0.25 coherence + 0.30 completeness + 0.15 length
    appropriateness + 0.15 repetition penalty + 0.15 structural richness,
    and the weights sum to 1. *)
Theorem overall_is_weighted_sum (text prompt : str) (tokens_used : option Z)
    (metrics : gmap string Q) :
  calculate_all text prompt tokens_used = Return metrics ->
  exists c p l r s o,
    metrics !! "coherence_score" = Some c
    /\ metrics !! "completeness_score" = Some p
    /\ metrics !! "length_appropriateness" = Some l
    /\ metrics !! "repetition_penalty" = Some r
    /\ metrics !! "structural_richness" = Some s
    /\ metrics !! "overall_score" = Some o
    /\ o == 0.25 * c + 0.30 * p + 0.15 * l + 0.15 * r + 0.15 * s
    /\ qsum (map snd weights) == 1.
Proof.
  intros H. apply calculate_all_inv in H as (c & p & l & r & s & _ & _ & _ & _ & _ & ->).
  exists c, p, l, r, s. eexists. unfold metrics_of.
  repeat (split; [by simplify_map_eq|]).
  split; [|reflexivity]. ring.
Qed.

Lemma overall_is_weighted_sum_witness :
  exists c p l r s o,
    Examples.sample_metrics !! "coherence_score" = Some c
    /\ Examples.sample_metrics !! "completeness_score" = Some p
    /\ Examples.sample_metrics !! "length_appropriateness" = Some l
    /\ Examples.sample_metrics !! "repetition_penalty" = Some r
    /\ Examples.sample_metrics !! "structural_richness" = Some s
    /\ Examples.sample_metrics !! "overall_score" = Some o
    /\ o == 0.25 * c + 0.30 * p + 0.15 * l + 0.15 * r + 0.15 * s
    /\ qsum (map snd weights) == 1.
Proof.
  apply (overall_is_weighted_sum Examples.sample_text Examples.prompt None).
  vm_compute. reflexivity.
Defined.

(** C9.  A text with at least 10 characters that are not white space and
    at least 2 sentences has a coherence score of at most 0.6: no sentence
    ends in a terminator, since the sentences are the pieces between the
    terminators, so the punctuation term is zero. *)
Theorem coherence_at_most_three_fifths (text : str) :
  (10 <= visible text)%nat ->
  (2 <= length (sentences_of text))%nat ->
  exists q,
    _coherence_score text = Return q
    /\ q <= 0.6
    /\ count_if proper_ending (sentences_of text) = 0%nat
    /\ Forall (free_of is_terminator) (sentences_of text).
Proof.
  intros _ _.
  destruct (_coherence_score_spec text) as (q & Hq & Hb).
  exists q. repeat split; [assumption | lra | apply proper_endings_zero
                          | apply sentences_of_free].
Qed.

Lemma coherence_at_most_three_fifths_witness :
  exists q,
    _coherence_score Examples.sample_text = Return q
    /\ q <= 0.6
    /\ count_if proper_ending (sentences_of Examples.sample_text) = 0%nat
    /\ Forall (free_of is_terminator) (sentences_of Examples.sample_text).
Proof.
  apply coherence_at_most_three_fifths; vm_compute; lia.
Defined.
End ScoreClaims.

(** ** The repetition penalty *)

Section RepetitionClaims.
Import PyStr QualityMetricsCalculator.
Local Open Scope Q_scope.

(** C8, as stated, fails.  Ten different sentences of one length, joined
    by spaces, score 0.2 when they share most of their words, and so does
    one of them repeated ten times; joined with no space, ten different
    sentences and one sentence repeated ten times both score 0.8. *)
Lemma repetition_not_strictly_lower :
  exists q1 q2 q3 q4,
    _repetition_penalty (ten_times (Examples.going "a")) = Return q1
    /\ _repetition_penalty Examples.going_text = Return q2
    /\ q1 == q2
    /\ NoDup Examples.going_sentences
    /\ Forall (fun s : str => length s = length (Examples.going "a"))
         Examples.going_sentences
    /\ _repetition_penalty (concat (replicate 10 (lit "Stop."))) = Return q3
    /\ _repetition_penalty (concat Examples.stop_sentences) = Return q4
    /\ q3 == q4
    /\ NoDup Examples.stop_sentences
    /\ Forall (fun s : str => length s = length (lit "Stop."))
         Examples.stop_sentences.
Proof.
  do 4 eexists.
  split; [vm_compute; reflexivity|].
  split; [vm_compute; reflexivity|].
  split; [reflexivity|].
  split; [compute_done|].
  split; [compute_done|].
  split; [vm_compute; reflexivity|].
  split; [vm_compute; reflexivity|].
  split; [reflexivity|].
  split; compute_done.
Qed.

(** C8, amended.  A text made of ten copies of a sentence [s] (at least
    two characters, at least one word) separated by single spaces scores
    exactly 0.2, the lowest score there is: no text scores lower, and a
    text of at least 20 characters and 5 words scores strictly higher
    exactly when its repetition ratio is below the cap 0.8, as it is when
    no 3-gram of its words and no long sentence occurs twice in it. *)
Theorem repeated_sentence_scores_lowest (s text : str) :
  (2 <= length s)%nat -> split s <> [] ->
  exists q1 q2,
    _repetition_penalty (ten_times s) = Return q1
    /\ _repetition_penalty text = Return q2
    /\ q1 == 0.2
    /\ q1 <= q2
    /\ (forall r,
          (20 <= length text)%nat -> (5 <= length (split (lower text)))%nat ->
          repetition_ratio text (split (lower text)) = Return r ->
          (q1 < q2 <-> r < 0.8))
    /\ ((20 <= length text)%nat -> (5 <= length (split (lower text)))%nat ->
        NoDup (ngrams_of 3 (split (lower text))) -> NoDup (long_sentences_of text) ->
        q1 < q2).
Proof.
  intros Hlen Hw.
  destruct (_repetition_penalty_ten_times s Hlen Hw) as (q1 & H1 & E1).
  destruct (_repetition_penalty_spec text) as (q2 & H2 & B2).
  exists q1, q2. repeat split; try assumption.
  - lra.
  - intros Hlt. rewrite (_repetition_penalty_ratio text r) in H2 by assumption.
    inversion H2; subst q2.
    destruct (Qlt_le_dec r 0.8) as [|Hge]; [assumption|].
    rewrite (score_of_ratio_floor r Hge) in Hlt. lra.
  - intros Hr. rewrite (_repetition_penalty_ratio text r) in H2 by assumption.
    inversion H2; subst q2.
    pose proof (score_of_ratio_above r Hr). lra.
  - intros Ht Hws Hg Hs.
    destruct (repetition_ratio_distinct text (split (lower text))) as (r & Hr & E);
      [rewrite length_ngrams_of; lia | assumption | assumption|].
    rewrite (_repetition_penalty_ratio text r) in H2 by assumption.
    inversion H2; subst q2.
    assert (r < 0.8) as Hlt by lra.
    pose proof (score_of_ratio_above r Hlt). lra.
Qed.

Lemma repeated_sentence_scores_lowest_witness :
  exists q1 q2,
    _repetition_penalty (ten_times (lit "The cat sat down.")) = Return q1
    /\ _repetition_penalty Examples.varied_text = Return q2
    /\ q1 == 0.2
    /\ q1 <= q2
    /\ (forall r,
          (20 <= length Examples.varied_text)%nat ->
          (5 <= length (split (lower Examples.varied_text)))%nat ->
          repetition_ratio Examples.varied_text (split (lower Examples.varied_text))
          = Return r ->
          (q1 < q2 <-> r < 0.8))
    /\ ((20 <= length Examples.varied_text)%nat ->
        (5 <= length (split (lower Examples.varied_text)))%nat ->
        NoDup (ngrams_of 3 (split (lower Examples.varied_text))) ->
        NoDup (long_sentences_of Examples.varied_text) ->
        q1 < q2).
Proof.
  apply (repeated_sentence_scores_lowest (lit "The cat sat down.")
           Examples.varied_text).
  - vm_compute. lia.
  - vm_compute. discriminate.
Defined.
End RepetitionClaims.

(** ** The batch and the route *)

Section BatchClaims.
Import ExperimentService LLMService Api QualityMetricsCalculator.

(** C2, as stated, fails: the entry of a failed call has a text, the
    error message. *)
Lemma failed_call_entry_has_text :
  exists entry,
    generate_batch (Examples.service_of (Examples.failing_at 0)) [0%nat]
      Examples.prompt [combination 0 1 1000 0 0] Examples.model
    = Return [entry]
    /\ reply_of (Examples.service_of (Examples.failing_at 0)) Examples.prompt
         Examples.model 0 (combination 0 1 1000 0 0)
       = inr (LLMError (lit "rate limit exceeded"))
    /\ entry !! "text" = Some (VStr (lit "Error: rate limit exceeded"))
    /\ ~ no_text entry.
Proof.
  pose proof (combination_is_combination 0 1 1000 0 0) as Hc.
  destruct (collect_failure (combination 0 1 1000 0 0)
              (LLMError (lit "rate limit exceeded")) Hc) as [Ht _].
  exists (collect (combination 0 1 1000 0 0)
            (Raise (LLMError (lit "rate limit exceeded")))).
  split.
  - rewrite generate_batch_combinations; [reflexivity | by repeat constructor|].
    compute_done.
  - split; [reflexivity|]. split; [exact Ht|].
    unfold no_text. rewrite Ht. intros [H|H]; discriminate.
Qed.

(** C2, amended.  For combinations with exactly the five parameter keys,
    and whatever the order in which the calls complete, the batch returns
    one entry per combination, in the order of the combinations; the
    entry at position [i] holds the parameters of combination [i] and is
    made from the reply to call [i] alone, so that it is the same for any
    other completion order and any other replies to the other calls.
    When call [i] fails, its entry has the text ["Error: "] followed by
    the message of the exception, and no token count. *)
Theorem generate_batch_index_aligned (self : LLMService.t)
    (completion_order : list nat) (prompt model : str)
    (combos : list (gmap string pyval)) :
  Forall is_combination combos ->
  every_call_completes (length combos) completion_order ->
  exists results,
    generate_batch self completion_order prompt combos model = Return results
    /\ length results = length combos
    /\ forall i combo,
         combos !! i = Some combo ->
         exists entry,
           results !! i = Some entry
           /\ entry = collect combo (call_of self prompt model i combo)
           /\ (forall key v, combo !! key = Some v -> entry !! key = Some v)
           /\ entry !! "text"
              = Some (VStr (outcome_text (reply_of self prompt model i combo)))
           /\ (forall e,
                 reply_of self prompt model i combo = inr e ->
                 entry !! "text" = Some (VStr (lit "Error: " ++ exn_str e))
                 /\ entry !! "tokens_used" = Some VNone)
           /\ (forall self' completion_order',
                 every_call_completes (length combos) completion_order' ->
                 reply_of self' prompt model i combo
                 = reply_of self prompt model i combo ->
                 exists results',
                   generate_batch self' completion_order' prompt combos model
                   = Return results'
                   /\ results' !! i = Some entry).
Proof.
  intros Hc Hall. eexists. split; [by apply generate_batch_combinations|].
  split; [by rewrite length_imap|].
  intros i combo Hi. eexists. split; [by rewrite list_lookup_imap, Hi|].
  assert (is_combination combo) as Hcombo.
  { rewrite Forall_forall in Hc. apply Hc. apply list_elem_of_lookup. eauto. }
  split; [reflexivity|].
  split; [intros key v; apply collect_keeps_parameters|].
  split; [apply (collect_text_tokens self prompt model i combo Hcombo)|].
  split.
  - intros e He. rewrite call_of_reply, He. by apply collect_failure.
  - intros self' order' Hall' Hr. eexists.
    split; [by apply generate_batch_combinations|].
    rewrite list_lookup_imap, Hi. simpl. by rewrite (call_of_same_reply _ _ _ _ _ _ Hr).
Qed.

Lemma generate_batch_index_aligned_witness :
  exists results,
    generate_batch (Examples.service_of (Examples.failing_at 0)) [1; 0]%nat
      Examples.prompt Examples.two_combinations Examples.model
    = Return results
    /\ length results = length Examples.two_combinations
    /\ forall i combo,
         Examples.two_combinations !! i = Some combo ->
         exists entry,
           results !! i = Some entry
           /\ entry = collect combo
                        (call_of (Examples.service_of (Examples.failing_at 0))
                           Examples.prompt Examples.model i combo)
           /\ (forall key v, combo !! key = Some v -> entry !! key = Some v)
           /\ entry !! "text"
              = Some (VStr (outcome_text
                              (reply_of (Examples.service_of (Examples.failing_at 0))
                                 Examples.prompt Examples.model i combo)))
           /\ (forall e,
                 reply_of (Examples.service_of (Examples.failing_at 0))
                   Examples.prompt Examples.model i combo = inr e ->
                 entry !! "text" = Some (VStr (lit "Error: " ++ exn_str e))
                 /\ entry !! "tokens_used" = Some VNone)
           /\ (forall self' completion_order',
                 every_call_completes (length Examples.two_combinations)
                   completion_order' ->
                 reply_of self' Examples.prompt Examples.model i combo
                 = reply_of (Examples.service_of (Examples.failing_at 0))
                     Examples.prompt Examples.model i combo ->
                 exists results',
                   generate_batch self' completion_order' Examples.prompt
                     Examples.two_combinations Examples.model
                   = Return results'
                   /\ results' !! i = Some entry).
Proof.
  apply generate_batch_index_aligned; compute_done.
Defined.

Local Open Scope Q_scope.

(** C3, as stated, fails: the outcome of a failed call is scored like
    any other, on its error text. *)
Lemma failed_outcome_is_scored :
  exists resp o,
    create_experiment (Examples.env_of (Examples.failing_at 0) [0%nat]) 0
      (Examples.request_with None)
    = ([combination 0.7 1 1000 0 0], Return [resp])
    /\ reply_of (Examples.service_of (Examples.failing_at 0)) Examples.prompt
         Examples.model 0 (combination 0.7 1 1000 0 0)
       = inr (LLMError (lit "rate limit exceeded"))
    /\ response_text resp = lit "Error: rate limit exceeded"
    /\ tokens_used resp = None
    /\ metrics resp !! "overall_score" = Some o
    /\ 0 < o.
Proof.
  do 2 eexists. split; [vm_compute; reflexivity|].
  split; [reflexivity|]. split; [reflexivity|]. split; [reflexivity|].
  split; [vm_compute; reflexivity|]. reflexivity.
Qed.

(** C3, amended.  For a request that passes the schema and the guard,
    the route issues one call per combination and returns one response
    per combination, in their order, none dropped; every response,
    that of a failed call included, carries the six metrics computed by
    [calculate_all] on its text, each in the unit interval.  The text of
    the response of a failed call is ["Error: "] followed by the message
    of the exception, and its token count is [None]. *)
Theorem create_experiment_scores_every_entry (e : env) (fuel : nat)
    (body : ExperimentRequest.t) (combos : list (gmap string pyval))
    (c : ascii) (key : str) :
  ExperimentRequest.validate body = Return body ->
  validate_parameter_ranges body = Return (true, None) ->
  generate_parameter_combinations fuel body = Return combos ->
  api_key e = Some (c :: key) ->
  every_call_completes (length combos) (completion_order e) ->
  let self := LLMService.Build (c :: key) (invoke e) in
  let prompt := ExperimentRequest.prompt body in
  let model := ExperimentRequest.model body in
  exists responses,
    create_experiment e fuel body = (combos, Return responses)
    /\ length responses = length combos
    /\ forall i combo,
         combos !! i = Some combo ->
         exists resp,
           responses !! i = Some resp
           /\ response_text resp = outcome_text (reply_of self prompt model i combo)
           /\ tokens_used resp = outcome_tokens (reply_of self prompt model i combo)
           /\ calculate_all (response_text resp) prompt (tokens_used resp)
              = Return (metrics resp)
           /\ dom (metrics resp) = list_to_set metric_keys
           /\ (forall k v, metrics resp !! k = Some v -> 0 <= v <= 1)
           /\ (forall x,
                 reply_of self prompt model i combo = inr x ->
                 response_text resp = lit "Error: " ++ exn_str x
                 /\ tokens_used resp = None).
Proof.
  intros Hv Hg Hc Hk Hall self prompt model.
  destruct (create_experiment_accepted e fuel body combos c key Hv Hg Hc Hk Hall)
    as (responses & Hr & HF).
  fold self prompt model in HF.
  exists responses. split; [assumption|].
  pose proof (Forall2_length _ _ _ HF) as Hlen. rewrite length_imap in Hlen.
  split; [done|].
  intros i combo Hi.
  assert (is_combination combo) as Hcombo.
  { pose proof (generate_parameter_combinations_combinations _ _ _ Hc) as H.
    rewrite Forall_forall in H. apply H. apply list_elem_of_lookup. eauto. }
  destruct (ExperimentRequest_validate_Return _ _ Hv) as [_ Hp].
  destruct (score_collect self prompt model i combo Hcombo Hp)
    as (resp & Hs & Ht & Hu & Hm & _).
  assert (responses !! i = Some resp) as Hresp.
  { eapply Forall2_lookup_l in HF as (resp' & Hl & Hs');
      [|by rewrite list_lookup_imap, Hi].
    simpl in Hs'. rewrite Hs in Hs'. by inversion Hs'; subst. }
  exists resp. split; [assumption|]. split; [assumption|]. split; [assumption|].
  rewrite Ht, Hu. split; [assumption|].
  destruct (calculate_all_in_unit_interval
              (outcome_text (reply_of self prompt model i combo)) prompt
              (outcome_tokens (reply_of self prompt model i combo)) Hp)
    as (m & Hm' & Hd & Hb).
  rewrite Hm in Hm'. inversion Hm'; subst m.
  split; [assumption|]. split; [assumption|].
  intros x Hx. by rewrite Hx.
Qed.

Lemma create_experiment_scores_every_entry_witness :
  exists responses,
    create_experiment (Examples.env_of (Examples.failing_at 1) [2; 0; 1]%nat) 3
      Examples.sweep_request
    = (Examples.sweep_combinations, Return responses)
    /\ length responses = length Examples.sweep_combinations
    /\ forall i combo,
         Examples.sweep_combinations !! i = Some combo ->
         exists resp,
           responses !! i = Some resp
           /\ response_text resp
              = outcome_text
                  (reply_of (LLMService.Build (lit "sk-test") (Examples.failing_at 1))
                     Examples.prompt Examples.model i combo)
           /\ tokens_used resp
              = outcome_tokens
                  (reply_of (LLMService.Build (lit "sk-test") (Examples.failing_at 1))
                     Examples.prompt Examples.model i combo)
           /\ calculate_all (response_text resp) Examples.prompt (tokens_used resp)
              = Return (metrics resp)
           /\ dom (metrics resp) = list_to_set metric_keys
           /\ (forall k v, metrics resp !! k = Some v -> 0 <= v <= 1)
           /\ (forall x,
                 reply_of (LLMService.Build (lit "sk-test") (Examples.failing_at 1))
                   Examples.prompt Examples.model i combo = inr x ->
                 response_text resp = lit "Error: " ++ exn_str x
                 /\ tokens_used resp = None).
Proof.
  apply (create_experiment_scores_every_entry
           (Examples.env_of (Examples.failing_at 1) [2; 0; 1]%nat) 3
           Examples.sweep_request Examples.sweep_combinations "s" (lit "k-test"));
    try reflexivity.
  compute_done.
Defined.
End BatchClaims.

(** ** The expansion and its guard *)

Section GuardClaims.
Import ExperimentService LLMService Api.

(** C4.  Whenever step-based counting and enumeration agree, that is,
    whenever on each slot that is walked in steps the formula
    [int((max - min) / step) + 1], at least 1, gives the number of values
    of the walk, the count that [validate_parameter_ranges] computes,
    compares with the ceiling and reports is the number of combinations
    that [generate_parameter_combinations] returns.  Nothing is assumed of
    a slot that is absent, lists explicit values or gives only [min] and
    [max]: there the two agree by themselves.  For a temperature from 0
    to 1 in steps of 0.5 they agree: the slot has the three values 0, 0.5
    and 1, the count is 3, and the request is accepted. *)
Theorem validate_count_matches_expansion :
  (forall fuel request combos,
     step_counting_agrees fuel (ExperimentRequest.temperature request) ->
     step_counting_agrees fuel (ExperimentRequest.top_p request) ->
     step_counting_agrees fuel (ExperimentRequest.max_tokens request) ->
     step_counting_agrees fuel (ExperimentRequest.presence_penalty request) ->
     step_counting_agrees fuel (ExperimentRequest.frequency_penalty request) ->
     generate_parameter_combinations fuel request = Return combos ->
     total_combinations request = Return (Z.of_nat (length combos))
     /\ validate_parameter_ranges request
        = Return (if (MAX_COMBINATIONS <? Z.of_nat (length combos))%Z
                  then (false, Some (too_many_message (Z.of_nat (length combos))))
                  else (true, None)))
  /\ get_values 3 (Examples.step_range 0 1 0.5) 0.7%float
     = Return [0; 0.5; 1]%float
  /\ count_values (Examples.step_range 0 1 0.5) 0.7%float = Return 3%Z
  /\ (forall fuel,
        3 <= fuel ->
        generate_parameter_combinations fuel Examples.sweep_request
        = Return Examples.sweep_combinations)
  /\ total_combinations Examples.sweep_request = Return 3%Z
  /\ validate_parameter_ranges Examples.sweep_request = Return (true, None).
Proof.
  split.
  { intros fuel request combos H1 H2 H3 H4 H5 Hg.
    assert (total_combinations request = Return (Z.of_nat (length combos))) as Ht.
    { pose proof Hg as Hi.
      apply generate_parameter_combinations_inv in Hi
        as (ts & ps & vs & ms & pps & fps & Ets & Eps & Evs & _ & Epps & Efps & _).
      apply (total_combinations_agrees fuel); [..|assumption].
      - exists ts. split; [assumption|]. by apply (step_counting_agrees_slot fuel).
      - exists ps. split; [assumption|]. by apply (step_counting_agrees_slot fuel).
      - exists vs. split; [assumption|]. by apply (step_counting_agrees_slot fuel).
      - exists pps. split; [assumption|]. by apply (step_counting_agrees_slot fuel).
      - exists fps. split; [assumption|]. by apply (step_counting_agrees_slot fuel). }
    split; [assumption|]. by apply validate_parameter_ranges_total. }
  split; [reflexivity|]. split; [reflexivity|].
  split; [|split; reflexivity].
  intros fuel Hfuel.
  by apply (generate_parameter_combinations_more_fuel 3 fuel).
Qed.

Lemma validate_count_matches_expansion_witness :
  total_combinations Examples.sweep_request
  = Return (Z.of_nat (length Examples.sweep_combinations))
  /\ validate_parameter_ranges Examples.sweep_request
     = Return (if (MAX_COMBINATIONS <? Z.of_nat (length Examples.sweep_combinations))%Z
               then (false,
                     Some (too_many_message
                             (Z.of_nat (length Examples.sweep_combinations))))
               else (true, None)).
Proof.
  apply (proj1 validate_count_matches_expansion 3%nat Examples.sweep_request
           Examples.sweep_combinations).
  - eexists; split; vm_compute; reflexivity.
  - exact I.
  - exact I.
  - exact I.
  - exact I.
  - reflexivity.
Defined.

(** C5.  The guard does not decide on the number of combinations that
    the expansion produces.  In binary64 arithmetic, a temperature from 0
    to 0.6 and a nucleus threshold from 0 to 0.7, both in steps of 0.1, are
    counted as 6 and 7 values and have 7 and 8: the request is counted as
    42 combinations and accepted, and its expansion has 56 combinations,
    for each of which a call is issued.  A temperature from 0 to 1 in steps
    of 0.02 is counted as 51 values and rejected with the message that
    carries 51 and 50, and its expansion has 50 combinations. *)
Theorem guard_miscounts_steps :
  (ExperimentRequest.validate Examples.fine_request = Return Examples.fine_request
   /\ count_values (Examples.step_range 0 0.6 0.1) 0.7%float = Return 6%Z
   /\ get_values 7 (Examples.step_range 0 0.6 0.1) 0.7%float
      = Return [0; 0.1; 0.2; 0.3; 0.4; 0.5; 0.6]%float
   /\ count_values (Examples.step_range 0 0.7 0.1) 1.0%float = Return 7%Z
   /\ get_values 8 (Examples.step_range 0 0.7 0.1) 1.0%float
      = Return [0; 0.1; 0.2; 0.3; 0.4; 0.5; 0.6; 0.7]%float
   /\ total_combinations Examples.fine_request = Return 42%Z
   /\ validate_parameter_ranges Examples.fine_request = Return (true, None)
   /\ exists combos responses,
        generate_parameter_combinations 8 Examples.fine_request = Return combos
        /\ length combos = 56%nat
        /\ create_experiment (Examples.env_of Examples.answering (seq 0 56)) 8
             Examples.fine_request
           = (combos, Return responses))
  /\ (ExperimentRequest.validate Examples.fifty_request = Return Examples.fifty_request
      /\ total_combinations Examples.fifty_request = Return 51%Z
      /\ validate_parameter_ranges Examples.fifty_request
         = Return (false, Some (too_many_message 51))
      /\ too_many_message 51
         = lit "Too many parameter combinations (51). Maximum allowed is 50. Please reduce the ranges or step sizes."
      /\ create_experiment (Examples.env_of Examples.answering (seq 0 51)) 50
           Examples.fifty_request
         = ([], Raise (HTTPException 400 (too_many_message 51)))
      /\ exists combos,
           generate_parameter_combinations 50 Examples.fifty_request = Return combos
           /\ length combos = 50%nat).
Proof.
  assert (ExperimentRequest.validate Examples.fine_request
          = Return Examples.fine_request) as Hv by (vm_compute; reflexivity).
  assert (validate_parameter_ranges Examples.fine_request = Return (true, None))
    as Hg by (vm_compute; reflexivity).
  split.
  - split; [assumption|]. do 5 (split; [vm_compute; reflexivity|]).
    split; [assumption|].
    destruct (length_Return_inv
                (generate_parameter_combinations 8 Examples.fine_request) 56)
      as (combos & Hc & Hlen); [vm_compute; reflexivity|].
    destruct (create_experiment_accepted
                (Examples.env_of Examples.answering (seq 0 56)) 8
                Examples.fine_request combos "s" (lit "k-test") Hv Hg Hc)
      as (responses & Hr & _); [reflexivity | rewrite Hlen; compute_done|].
    eauto.
  - split; [vm_compute; reflexivity|]. split; [vm_compute; reflexivity|].
    split; [vm_compute; reflexivity|]. split; [vm_compute; reflexivity|].
    split; [vm_compute; reflexivity|].
    apply length_Return_inv. vm_compute; reflexivity.
Qed.
End GuardClaims.

(** ** Malformed ranges and zero steps *)

Section RangeClaims.
Import ExperimentService LLMService Api.

(** C6, as stated, fails: a range whose step is present and not positive
    (here zero) passes the schema and the guard, its two combinations are
    generated, and a call is issued for each of them. *)
Lemma zero_step_is_not_rejected :
  exists responses,
    ParameterRange.step (ParameterRange.Build 0 1 (Some 0%float) None) = Some 0%float
    /\ PrimFloat.ltb 0 0 = false
    /\ ExperimentRequest.validate Examples.zero_step_request
       = Return Examples.zero_step_request
    /\ validate_parameter_ranges Examples.zero_step_request = Return (true, None)
    /\ create_experiment (Examples.env_of Examples.answering [0; 1]%nat) 0
         Examples.zero_step_request
       = (Examples.two_combinations, Return responses)
    /\ length responses = 2%nat.
Proof.
  destruct (create_experiment_accepted
              (Examples.env_of Examples.answering [0; 1]%nat) 0
              Examples.zero_step_request Examples.two_combinations
              "s" (lit "k-test"))
    as (responses & Hr & HF); try reflexivity; [compute_done|].
  exists responses. repeat split; try assumption.
  apply Forall2_length in HF. by rewrite <- HF.
Qed.

(** C6, amended.  A request in which some range has [max < min] is
    rejected by the schema with a validation error, before the guard and
    the expansion run and with no generation call issued.  A step equal
    to zero is not a reason for rejection: the schema treats the range as
    it treats the same range with no step. *)
Theorem inverted_range_rejected_before_generation :
  (forall (e : env) (fuel : nat) (body : ExperimentRequest.t) (r : ParameterRange.t),
     Some r ∈ ExperimentRequest.ranges_of body ->
     PrimFloat.ltb (ParameterRange.max r) (ParameterRange.min r) = true ->
     exists msg,
       ExperimentRequest.validate body = Raise (ValidationError msg)
       /\ create_experiment e fuel body = ([], Raise (ValidationError msg)))
  /\ (forall (r : ParameterRange.t) (st : float),
        ParameterRange.step r = Some st -> PrimFloat.eqb st 0 = true ->
        ParameterRange.validate r
        = obind (ParameterRange.validate (ParameterRange.without_step r))
            (fun _ => Return r)).
Proof.
  split.
  - intros e fuel body r Hin Hlt.
    destruct (ExperimentRequest_validate_inverted body r Hin Hlt) as [msg Hm].
    exists msg. split; [assumption|]. unfold create_experiment. by rewrite Hm.
  - intros r st _ _. unfold ParameterRange.validate, ParameterRange.without_step.
    cbn [ParameterRange.min ParameterRange.max].
    repeat (match goal with |- context [if ?b then _ else _] => destruct b end;
            try reflexivity).
Qed.

Lemma inverted_range_rejected_before_generation_witness :
  exists msg,
    ExperimentRequest.validate Examples.inverted_request
    = Raise (ValidationError msg)
    /\ create_experiment (Examples.env_of Examples.answering []) 0
         Examples.inverted_request
       = ([], Raise (ValidationError msg)).
Proof.
  apply (proj1 inverted_range_rejected_before_generation
           (Examples.env_of Examples.answering []) 0%nat Examples.inverted_request
           Examples.inverted_range).
  - apply list_elem_of_here.
  - reflexivity.
Defined.

(** The step is not looked at by the schema at all: a negative step
    passes it, and the guard counts one value; when the addition absorbs
    the step, the enumeration never ends. *)
Lemma absorbed_negative_step_diverges (fuel : nat) :
  ExperimentRequest.validate Examples.absorbed_step_request
  = Return Examples.absorbed_step_request
  /\ validate_parameter_ranges Examples.absorbed_step_request = Return (true, None)
  /\ generate_parameter_combinations fuel Examples.absorbed_step_request = OutOfFuel.
Proof.
  split; [reflexivity|]. split; [vm_compute; reflexivity|].
  unfold generate_parameter_combinations, Examples.absorbed_step_request,
    Examples.request_with, Examples.step_range.
  cbn [ExperimentRequest.temperature get_values ParameterRange.values
         ParameterRange.step ParameterRange.min truthy_values truthy_step the_step].
  assert (PyFloat.truthy (-1) = true) as -> by reflexivity.
  assert (forall values,
            get_values_loop fuel
              (ParameterRange.Build 1152921504606846976 2305843009213693952
                 (Some (-1)%float) None)
              (-1)%float values 1152921504606846976 = OutOfFuel) as ->; [|reflexivity].
  induction fuel as [|fuel IH]; intros values; [reflexivity|].
  cbn [get_values_loop ParameterRange.max].
  assert (PrimFloat.leb 1152921504606846976 2305843009213693952 = true) as ->
    by reflexivity.
  assert (PrimFloat.add 1152921504606846976 (-1) = 1152921504606846976%float) as ->
    by reflexivity.
  apply IH.
Qed.

(** C10.  A range whose step equals zero and that has no explicit values
    is treated by [get_values] and by [count_values] as the same range
    with no step: the slot has the values [min] and [max] when they
    differ and the value [min] otherwise, counted as 2 and as 1.  The loop
    does not run (no fuel is needed), and the schema does not reject the
    range for its step. *)
Theorem zero_step_treated_as_absent (r : ParameterRange.t) (st : float)
    (default : float) (fuel : nat) :
  ParameterRange.step r = Some st ->
  PrimFloat.eqb st 0 = true ->
  truthy_values (ParameterRange.values r) = false ->
  let differ := negb (PrimFloat.eqb (ParameterRange.min r) (ParameterRange.max r)) in
  get_values fuel (Some r) default
  = Return (if differ then [ParameterRange.min r; ParameterRange.max r]
            else [ParameterRange.min r])
  /\ get_values 0 (Some r) default = get_values fuel (Some r) default
  /\ count_values (Some r) default = Return (if differ then 2%Z else 1%Z)
  /\ get_values fuel (Some r) default
     = get_values fuel (Some (ParameterRange.without_step r)) default
  /\ count_values (Some r) default
     = count_values (Some (ParameterRange.without_step r)) default
  /\ ParameterRange.validate r
     = obind (ParameterRange.validate (ParameterRange.without_step r))
         (fun _ => Return r).
Proof.
  intros Hst Hz Hv differ.
  unfold get_values, count_values, ParameterRange.without_step.
  cbn [ParameterRange.values ParameterRange.step ParameterRange.min
         ParameterRange.max truthy_step].
  rewrite Hv, Hst. cbn [truthy_step]. unfold PyFloat.truthy. rewrite Hz.
  cbn [negb]. fold differ.
  repeat split; try (by destruct differ).
  unfold ParameterRange.validate. cbn [ParameterRange.min ParameterRange.max].
  repeat (match goal with |- context [if ?b then _ else _] => destruct b end;
          try reflexivity).
Qed.

Lemma zero_step_treated_as_absent_witness :
  get_values 0 (Examples.step_range 0 1 0) 0.7%float = Return [0; 1]%float
  /\ count_values (Examples.step_range 0 1 0) 0.7%float = Return 2%Z.
Proof.
  destruct (zero_step_treated_as_absent
              (ParameterRange.Build 0 1 (Some 0%float) None) 0 0.7 0)
    as (H1 & _ & H2 & _); try reflexivity.
  split; [exact H1 | exact H2].
Defined.
End RangeClaims.

(* ===================================================================== *)
(** * Further properties *)
(* ===================================================================== *)

(** ** The scores and their schema *)

Section ScoresAndSchema.
Import PyStr QualityMetricsCalculator.
Local Open Scope Q_scope.
Local Open Scope string_scope.

Lemma field_in_unit (d : gmap string Q) (key : string) (v : Q) :
  d !! key = Some v -> 0 <= v <= 1 -> QualityMetrics.field d key = Return v.
Proof.
  intros Hd [H0 H1]. unfold QualityMetrics.field. rewrite Hd.
  apply Qle_bool_iff in H0, H1. by rewrite H0, H1.
Qed.

Lemma from_dict_metrics_of (c p l r s : Q) :
  0 <= c <= 1 -> 0 <= p <= 1 -> 0 <= l <= 1 -> 0 <= r <= 1 -> 0 <= s <= 1 ->
  0 <= 0 + c * 0.25 + p * 0.30 + l * 0.15 + r * 0.15 + s * 0.15 <= 1 ->
  QualityMetrics.from_dict (metrics_of c p l r s)
  = Return (QualityMetrics.Build c p l r s
              (0 + c * 0.25 + p * 0.30 + l * 0.15 + r * 0.15 + s * 0.15)).
Proof.
  intros Hc Hp Hl Hr Hs Ho. unfold QualityMetrics.from_dict.
  rewrite (field_in_unit _ "coherence_score" c) by (done || assumption).
  rewrite (field_in_unit _ "completeness_score" p) by (done || assumption).
  rewrite (field_in_unit _ "length_appropriateness" l) by (done || assumption).
  rewrite (field_in_unit _ "repetition_penalty" r) by (done || assumption).
  rewrite (field_in_unit _ "structural_richness" s) by (done || assumption).
  rewrite (field_in_unit _ "overall_score" _) by (done || assumption).
  reflexivity.
Qed.

Lemma calculate_all_passes_schema_aux (text prompt : str) (tokens_used : option Z) :
  prompt <> [] ->
  exists c p l r s,
    calculate_all text prompt tokens_used = Return (metrics_of c p l r s)
    /\ QualityMetrics.from_dict (metrics_of c p l r s)
       = Return (QualityMetrics.Build c p l r s
                   (0 + c * 0.25 + p * 0.30 + l * 0.15 + r * 0.15 + s * 0.15)).
Proof.
  intros Hp.
  destruct (calculate_all_spec text prompt tokens_used Hp)
    as (c & p & l & r & s & Hcalc & _ & _ & _ & _ & _ & Hc & Hpb & Hl & Hr & Hs).
  exists c, p, l, r, s. split; [assumption|].
  apply from_dict_metrics_of; try assumption; lra.
Qed.

(** X1.  For every response text, every prompt that is not empty and every
    token count, [calculate_all] returns the dictionary of the six scores,
    and the schema [QualityMetrics] (every field with [ge=0] and [le=1])
    accepts that dictionary unchanged: each of the six fields lies in the
    unit interval. *)
Theorem calculate_all_passes_schema (text prompt : str) (tokens_used : option Z) :
  prompt <> [] ->
  exists metrics m,
    calculate_all text prompt tokens_used = Return metrics
    /\ QualityMetrics.from_dict metrics = Return m
    /\ metrics !! "coherence_score" = Some (QualityMetrics.coherence_score m)
    /\ metrics !! "completeness_score" = Some (QualityMetrics.completeness_score m)
    /\ metrics !! "length_appropriateness"
       = Some (QualityMetrics.length_appropriateness m)
    /\ metrics !! "repetition_penalty" = Some (QualityMetrics.repetition_penalty m)
    /\ metrics !! "structural_richness" = Some (QualityMetrics.structural_richness m)
    /\ metrics !! "overall_score" = Some (QualityMetrics.overall_score m)
    /\ size metrics = 6%nat.
Proof.
  intros Hp.
  destruct (calculate_all_spec text prompt tokens_used Hp)
    as (c & p & l & r & s & -> & _ & _ & _ & _ & _ & Hc & Hpb & Hl & Hr & Hs).
  do 2 eexists. split; [reflexivity|].
  split; [apply from_dict_metrics_of; try assumption; lra|].
  repeat split; try done.
Qed.

Lemma calculate_all_passes_schema_witness :
  exists metrics m,
    calculate_all Examples.sample_text Examples.prompt None = Return metrics
    /\ QualityMetrics.from_dict metrics = Return m
    /\ metrics !! "coherence_score" = Some (QualityMetrics.coherence_score m)
    /\ metrics !! "completeness_score" = Some (QualityMetrics.completeness_score m)
    /\ metrics !! "length_appropriateness"
       = Some (QualityMetrics.length_appropriateness m)
    /\ metrics !! "repetition_penalty" = Some (QualityMetrics.repetition_penalty m)
    /\ metrics !! "structural_richness" = Some (QualityMetrics.structural_richness m)
    /\ metrics !! "overall_score" = Some (QualityMetrics.overall_score m)
    /\ size metrics = 6%nat.
Proof.
  apply (calculate_all_passes_schema Examples.sample_text Examples.prompt None).
  discriminate.
Defined.

(** X2.  For a prompt that is not empty the overall score never leaves the
    interval from 0.03 to 0.9: the repetition score is at least 0.2 and the
    coherence score at most 0.6, so neither 0 nor 1 is ever reached. *)
Theorem overall_score_bounds (text prompt : str) (tokens_used : option Z) :
  prompt <> [] ->
  exists metrics overall,
    calculate_all text prompt tokens_used = Return metrics
    /\ metrics !! "overall_score" = Some overall
    /\ 0.03 <= overall <= 0.9.
Proof.
  intros Hp.
  destruct (calculate_all_spec text prompt tokens_used Hp)
    as (c & p & l & r & s & -> & Hc & _ & _ & Hr & _ & _ & Hpb & Hl & _ & Hs).
  destruct (_coherence_score_spec text) as (c' & Hc' & Hcb).
  destruct (_repetition_penalty_spec text) as (r' & Hr' & Hrb).
  rewrite Hc in Hc'. rewrite Hr in Hr'. inversion Hc'; inversion Hr'; subst c' r'.
  do 2 eexists. split; [reflexivity|]. split; [done|]. lra.
Qed.

Lemma overall_score_bounds_witness :
  exists metrics overall,
    calculate_all Examples.sample_text Examples.prompt (Some 42%Z) = Return metrics
    /\ metrics !! "overall_score" = Some overall
    /\ 0.03 <= overall <= 0.9.
Proof.
  apply (overall_score_bounds Examples.sample_text Examples.prompt (Some 42%Z)).
  discriminate.
Defined.

(** X3.  An empty response text gets the same scores for every prompt, the
    empty prompt included, and every token count: coherence 0.3,
    completeness 0, length appropriateness 0, repetition 0.7, structure 0,
    and 0.18 overall. *)
Theorem calculate_all_empty_text (prompt : str) (tokens_used : option Z) :
  exists overall,
    calculate_all [] prompt tokens_used = Return (metrics_of 0.3 0 0 0.7 0)
    /\ metrics_of 0.3 0 0 0.7 0 !! "overall_score" = Some overall
    /\ overall == 0.18.
Proof.
  eexists. split; [|split; [done|reflexivity]].
  unfold calculate_all. cbn [_coherence_score _completeness_score
    _length_appropriateness _repetition_penalty _structural_richness
    length Nat.eqb orb obind].
  rewrite weighted_sum_scores. reflexivity.
Qed.
End ScoresAndSchema.

(** ** The five scores one by one *)

Section SingleScores.
Import PyStr QualityMetricsCalculator.
Local Open Scope Q_scope.

Lemma re_split_aux_no_terminator (s cur : str) :
  free_of is_terminator s -> re_split_aux cur false s = [cur ++ s].
Proof.
  revert cur. induction s as [|c s IH]; intros cur H; simpl.
  - by rewrite app_nil_r.
  - apply Forall_cons in H as [Hc Hs]. rewrite Hc.
    rewrite IH by assumption. by rewrite <- app_assoc.
Qed.

(** X4.  A text without any of the characters [.], [!] and [?] is at most
    one sentence: its coherence score is 0.3 when fewer than 10 characters
    remain after stripping white space, and 0.5 otherwise. *)
Theorem coherence_without_terminator (text : str) :
  free_of is_terminator text ->
  _coherence_score text
  = Return (if (length (strip text) <? 10)%nat then 0.3 else 0.5).
Proof.
  intros Hfree. unfold _coherence_score.
  destruct (length (strip text) <? 10)%nat eqn:E; [by rewrite orb_true_r|].
  destruct text as [|c text]; [discriminate E|].
  cbn [length Nat.eqb orb].
  unfold sentences_of, re_split_terminators.
  rewrite re_split_aux_no_terminator by assumption. cbn [app List.filter].
  by destruct (negb _).
Qed.

Lemma coherence_without_terminator_witness :
  _coherence_score (lit "plants turn light into sugar") = Return 0.5.
Proof.
  apply (coherence_without_terminator (lit "plants turn light into sugar")).
  unfold free_of. repeat constructor.
Defined.

Lemma Qle_bool_false (a b : Q) : b < a -> Qle_bool a b = false.
Proof.
  intros H. destruct (Qle_bool a b) eqn:E; [|done].
  apply Qle_bool_iff in E. lra.
Qed.

Lemma Qle_bool_true (a b : Q) : a <= b -> Qle_bool a b = true.
Proof. apply Qle_bool_iff. Qed.

Lemma token_factor (text : str) (tokens_used : option Z) (score : Q) :
  match tokens_used with
  | Some tokens =>
      if negb (Z.eqb tokens 0) then
        obind (if (0 <? tokens)%Z then truediv (len text) (inject_Z tokens)
               else Return 4) (fun chars_per_token =>
        if negb (Qle_bool 2 chars_per_token) then Return (score * 0.8)
        else Return score)
      else Return score
  | None => Return score
  end = Return (after_tokens text tokens_used score).
Proof.
  unfold after_tokens. destruct tokens_used as [tokens|]; [|done].
  destruct (Z.eqb_spec tokens 0) as [->|Hne]; [done|]. cbn [negb].
  destruct (Z.ltb_spec 0 tokens) as [Hpos|Hneg]; cbn [andb obind].
  - assert (0 < inject_Z tokens) as Hq by (unfold Qlt; simpl; lia).
    rewrite truediv_pos by assumption. cbn [obind].
    destruct (Z.ltb_spec (Z.of_nat (length text)) (2 * tokens)) as [Hlt|Hge].
    + rewrite Qle_bool_false; [done|].
      apply Qlt_shift_div_r; [assumption|].
      unfold len, Qlt, inject_Z; simpl. lia.
    + rewrite Qle_bool_true; [done|].
      apply Qle_shift_div_l; [assumption|].
      unfold len, Qle, inject_Z; simpl. lia.
  - by rewrite Qle_bool_true by lra.
Qed.

(** X5.  A response that is not empty and whose length lies between 1.5
    and 8 times the length of the prompt has length appropriateness 1.0;
    the score is 0.8 instead when a positive token count exceeds half the
    number of characters. *)
Theorem length_within_window (text prompt : str) (tokens_used : option Z) :
  text <> [] ->
  len prompt * 1.5 <= len text -> len text <= len prompt * 8 ->
  exists q,
    _length_appropriateness text prompt tokens_used = Return q
    /\ q == after_tokens text tokens_used 1.
Proof.
  intros Ht Hmin Hmax. unfold _length_appropriateness.
  destruct text as [|c text]; [done|]. cbn [length Nat.eqb].
  rewrite !Qle_bool_true by assumption. cbn [andb obind].
  rewrite token_factor. cbn [obind].
  eexists; split; [reflexivity|].
  unfold after_tokens. destruct tokens_used as [tokens|]; [|reflexivity].
  destruct (_ && _)%Z; [apply Q.min_l; lra | reflexivity].
Qed.

Lemma length_within_window_witness :
  exists q,
    _length_appropriateness Examples.sample_text Examples.prompt (Some 100%Z)
    = Return q
    /\ q == 0.8.
Proof.
  apply (length_within_window Examples.sample_text Examples.prompt (Some 100%Z)).
  - discriminate.
  - vm_compute. discriminate.
  - vm_compute. discriminate.
Defined.

(** X6.  A response longer than 8 times a prompt that is not empty loses
    at most half of its length appropriateness: with no token count the
    score is below 1, never below 0.5, and it is exactly 0.5 from 16 times
    the length of the prompt on; a token count lowers it to 0.4 at most. *)
Theorem length_too_long_floor (text prompt : str) (tokens_used : option Z) :
  prompt <> [] -> len prompt * 8 < len text ->
  exists q0 q,
    _length_appropriateness text prompt None = Return q0
    /\ 0.5 <= q0 /\ q0 < 1
    /\ (len prompt * 16 <= len text -> q0 == 0.5)
    /\ _length_appropriateness text prompt tokens_used = Return q
    /\ 0.4 <= q /\ q <= q0.
Proof.
  intros Hp Hlong.
  assert (0 < len prompt) as Hlen.
  { apply len_pos. destruct prompt; [done | simpl; lia]. }
  assert (forall t, exists q,
            _length_appropriateness text prompt t = Return q
            /\ q == after_tokens text t
                      (Qmax 0.5 (1 - (len text - len prompt * 8) / (len prompt * 8) * 0.5)))
    as Hall.
  { intros t. unfold _length_appropriateness.
    destruct text as [|c text].
    { assert (len ([] : str) == 0) as E by reflexivity. lra. }
    cbn [length Nat.eqb].
    rewrite (Qle_bool_false (len (c :: text)) (len prompt * 8)) by assumption.
    rewrite andb_false_r.
    rewrite (Qle_bool_true (len prompt * 1.5)) by lra. cbn [negb].
    rewrite truediv_pos by lra. cbn [obind].
    rewrite token_factor. cbn [obind].
    eexists; split; [reflexivity|].
    set (e := (len (c :: text) - len prompt * 8) / (len prompt * 8)).
    assert (0 < e).
    { unfold e. apply Qlt_shift_div_l; lra. }
    assert (Qmax 0.5 (1 - e * 0.5) <= 1) by (apply Q.max_lub; lra).
    apply Q.min_l.
    unfold after_tokens. destruct t as [tokens|]; [|assumption].
    destruct (_ && _)%Z; lra. }
  destruct (Hall None) as (q0 & H0 & E0). destruct (Hall tokens_used) as (q & Hq & Eq).
  cbn [after_tokens] in E0.
  set (e := (len text - len prompt * 8) / (len prompt * 8)) in *.
  assert (0 < e) as He.
  { unfold e. apply Qlt_shift_div_l; lra. }
  pose proof (Q.le_max_l 0.5 (1 - e * 0.5)) as Hfloor.
  assert (Qmax 0.5 (1 - e * 0.5) < 1) as Hbelow.
  { destruct (Q.max_spec 0.5 (1 - e * 0.5)) as [[_ ->]|[_ ->]]; lra. }
  exists q0, q. repeat split; try assumption; try lra.
  - intros H16. rewrite E0. apply Q.max_l.
    assert (1 <= e); [|lra].
    unfold e. apply Qle_shift_div_l; lra.
  - rewrite Eq. unfold after_tokens. destruct tokens_used as [tokens|]; [|lra].
    destruct (_ && _)%Z; lra.
  - rewrite Eq, E0. unfold after_tokens. destruct tokens_used as [tokens|]; [|lra].
    destruct (_ && _)%Z; lra.
Qed.

Lemma length_too_long_floor_witness :
  exists q0 q,
    _length_appropriateness Examples.sample_text (lit "Why?") None = Return q0
    /\ 0.5 <= q0 /\ q0 < 1
    /\ (len (lit "Why?") * 16 <= len Examples.sample_text -> q0 == 0.5)
    /\ _length_appropriateness Examples.sample_text (lit "Why?") (Some 100%Z)
       = Return q
    /\ 0.4 <= q /\ q <= q0.
Proof.
  apply (length_too_long_floor Examples.sample_text (lit "Why?") (Some 100%Z)).
  - discriminate.
  - vm_compute. reflexivity.
Defined.

(** X7.  A text of at least 20 characters and 5 words in which no 3-gram
    of words and no sentence longer than 10 characters occurs twice gets
    the best repetition score, 1.0. *)
Theorem repetition_free_scores_one (text : str) :
  (20 <= length text)%nat -> (5 <= length (split (lower text)))%nat ->
  NoDup (ngrams_of 3 (split (lower text))) -> NoDup (long_sentences_of text) ->
  exists q, _repetition_penalty text = Return q /\ q == 1.
Proof.
  intros Hlong Hwords Hg Hs.
  destruct (repetition_ratio_distinct text (split (lower text))) as (r & Hr & E);
    [rewrite length_ngrams_of; lia | assumption | assumption|].
  exists (score_of_ratio r). split; [by apply _repetition_penalty_ratio|].
  unfold score_of_ratio.
  rewrite (Q.min_l r 0.8) by lra. rewrite Q.max_l by lra. lra.
Qed.

Lemma repetition_free_scores_one_witness :
  exists q, _repetition_penalty Examples.varied_text = Return q /\ q == 1.
Proof.
  apply (repetition_free_scores_one Examples.varied_text).
  - vm_compute. lia.
  - vm_compute. lia.
  - compute_done.
  - compute_done.
Defined.

(** X8.  Every text that is not empty has a structural richness of at
    least 0.1 and at most 1; the empty text has 0. *)
Theorem structural_richness_floor (text : str) :
  exists q,
    _structural_richness text = Return q
    /\ (text = [] -> q = 0)
    /\ (text <> [] -> 0.1 <= q /\ q <= 1).
Proof.
  destruct text as [|c text].
  { exists 0. repeat split; done. }
  destruct (_structural_richness_spec (c :: text)) as (q & Hq & Hb).
  exists q. split; [assumption|]. split; [done|]. intros _. split; [|lra].
  revert Hq. unfold _structural_richness. cbn [length Nat.eqb].
  set (paragraphs := split_sep (c :: text) _).
  set (list_count := (_ + _ + _)%nat).
  set (formatting_count := fold_right Nat.add 0%nat _).
  set (score1 := if (1 <? length paragraphs)%nat
                 then 0 + Qmin (len paragraphs / 5) 1 * 0.3 else 0 + 0.1).
  assert (0.1 <= score1) as H1.
  { unfold score1. destruct (1 <? length paragraphs)%nat eqn:E; [|lra].
    apply Nat.ltb_lt in E.
    assert (0.4 <= Qmin (len paragraphs / 5) 1); [|lra].
    apply Q.min_glb; [|lra]. apply Qle_shift_div_l; [lra|].
    rewrite len_of_nat. pose proof (of_nat_le 2 (length paragraphs) E) as H2.
    change (of_nat 2) with 2 in H2. lra. }
  set (score2 := if (0 <? list_count)%nat
                 then score1 + Qmin (of_nat list_count / 3) 1 * 0.3 else score1).
  assert (0.1 <= score2) as H2.
  { unfold score2. destruct (0 <? list_count)%nat; [|lra].
    assert (0 <= of_nat list_count / 3)
      by (apply Qdiv_nonneg; [apply of_nat_nonneg | lra]).
    pose proof (Qmin_unit _ H). lra. }
  set (score3 := score2 + Qmin (of_nat formatting_count / 5) 1 * 0.2).
  assert (0.1 <= score3) as H3.
  { unfold score3.
    assert (0 <= of_nat formatting_count / 5)
      by (apply Qdiv_nonneg; [apply of_nat_nonneg | lra]).
    pose proof (Qmin_unit _ H). lra. }
  destruct (1 <? length (sentences_of (c :: text)))%nat.
  - rewrite truediv_pos by (apply Qmax_pos_r; lra). cbn [obind].
    intros Hq; inversion Hq.
    set (u := of_nat _ / Qmax _ 5).
    assert (0 <= u)
      by (apply Qdiv_nonneg; [apply of_nat_nonneg | apply Qmax_pos_r; lra]).
    pose proof (Qmin_unit _ H).
    apply Q.min_glb; lra.
  - cbn [obind]. intros Hq; inversion Hq. apply Q.min_glb; lra.
Qed.

(** X9.  The completeness score is 0 when the response or the prompt is
    empty, and otherwise positive and at most 1: the length term alone is
    positive for every response that is not empty. *)
Theorem completeness_zero_iff_empty (text prompt : str) :
  exists q,
    _completeness_score text prompt = Return q
    /\ 0 <= q /\ q <= 1
    /\ (q == 0 <-> text = [] \/ prompt = []).
Proof.
  destruct (_completeness_score_spec text prompt) as (q & Hq & Hb).
  exists q. split; [assumption|]. split; [lra|]. split; [lra|].
  revert Hq. unfold _completeness_score.
  destruct (Nat.eqb (length text) 0 || Nat.eqb (length prompt) 0) eqn:E.
  { intros Hq; inversion Hq. split; [intros _|reflexivity].
    apply orb_true_iff in E as [E|E]; apply eqb_length_nil in E; tauto. }
  apply orb_false_iff in E as [Et Ep].
  assert (text <> []) as Hne by (intros ->; discriminate Et).
  assert (prompt <> []) as Hnp by (intros ->; discriminate Ep).
  assert (0 < len text) as Hlen.
  { apply len_pos. destruct text; [done | simpl; lia]. }
  set (found := count_if _ question_words).
  assert (exists a, (if (0 <? found)%nat
                     then obind (truediv (len text) (Qmax (len prompt * 2) 100))
                            (fun q => Return (0 + Qmin q 1 * 0.4))
                     else Return 0) = Return a /\ 0 <= a) as (a & -> & Ha).
  { destruct (0 <? found)%nat; [|eexists; split; [reflexivity | lra]].
    rewrite truediv_pos by (apply Qmax_pos_r; lra). cbn [obind].
    eexists; split; [reflexivity|].
    assert (0 <= len text / Qmax (len prompt * 2) 100) as H.
    { apply Qdiv_nonneg; [apply len_nonneg | apply Qmax_pos_r; lra]. }
    pose proof (Qmin_unit _ H). lra. }
  cbn [obind].
  set (pw := keywords prompt). set (tw := keywords text).
  assert (exists b, (if negb (Nat.eqb (size pw) 0)
                     then obind (truediv (of_nat (size (pw ∩ tw))) (of_nat (size pw)))
                            (fun overlap => Return (a + overlap * 0.4))
                     else Return a) = Return b /\ 0 <= b) as (b & -> & Hb').
  { destruct (Nat.eqb (size pw) 0) eqn:E; cbn [negb];
      [eexists; split; [reflexivity | lra]|].
    apply Nat.eqb_neq in E.
    assert (0 < of_nat (size pw)) as Hpos by (apply of_nat_pos; lia).
    rewrite truediv_pos by assumption. cbn [obind].
    eexists; split; [reflexivity|].
    assert (0 <= of_nat (size (pw ∩ tw)) / of_nat (size pw)) as H.
    { apply Qdiv_nonneg; [apply of_nat_nonneg | assumption]. }
    lra. }
  cbn [obind].
  rewrite truediv_pos by (apply Qmax_pos_r; lra). cbn [obind].
  intros Hq; inversion Hq as [Hq'].
  assert (0 < len text / Qmax (len prompt) 50) as H.
  { apply Qlt_shift_div_l; [apply Qmax_pos_r; lra | lra]. }
  assert (0 < Qmin (len text / Qmax (len prompt) 50) 2) as H2.
  { destruct (Q.min_spec (len text / Qmax (len prompt) 50) 2) as [[_ ->]|[_ ->]]; lra. }
  assert (0 < Qmin (len text / Qmax (len prompt) 50) 2 / 2) as H3
    by (apply Qlt_shift_div_l; lra).
  set (sc := b + Qmin (len text / Qmax (len prompt) 50) 2 / 2 * 0.2) in *.
  assert (0 < Qmin sc 1) as Hpos.
  { destruct (Q.min_spec sc 1) as [[_ ->]|[_ ->]]; unfold sc; lra. }
  split; [intros H0; lra | intros [->| ->]; done].
Qed.
End SingleScores.

(** ** The expansion *)

Section ExpansionFacts.
Import ExperimentService.

Lemma step_free_slot (fuel : nat) (param_range : option ParameterRange.t)
    (default : float) :
  step_free param_range = true ->
  exists values,
    get_values fuel param_range default = Return values
    /\ get_values 0 param_range default = Return values
    /\ count_values param_range default = Return (Z.of_nat (length values)).
Proof.
  intros H. destruct param_range as [r|]; [|by exists [default]].
  unfold get_values, count_values. cbn [step_free] in H.
  destruct (truthy_values (ParameterRange.values r)); [eauto|].
  cbn [orb] in H. apply negb_true_iff in H. rewrite H.
  destruct (negb (PrimFloat.eqb _ _)); eauto.
Qed.

Lemma get_values_nonempty (fuel : nat) (param_range : option ParameterRange.t)
    (default : float) (values : list float) :
  get_values fuel param_range default = Return values -> (0 < length values)%nat.
Proof.
  unfold get_values. destruct param_range as [r|]; [|intros [= <-]; simpl; lia].
  destruct (ParameterRange.values r) as [[|v vs]|] eqn:Ev; cbn [truthy_values the_values].
  2: { intros [= <-]. simpl; lia. }
  all: destruct (truthy_step (ParameterRange.step r)).
  all: try (destruct (negb (PrimFloat.eqb _ _)); intros [= <-]; simpl; lia).
  all: intros H; apply obind_Return_inv in H as (l & _ & H);
    destruct l; inversion H; simpl; lia.
Qed.

Lemma count_values_positive (param_range : option ParameterRange.t)
    (default : float) (n : Z) :
  count_values param_range default = Return n -> (0 < n)%Z.
Proof.
  unfold count_values. destruct param_range as [r|]; [|intros [= <-]; lia].
  destruct (ParameterRange.values r) as [[|v vs]|] eqn:Ev; cbn [truthy_values the_values].
  2: { intros [= <-]. simpl; lia. }
  all: destruct (truthy_step (ParameterRange.step r)).
  all: try (destruct (negb (PrimFloat.eqb _ _)); intros [= <-]; lia).
  all: intros H; apply obind_Return_inv in H as (q & _ & H); inversion H; lia.
Qed.

(** X10.  When no range of the request has a step to walk (each range is
    absent, lists explicit values, or gives only min and max), the
    expansion needs no loop iteration and never runs out of fuel, and
    whenever it returns, the guard has counted exactly the number of
    combinations generated. *)
Theorem step_free_count_is_exact (fuel : nat) (request : ExperimentRequest.t) :
  Forall (fun r => step_free r = true) (ExperimentRequest.ranges_of request) ->
  generate_parameter_combinations fuel request
  = generate_parameter_combinations 0 request
  /\ generate_parameter_combinations fuel request <> OutOfFuel
  /\ forall combos,
       generate_parameter_combinations fuel request = Return combos ->
       total_combinations request = Return (Z.of_nat (length combos)).
Proof.
  intros H. unfold ExperimentRequest.ranges_of in H.
  apply Forall_cons in H as [H1 H]. apply Forall_cons in H as [H2 H].
  apply Forall_cons in H as [H3 H]. apply Forall_cons in H as [H4 H].
  apply Forall_cons in H as [H5 _].
  destruct (step_free_slot fuel _ 0.7%float H1) as (ts & Et & Et0 & Ct).
  destruct (step_free_slot fuel _ 1.0%float H2) as (ps & Ep & Ep0 & Cp).
  destruct (step_free_slot fuel _ 1000%float H3) as (vs & Ev & Ev0 & Cv).
  destruct (step_free_slot fuel _ 0.0%float H4) as (pps & Epp & Epp0 & Cpp).
  destruct (step_free_slot fuel _ 0.0%float H5) as (fps & Ef & Ef0 & Cf).
  split; [|split].
  - unfold generate_parameter_combinations.
    by rewrite Et, Et0, Ep, Ep0, Ev, Ev0, Epp, Epp0, Ef, Ef0.
  - unfold generate_parameter_combinations.
    rewrite Et, Ep, Ev, Epp, Ef. cbn [obind].
    assert (omapM PyFloat.to_int vs <> OutOfFuel) as Hm.
    { clear. induction vs as [|v vs IH]; [done|]. cbn [omapM].
      destruct (PyFloat.to_int v) as [n| |] eqn:E; cbn [obind]; [|done|].
      - destruct (omapM PyFloat.to_int vs); done.
      - unfold PyFloat.to_int in E. destruct (Prim2SF v); discriminate. }
    destruct (omapM PyFloat.to_int vs); done.
  - intros combos Hg. apply (total_combinations_agrees fuel); try assumption.
    all: eexists; split; eassumption.
Qed.

Lemma step_free_count_is_exact_witness :
  generate_parameter_combinations 7 Samples.listed_request
  = generate_parameter_combinations 0 Samples.listed_request
  /\ generate_parameter_combinations 7 Samples.listed_request <> OutOfFuel
  /\ forall combos,
       generate_parameter_combinations 7 Samples.listed_request = Return combos ->
       total_combinations Samples.listed_request = Return (Z.of_nat (length combos)).
Proof.
  apply (step_free_count_is_exact 7 Samples.listed_request).
  repeat constructor.
Defined.

(** X11.  The expansion never yields an empty batch and the guard never
    counts zero: every slot contributes at least one value (an empty walk
    falls back to the default), so a request that is expanded gives at
    least one combination, and the counted total is at least 1. *)
Theorem expansion_never_empty (fuel : nat) (request : ExperimentRequest.t)
    (combos : list (gmap string pyval)) (total : Z) :
  generate_parameter_combinations fuel request = Return combos ->
  total_combinations request = Return total ->
  (0 < length combos)%nat /\ (0 < total)%Z.
Proof.
  intros Hg Ht. split.
  - apply generate_parameter_combinations_inv in Hg
      as (ts & ps & vs & ms & pps & fps & Et & Ep & Ev & Em & Epp & Ef & ->).
    rewrite length_product5.
    apply get_values_nonempty in Et, Ep, Ev, Epp, Ef.
    apply omapM_length in Em. nia.
  - unfold total_combinations in Ht.
    apply obind_Return_inv in Ht as (c1 & H1 & Ht).
    apply obind_Return_inv in Ht as (c2 & H2 & Ht).
    apply obind_Return_inv in Ht as (c3 & H3 & Ht).
    apply obind_Return_inv in Ht as (c4 & H4 & Ht).
    apply obind_Return_inv in Ht as (c5 & H5 & Ht).
    apply count_values_positive in H1, H2, H3, H4, H5.
    inversion Ht. nia.
Qed.

Lemma expansion_never_empty_witness :
  (0 < length Examples.sweep_combinations)%nat /\ (0 < 3)%Z.
Proof.
  apply (expansion_never_empty 10 Examples.sweep_request
           Examples.sweep_combinations 3); reflexivity.
Defined.

Lemma elem_of_product5 (ts ps : list float) (ms : list Z) (pps fps : list float)
    (combo : gmap string pyval) :
  combo ∈ product5 ts ps ms pps fps
  <-> exists t p m pp fp,
        t ∈ ts /\ p ∈ ps /\ m ∈ ms /\ pp ∈ pps /\ fp ∈ fps
        /\ combo = combination t p m pp fp.
Proof.
  unfold product5. split.
  - intros H.
    apply list_elem_of_bind in H as (t & H & Ht).
    apply list_elem_of_bind in H as (p & H & Hp).
    apply list_elem_of_bind in H as (m & H & Hm).
    apply list_elem_of_bind in H as (pp & H & Hpp).
    apply list_elem_of_bind in H as (fp & H & Hfp).
    apply list_elem_of_singleton in H. by exists t, p, m, pp, fp.
  - intros (t & p & m & pp & fp & Ht & Hp & Hm & Hpp & Hfp & ->).
    apply list_elem_of_bind. exists t. split; [|assumption].
    apply list_elem_of_bind. exists p. split; [|assumption].
    apply list_elem_of_bind. exists m. split; [|assumption].
    apply list_elem_of_bind. exists pp. split; [|assumption].
    apply list_elem_of_bind. exists fp. split; [|assumption].
    by apply list_elem_of_singleton.
Qed.

(** X12.  The combinations generated are exactly the Cartesian product of
    the five value lists: a dictionary is generated if and only if it binds
    the five parameter names to one value of each list, with [max_tokens]
    an integer obtained by truncating a value of its list, and their
    number is the product of the five lengths. *)
Theorem combinations_are_the_product (fuel : nat) (request : ExperimentRequest.t)
    (combos : list (gmap string pyval)) :
  generate_parameter_combinations fuel request = Return combos ->
  exists ts ps vs ms pps fps,
    get_values fuel (ExperimentRequest.temperature request) 0.7%float = Return ts
    /\ get_values fuel (ExperimentRequest.top_p request) 1.0%float = Return ps
    /\ get_values fuel (ExperimentRequest.max_tokens request) 1000%float = Return vs
    /\ omapM PyFloat.to_int vs = Return ms
    /\ get_values fuel (ExperimentRequest.presence_penalty request) 0.0%float
       = Return pps
    /\ get_values fuel (ExperimentRequest.frequency_penalty request) 0.0%float
       = Return fps
    /\ (forall combo,
          combo ∈ combos
          <-> exists t p m pp fp,
                t ∈ ts /\ p ∈ ps /\ m ∈ ms /\ pp ∈ pps /\ fp ∈ fps
                /\ combo = combination t p m pp fp)
    /\ length combos
       = (length ts * length ps * length vs * length pps * length fps)%nat.
Proof.
  intros Hg.
  apply generate_parameter_combinations_inv in Hg
    as (ts & ps & vs & ms & pps & fps & Et & Ep & Ev & Em & Epp & Ef & ->).
  exists ts, ps, vs, ms, pps, fps. repeat split; try assumption.
  - by apply elem_of_product5.
  - by apply elem_of_product5.
  - rewrite length_product5. apply omapM_length in Em. nia.
Qed.

Lemma combinations_are_the_product_witness :
  exists ts ps vs ms pps fps,
    get_values 10 (ExperimentRequest.temperature Examples.sweep_request) 0.7%float
    = Return ts
    /\ get_values 10 (ExperimentRequest.top_p Examples.sweep_request) 1.0%float
       = Return ps
    /\ get_values 10 (ExperimentRequest.max_tokens Examples.sweep_request) 1000%float
       = Return vs
    /\ omapM PyFloat.to_int vs = Return ms
    /\ get_values 10 (ExperimentRequest.presence_penalty Examples.sweep_request)
         0.0%float = Return pps
    /\ get_values 10 (ExperimentRequest.frequency_penalty Examples.sweep_request)
         0.0%float = Return fps
    /\ (forall combo,
          combo ∈ Examples.sweep_combinations
          <-> exists t p m pp fp,
                t ∈ ts /\ p ∈ ps /\ m ∈ ms /\ pp ∈ pps /\ fp ∈ fps
                /\ combo = combination t p m pp fp)
    /\ length Examples.sweep_combinations
       = (length ts * length ps * length vs * length pps * length fps)%nat.
Proof.
  apply (combinations_are_the_product 10 Examples.sweep_request
           Examples.sweep_combinations).
  reflexivity.
Defined.

Lemma fmap_constant {A B} (f : A -> B) (l : list A) (b : B) :
  (forall a, a ∈ l -> f a = b) -> f <$> l = replicate (length l) b.
Proof.
  induction l as [|a l IH]; intros H; [done|]. cbn [fmap list_fmap length replicate].
  rewrite (H a) by apply list_elem_of_here. f_equal.
  apply IH. intros a' Ha'. apply H. by apply list_elem_of_further.
Qed.

Lemma fmap_bind_list {A B C} (f : B -> C) (g : A -> list B) (l : list A) :
  f <$> (l ≫= g) = l ≫= (fun a => f <$> g a).
Proof.
  induction l as [|a l IH]; [done|].
  cbn [mbind list_bind]. rewrite fmap_app. by rewrite IH.
Qed.

Lemma bind_constant {A B} (g : A -> list B) (l : list A) (bs : list B) :
  (forall a, g a = bs) -> l ≫= g = concat (replicate (length l) bs).
Proof.
  intros H. induction l as [|a l IH]; [done|].
  cbn [mbind list_bind length replicate concat]. by rewrite H, IH.
Qed.

Lemma concat_replicate_replicate {A} (n m : nat) (l : list A) :
  concat (replicate n (concat (replicate m l))) = concat (replicate (n * m) l).
Proof.
  induction n as [|n IH]; [done|].
  cbn [replicate concat]. rewrite IH.
  replace (S n * m)%nat with (m + n * m)%nat by lia.
  rewrite replicate_add, concat_app. done.
Qed.

(** X13.  The combinations come in the order of [itertools.product]: the
    temperature varies slowest (each temperature fills one block of
    consecutive combinations) and the frequency penalty fastest (its list
    of values is repeated over and over). *)
Theorem combinations_in_product_order (fuel : nat) (request : ExperimentRequest.t)
    (combos : list (gmap string pyval)) (ts fps : list float) :
  generate_parameter_combinations fuel request = Return combos ->
  get_values fuel (ExperimentRequest.temperature request) 0.7%float = Return ts ->
  get_values fuel (ExperimentRequest.frequency_penalty request) 0.0%float
  = Return fps ->
  (fun combo : gmap string pyval => combo !! "temperature") <$> combos
  = ts ≫= (fun t => replicate (length combos / length ts) (Some (VFloat t)))
  /\ (fun combo : gmap string pyval => combo !! "frequency_penalty") <$> combos
     = concat (replicate (length combos / length fps)
                 ((fun fp => Some (VFloat fp)) <$> fps)).
Proof.
  intros Hg Ht Hf.
  apply generate_parameter_combinations_inv in Hg
    as (ts' & ps & vs & ms & pps & fps' & Et & Ep & Ev & Em & Epp & Ef & ->).
  rewrite Ht in Et. rewrite Hf in Ef. inversion Et; inversion Ef; subst ts' fps'.
  apply get_values_nonempty in Ht, Hf.
  rewrite length_product5.
  set (block := (length ps * (length ms * (length pps * length fps)))%nat).
  split.
  - replace (length ts * block / length ts)%nat with block
      by (rewrite Nat.mul_comm, Nat.div_mul; lia).
    unfold product5. rewrite fmap_bind_list.
    clear Ht Et. induction ts as [|t ts IH]; [done|].
    rewrite !bind_cons. f_equal; [|assumption].
    rewrite (fmap_constant _ _ (Some (VFloat t))).
    + f_equal. unfold block.
      rewrite (length_bind_const _ ps (length ms * (length pps * length fps))); [done|].
      intros p.
      rewrite (length_bind_const _ ms (length pps * length fps)); [done|].
      intros m. rewrite (length_bind_const _ pps (length fps)); [done|].
      intros pp. rewrite (length_bind_const _ fps 1); [lia | done].
    + intros combo H.
      apply list_elem_of_bind in H as (p & H & _).
      apply list_elem_of_bind in H as (m & H & _).
      apply list_elem_of_bind in H as (pp & H & _).
      apply list_elem_of_bind in H as (fp & H & _).
      apply list_elem_of_singleton in H. by subst combo.
  - replace (length ts * block / length fps)%nat
      with (length ts * (length ps * (length ms * length pps)))%nat.
    2: { unfold block.
         replace (length ts * (length ps * (length ms * (length pps * length fps))))%nat
           with (length ts * (length ps * (length ms * length pps)) * length fps)%nat
           by lia.
         rewrite Nat.div_mul; lia. }
    unfold product5. rewrite fmap_bind_list.
    rewrite (bind_constant _ ts
               (concat (replicate (length ps * (length ms * length pps))
                          ((fun fp => Some (VFloat fp)) <$> fps)))).
    { by rewrite concat_replicate_replicate. }
    intros t. rewrite fmap_bind_list.
    rewrite (bind_constant _ ps
               (concat (replicate (length ms * length pps)
                          ((fun fp => Some (VFloat fp)) <$> fps)))).
    { by rewrite concat_replicate_replicate. }
    intros p. rewrite fmap_bind_list.
    rewrite (bind_constant _ ms
               (concat (replicate (length pps)
                          ((fun fp => Some (VFloat fp)) <$> fps)))).
    { by rewrite concat_replicate_replicate. }
    intros m. rewrite fmap_bind_list.
    apply bind_constant. intros pp. rewrite fmap_bind_list.
    clear. induction fps as [|fp fps IH]; [done|].
    cbn [mbind list_bind fmap list_fmap app]. by rewrite <- IH.
Qed.
Lemma combinations_in_product_order_witness :
  (fun combo : gmap string pyval => combo !! "temperature")
    <$> Samples.grid_combinations
  = [0; 0.5; 1]%float
    ≫= (fun t => replicate (length Samples.grid_combinations / 3)
                   (Some (VFloat t)))
  /\ (fun combo : gmap string pyval => combo !! "frequency_penalty")
       <$> Samples.grid_combinations
     = concat (replicate (length Samples.grid_combinations / 2)
                 ((fun fp => Some (VFloat fp)) <$> [0; 0.5]%float)).
Proof.
  apply (combinations_in_product_order 3 Samples.grid_request
           Samples.grid_combinations [0; 0.5; 1]%float [0; 0.5]%float);
    reflexivity.
Defined.
End ExpansionFacts.

(** ** The batch and the route *)

Section BatchAndRoute.
Import ExperimentService LLMService Api.

Lemma omapM_Return_inv {A B} (f : A -> outcome B) (l : list A) (ys : list B) :
  omapM f l = Return ys -> Forall2 (fun x y => f x = Return y) l ys.
Proof.
  revert ys. induction l as [|a l IH]; intros ys H; cbn [omapM] in H.
  - inversion H. constructor.
  - apply obind_Return_inv in H as (b & Hb & H).
    apply obind_Return_inv in H as (bs & Hbs & H). inversion H.
    constructor; [assumption | by apply IH].
Qed.

(** X14.  The route issues generation calls only after every check has
    passed: whenever at least one call is issued, the body has passed the
    schema, the guard has accepted the request, an API key is present, and
    the calls are exactly the combinations of the expansion.  A request
    that is rejected, or made without an API key, costs no call. *)
Theorem calls_only_after_all_checks (e : env) (fuel : nat)
    (body : ExperimentRequest.t) (calls : list (gmap string pyval))
    (result : outcome (list Response)) :
  create_experiment e fuel body = (calls, result) ->
  calls <> [] ->
  ExperimentRequest.validate body = Return body
  /\ validate_parameter_ranges body = Return (true, None)
  /\ generate_parameter_combinations fuel body = Return calls
  /\ exists c key, api_key e = Some (c :: key).
Proof.
  unfold create_experiment. intros H Hne.
  destruct (ExperimentRequest.validate body) as [request| |] eqn:Hv;
    [|by inversion H; subst..].
  apply ExperimentRequest_validate_Return in Hv as Hb. destruct Hb as [-> _].
  destruct (validate_parameter_ranges body) as [[[|] msg]| |] eqn:Hg;
    [|by inversion H; subst..].
  destruct (generate_parameter_combinations fuel body) as [combos| |] eqn:Hc;
    [|by inversion H; subst..].
  destruct (LLMService.init (api_key e) (invoke e)) as [llm| |] eqn:Hk;
    [|by inversion H; subst..].
  destruct (tasks_from _ _ _ _ _) as [tasks| |]; [|by inversion H; subst..].
  inversion H; subst calls.
  split; [done|]. split.
  - unfold validate_parameter_ranges in Hg |- *.
    destruct (total_combinations body) as [total| |]; try discriminate.
    cbn [obind] in Hg |- *. by destruct (MAX_COMBINATIONS <? total)%Z.
  - split; [done|]. unfold LLMService.init in Hk.
    destruct (api_key e) as [[|c key]|]; try discriminate. eauto.
Qed.

Lemma calls_only_after_all_checks_witness :
  ExperimentRequest.validate Examples.sweep_request = Return Examples.sweep_request
  /\ validate_parameter_ranges Examples.sweep_request = Return (true, None)
  /\ generate_parameter_combinations 3 Examples.sweep_request
     = Return Examples.sweep_combinations
  /\ exists c key,
       api_key (Examples.env_of Examples.answering [0; 1; 2]%nat) = Some (c :: key).
Proof.
  destruct (create_experiment_accepted
              (Examples.env_of Examples.answering [0; 1; 2]%nat) 3
              Examples.sweep_request Examples.sweep_combinations "s" (lit "k-test"))
    as (responses & Hr & _); try reflexivity; [compute_done|].
  apply (calls_only_after_all_checks
           (Examples.env_of Examples.answering [0; 1; 2]%nat) 3
           Examples.sweep_request Examples.sweep_combinations (Return responses)).
  - exact Hr.
  - discriminate.
Defined.

Lemma task_of_cases (self : LLMService.t) (prompt model : str) (i : nat)
    (combo : gmap string pyval) :
  (Forall (fun key => is_Some (combo !! key)) parameter_keys
   /\ exists task, task_of self prompt model i combo = Return task)
  \/ (exists key, key ∈ parameter_keys /\ combo !! key = None
                  /\ task_of self prompt model i combo = Raise (KeyError key)).
Proof.
  unfold task_of, getitem, parameter_keys.
  destruct (combo !! "temperature") eqn:E1;
    [|right; exists "temperature"; split; [set_solver | by rewrite ?E1]].
  destruct (combo !! "top_p") eqn:E2;
    [|right; exists "top_p"; split; [set_solver | by rewrite ?E2]].
  destruct (combo !! "max_tokens") eqn:E3;
    [|right; exists "max_tokens"; split; [set_solver | by rewrite ?E3]].
  destruct (combo !! "presence_penalty") eqn:E4;
    [|right; exists "presence_penalty"; split; [set_solver | by rewrite ?E4]].
  destruct (combo !! "frequency_penalty") eqn:E5;
    [|right; exists "frequency_penalty"; split; [set_solver | by rewrite ?E5]].
  left. split; [|cbn [obind]; eauto].
  repeat constructor; eexists; eassumption.
Qed.

Lemma tasks_from_missing_key (self : LLMService.t) (prompt model : str) (i : nat)
    (combos : list (gmap string pyval)) (combo : gmap string pyval) (key : string) :
  combo ∈ combos -> key ∈ parameter_keys -> combo !! key = None ->
  exists key', key' ∈ parameter_keys
               /\ tasks_from self prompt model i combos = Raise (KeyError key').
Proof.
  intros Hin Hkey Hnone. revert i.
  induction combos as [|combo' combos IH]; intros i; [by apply elem_of_nil in Hin|].
  cbn [tasks_from].
  destruct (task_of_cases self prompt model i combo')
    as [[Hall [task ->]]|(key' & Hk' & _ & ->)]; [|eauto].
  cbn [obind]. apply elem_of_cons in Hin as [<-|Hin].
  - rewrite Forall_forall in Hall. destruct (Hall key Hkey) as [v Hv]. congruence.
  - destruct (IH Hin (S i)) as (key' & Hk' & ->). eauto.
Qed.

(** X15.  A batch in which some combination lacks one of the five
    parameter names fails as a whole, whatever the provider and the
    completion order: [generate_batch] raises [KeyError] for a parameter
    name while the tasks are being built, and the route reports it as an
    internal error that quotes the missing name. *)
Theorem missing_parameter_fails_the_batch (self : LLMService.t)
    (completion_order : list nat) (prompt model : str)
    (combos : list (gmap string pyval)) (combo : gmap string pyval) (key : string) :
  combo ∈ combos -> key ∈ parameter_keys -> combo !! key = None ->
  exists key',
    key' ∈ parameter_keys
    /\ generate_batch self completion_order prompt combos model
       = Raise (KeyError key')
    /\ guard_batch (generate_batch self completion_order prompt combos model)
       = Raise (HTTPException 500
                  (lit "Error generating LLM responses: '" ++ lit key' ++ lit "'")).
Proof.
  intros Hin Hkey Hnone.
  destruct (tasks_from_missing_key self prompt model 0 combos combo key Hin Hkey Hnone)
    as (key' & Hk' & Ht).
  exists key'. split; [assumption|].
  unfold generate_batch. rewrite Ht. cbn [obind guard_batch exn_str].
  split; reflexivity.
Qed.

Lemma missing_parameter_fails_the_batch_witness :
  exists key',
    key' ∈ parameter_keys
    /\ generate_batch (Examples.service_of Examples.answering) [1; 0]%nat
         Examples.prompt
         [combination 0 1 1000 0 0; delete "top_p" (combination 1 1 1000 0 0)]
         Examples.model
       = Raise (KeyError key')
    /\ guard_batch
         (generate_batch (Examples.service_of Examples.answering) [1; 0]%nat
            Examples.prompt
            [combination 0 1 1000 0 0; delete "top_p" (combination 1 1 1000 0 0)]
            Examples.model)
       = Raise (HTTPException 500
                  (lit "Error generating LLM responses: '" ++ lit key' ++ lit "'")).
Proof.
  apply (missing_parameter_fails_the_batch (Examples.service_of Examples.answering)
           [1; 0]%nat Examples.prompt Examples.model
           [combination 0 1 1000 0 0; delete "top_p" (combination 1 1 1000 0 0)]
           (delete "top_p" (combination 1 1 1000 0 0)) "top_p").
  - apply list_elem_of_further, list_elem_of_here.
  - compute_done.
  - reflexivity.
Defined.

Lemma create_experiment_Return_inv (e : env) (fuel : nat)
    (body : ExperimentRequest.t) (calls : list (gmap string pyval))
    (responses : list Response) :
  create_experiment e fuel body = (calls, Return responses) ->
  ExperimentRequest.prompt body <> []
  /\ exists llm_results,
       omapM (score (ExperimentRequest.prompt body)) llm_results = Return responses.
Proof.
  unfold create_experiment. intros H.
  destruct (ExperimentRequest.validate body) as [request| |] eqn:Hv;
    [|by inversion H..].
  apply ExperimentRequest_validate_Return in Hv as [-> Hp].
  destruct (validate_parameter_ranges body) as [[[|] msg]| |];
    [|by inversion H..].
  destruct (generate_parameter_combinations fuel body) as [combos| |];
    [|by inversion H..].
  destruct (LLMService.init (api_key e) (invoke e)) as [llm| |];
    [|by inversion H..].
  destruct (tasks_from _ _ _ _ _) as [tasks| |]; [|by inversion H..].
  injection H as Hc Hr.
  apply obind_Return_inv in Hr as (llm_results & _ & Hs).
  split; [assumption | by exists llm_results].
Qed.

Lemma score_metrics (prompt : str) (llm_result : gmap string pyval)
    (response : Response) :
  score prompt llm_result = Return response ->
  exists text tokens,
    QualityMetricsCalculator.calculate_all text prompt tokens
    = Return (metrics response)
    /\ response_text response = text /\ tokens_used response = tokens.
Proof.
  unfold score. intros H.
  apply obind_Return_inv in H as (v & _ & H).
  apply obind_Return_inv in H as (text & _ & H).
  apply obind_Return_inv in H as (tokens & _ & H).
  apply obind_Return_inv in H as (metrics_dict & Hm & H).
  apply obind_Return_inv in H as (t & _ & H).
  apply obind_Return_inv in H as (p & _ & H).
  apply obind_Return_inv in H as (m & _ & H).
  apply obind_Return_inv in H as (pp & _ & H).
  apply obind_Return_inv in H as (fp & _ & H).
  inversion H. exists text, tokens. by cbn.
Qed.

(** X16.  Every response that the route stores, the responses of failed
    calls included, carries the metrics that [calculate_all] computed on
    its text, and that dictionary is not empty and passes the schema
    [QualityMetrics]: when the experiment is read back, the conversion
    to the response model takes the stored scores and never replaces them
    by zeros or fails on them. *)
Theorem stored_metrics_pass_schema (e : env) (fuel : nat)
    (body : ExperimentRequest.t) (calls : list (gmap string pyval))
    (responses : list Response) :
  create_experiment e fuel body = (calls, Return responses) ->
  Forall (fun response =>
            QualityMetricsCalculator.calculate_all (response_text response)
              (ExperimentRequest.prompt body) (tokens_used response)
            = Return (metrics response)
            /\ Routes.truthy_metrics (Some (metrics response)) = true
            /\ exists m,
                 QualityMetrics.from_dict (metrics response) = Return m
                 /\ metrics response !! "overall_score"
                    = Some (QualityMetrics.overall_score m))
    responses.
Proof.
  intros H. apply create_experiment_Return_inv in H as (Hp & llm_results & Hs).
  apply omapM_Return_inv in Hs.
  apply Forall_forall. intros response Hin.
  apply list_elem_of_lookup in Hin as [i Hi].
  eapply Forall2_lookup_r in Hs as (llm_result & _ & Hscore); [|exact Hi].
  apply score_metrics in Hscore as (text & tokens & Hm & <- & <-).
  split; [assumption|].
  destruct (calculate_all_passes_schema_aux (response_text response)
              (ExperimentRequest.prompt body) (tokens_used response) Hp)
    as (c & p & l & r & s & Hcalc & Hfrom).
  rewrite Hm in Hcalc. inversion Hcalc as [Heq]. rewrite Heq in *.
  split; [done|]. eexists. split; [exact Hfrom | done].
Qed.

Lemma stored_metrics_pass_schema_witness :
  exists responses,
    create_experiment (Examples.env_of (Examples.failing_at 1) [2; 0; 1]%nat) 3
      Examples.sweep_request
    = (Examples.sweep_combinations, Return responses)
    /\ Forall (fun response =>
                 QualityMetricsCalculator.calculate_all (response_text response)
                   (ExperimentRequest.prompt Examples.sweep_request)
                   (tokens_used response)
                 = Return (metrics response)
                 /\ Routes.truthy_metrics (Some (metrics response)) = true
                 /\ exists m,
                      QualityMetrics.from_dict (metrics response) = Return m
                      /\ metrics response !! "overall_score"
                         = Some (QualityMetrics.overall_score m))
         responses.
Proof.
  destruct (create_experiment_accepted
              (Examples.env_of (Examples.failing_at 1) [2; 0; 1]%nat) 3
              Examples.sweep_request Examples.sweep_combinations "s" (lit "k-test"))
    as (responses & Hr & _); try reflexivity; [compute_done|].
  exists responses. split; [exact Hr|].
  apply (stored_metrics_pass_schema
           (Examples.env_of (Examples.failing_at 1) [2; 0; 1]%nat) 3
           Examples.sweep_request Examples.sweep_combinations responses).
  exact Hr.
Defined.
End BatchAndRoute.

(** ** The reading routes *)

Section ReadingRoutes.
Import Routes.

Lemma first_with_id_None (experiment_id : Z) (db : list Experiment.t) :
  first_with_id experiment_id db = None
  <-> Forall (fun exp => Experiment.id exp <> experiment_id) db.
Proof.
  unfold first_with_id. induction db as [|exp db IH]; cbn [List.find].
  - split; [constructor | done].
  - destruct (Z.eqb_spec (Experiment.id exp) experiment_id) as [E|E].
    + split; [done|]. intros H. apply Forall_cons in H as [H _]. done.
    + rewrite IH. split; [by constructor|]. intros H. by apply Forall_cons in H as [_ H].
Qed.

Lemma first_with_id_Some (experiment_id : Z) (db : list Experiment.t)
    (exp : Experiment.t) :
  first_with_id experiment_id db = Some exp ->
  exp ∈ db /\ Experiment.id exp = experiment_id.
Proof.
  unfold first_with_id. induction db as [|exp' db IH]; cbn [List.find]; [done|].
  destruct (Z.eqb_spec (Experiment.id exp') experiment_id) as [E|E].
  - intros [= <-]. split; [apply list_elem_of_here | done].
  - intros H. destruct (IH H) as [Hin Hid]. split; [by apply list_elem_of_further | done].
Qed.

Lemma first_with_id_unique (experiment_id : Z) (db : list Experiment.t)
    (exp : Experiment.t) :
  NoDup (Experiment.id <$> db) -> exp ∈ db -> Experiment.id exp = experiment_id ->
  first_with_id experiment_id db = Some exp.
Proof.
  unfold first_with_id. induction db as [|exp' db IH]; intros Hnd Hin Hid.
  - by apply elem_of_nil in Hin.
  - cbn [List.find]. rewrite fmap_cons in Hnd. apply NoDup_cons in Hnd as [Hfresh Hnd].
    apply elem_of_cons in Hin as [<-|Hin].
    + by rewrite (proj2 (Z.eqb_eq _ _) Hid).
    + destruct (Z.eqb_spec (Experiment.id exp') experiment_id) as [E|E]; [|by apply IH].
      exfalso. apply Hfresh. rewrite E, <- Hid. by apply list_elem_of_fmap_2.
Qed.

(** X17.  For every identifier that no stored experiment has, the three
    routes that take an identifier answer 404 with the message
    ["Experiment <id> not found"]: reading, deleting (the table is left as
    it is) and exporting, whatever format is asked for, so that an unknown
    identifier with an unsupported format is reported as 404 and not as
    400. *)
Theorem unknown_experiment_is_not_found (experiment_id : Z) (format : str)
    (db : list Experiment.t) :
  Forall (fun exp => Experiment.id exp <> experiment_id) db ->
  get_experiment experiment_id db = Raise (not_found experiment_id)
  /\ delete_experiment experiment_id db = (db, Raise (not_found experiment_id))
  /\ export_experiment experiment_id format db = Raise (not_found experiment_id)
  /\ not_found experiment_id
     = HTTPException 404
         (lit "Experiment " ++ str_of_int experiment_id ++ lit " not found").
Proof.
  intros H. apply first_with_id_None in H.
  unfold get_experiment, delete_experiment, export_experiment. by rewrite H.
Qed.

Lemma unknown_experiment_is_not_found_witness :
  get_experiment 7 Samples.table = Raise (not_found 7)
  /\ delete_experiment 7 Samples.table = (Samples.table, Raise (not_found 7))
  /\ export_experiment 7 (lit "xml") Samples.table = Raise (not_found 7)
  /\ not_found 7
     = HTTPException 404 (lit "Experiment " ++ str_of_int 7 ++ lit " not found").
Proof.
  apply (unknown_experiment_is_not_found 7 (lit "xml") Samples.table).
  repeat constructor; discriminate.
Defined.

Lemma without_first_spec (experiment_id : Z) (db : list Experiment.t) :
  NoDup (Experiment.id <$> db) ->
  Forall (fun exp => Experiment.id exp <> experiment_id)
    (without_first experiment_id db)
  /\ (forall y, y <> experiment_id ->
        first_with_id y (without_first experiment_id db) = first_with_id y db)
  /\ without_first experiment_id db
     = List.filter (fun exp => negb (Z.eqb (Experiment.id exp) experiment_id)) db.
Proof.
  induction db as [|exp db IH]; intros Hnd; cbn [without_first List.filter].
  - split; [constructor | done].
  - rewrite fmap_cons in Hnd. apply NoDup_cons in Hnd as [Hfresh Hnd].
    destruct (IH Hnd) as (IH1 & IH2 & IH3).
    destruct (Z.eqb_spec (Experiment.id exp) experiment_id) as [E|E]; cbn [negb].
    + assert (Forall (fun exp' => Experiment.id exp' <> experiment_id) db) as Hall.
      { apply Forall_forall. intros exp' Hin Hid. apply Hfresh.
        rewrite E, <- Hid. by apply list_elem_of_fmap_2. }
      split; [assumption|]. split.
      * intros y Hy. unfold first_with_id. cbn [List.find].
        destruct (Z.eqb_spec (Experiment.id exp) y); [congruence | done].
      * clear -Hall. induction Hall as [|exp' db Hne _ IH]; [done|].
        cbn [List.filter]. destruct (Z.eqb_spec (Experiment.id exp') experiment_id);
          [done|]. cbn [negb]. by rewrite <- IH.
    + split; [by constructor|]. split.
      * intros y Hy. unfold first_with_id in *. cbn [List.find].
        destruct (Z.eqb (Experiment.id exp) y); [done | by apply IH2].
      * by rewrite IH3.
Qed.

Lemma length_without_first (experiment_id : Z) (db : list Experiment.t)
    (exp : Experiment.t) :
  first_with_id experiment_id db = Some exp ->
  S (length (without_first experiment_id db)) = length db.
Proof.
  unfold first_with_id. induction db as [|exp' db IH]; cbn [List.find without_first];
    [done|].
  destruct (Z.eqb (Experiment.id exp') experiment_id); [done|].
  intros H. cbn [length]. by rewrite (IH H).
Qed.

(** X18.  Deleting a stored experiment removes exactly that experiment
    together with its responses (identifiers being unique): the route
    returns with no content, the table is one row shorter, the experiment
    can no longer be read, exported or deleted again (404), and every
    other experiment is read and exported as before. *)
Theorem delete_then_read (experiment_id : Z) (db : list Experiment.t)
    (exp : Experiment.t) :
  NoDup (Experiment.id <$> db) -> exp ∈ db -> Experiment.id exp = experiment_id ->
  exists db',
    delete_experiment experiment_id db = (db', Return tt)
    /\ S (length db') = length db
    /\ db' = List.filter (fun e => negb (Z.eqb (Experiment.id e) experiment_id)) db
    /\ get_experiment experiment_id db' = Raise (not_found experiment_id)
    /\ delete_experiment experiment_id db' = (db', Raise (not_found experiment_id))
    /\ (forall format,
          export_experiment experiment_id format db'
          = Raise (not_found experiment_id))
    /\ (forall y format,
          y <> experiment_id ->
          get_experiment y db' = get_experiment y db
          /\ export_experiment y format db' = export_experiment y format db).
Proof.
  intros Hnd Hin Hid.
  pose proof (first_with_id_unique experiment_id db exp Hnd Hin Hid) as Hfirst.
  destruct (without_first_spec experiment_id db Hnd) as (Hgone & Hothers & Hfilter).
  exists (without_first experiment_id db).
  split; [unfold delete_experiment; by rewrite Hfirst|].
  split; [by apply (length_without_first experiment_id db exp)|].
  split; [assumption|].
  apply first_with_id_None in Hgone.
  unfold get_experiment, delete_experiment, export_experiment.
  rewrite Hgone. repeat split; try done.
  all: by rewrite Hothers.
Qed.

Lemma delete_then_read_witness :
  exists db',
    delete_experiment 2 Samples.table = (db', Return tt)
    /\ S (length db') = length Samples.table
    /\ db' = List.filter (fun e => negb (Z.eqb (Experiment.id e) 2)) Samples.table
    /\ get_experiment 2 db' = Raise (not_found 2)
    /\ delete_experiment 2 db' = (db', Raise (not_found 2))
    /\ (forall format, export_experiment 2 format db' = Raise (not_found 2))
    /\ (forall y format,
          y <> 2%Z ->
          get_experiment y db' = get_experiment y Samples.table
          /\ export_experiment y format db' = export_experiment y format Samples.table).
Proof.
  apply (delete_then_read 2 Samples.table Samples.damaged_experiment).
  - compute_done.
  - apply list_elem_of_further, list_elem_of_here.
  - reflexivity.
Defined.
End ReadingRoutes.

(** ** Listing, converting and exporting *)

Section ListingAndExport.
Import Routes.

Lemma length_summary_prompt (prompt : str) :
  length (summary_prompt prompt) <= 103
  /\ (length prompt <= 100 -> summary_prompt prompt = prompt)
  /\ (100 < length prompt -> summary_prompt prompt = take 100 prompt ++ lit "...").
Proof.
  unfold summary_prompt. destruct (Nat.ltb_spec 100 (length prompt)) as [H|H].
  - split; [|split; [lia | done]].
    rewrite length_app, length_take. change (length (lit "...")) with 3. lia.
  - split; [lia|]. split; [done | lia].
Qed.

(** X19.  When every stored experiment has its creation time, listing
    returns one summary for each experiment of the requested page, in the
    order of the table: at most [limit] summaries, none when [skip] is past
    the end; each summary counts the responses of its experiment and shows
    the prompt unchanged up to 100 characters, and otherwise its first 100
    characters followed by three dots (103 characters). *)
Theorem list_experiments_page (skip limit : nat) (db : list Experiment.t) :
  Forall (fun exp => is_Some (Experiment.created_at exp)) db ->
  exists summaries,
    list_experiments skip limit db = Return summaries
    /\ length summaries = Nat.min limit (length db - skip)
    /\ Forall2 (fun exp summary =>
                  ExperimentSummary.id summary = Experiment.id exp
                  /\ ExperimentSummary.name summary = Experiment.name exp
                  /\ Some (ExperimentSummary.created_at summary)
                     = Experiment.created_at exp
                  /\ ExperimentSummary.response_count summary
                     = Z.of_nat (length (Experiment.responses exp))
                  /\ length (ExperimentSummary.prompt summary) <= 103
                  /\ (length (Experiment.prompt exp) <= 100 ->
                      ExperimentSummary.prompt summary = Experiment.prompt exp)
                  /\ (100 < length (Experiment.prompt exp) ->
                      ExperimentSummary.prompt summary
                      = take 100 (Experiment.prompt exp) ++ lit "..."))
         (take limit (drop skip db)) summaries.
Proof.
  intros Hall. unfold list_experiments.
  assert (Forall (fun exp => is_Some (Experiment.created_at exp))
            (take limit (drop skip db))) as Hpage.
  { apply Forall_take, Forall_drop, Hall. }
  destruct (omapM_Return summary_of (take limit (drop skip db))) as (summaries & Hs & HF).
  { intros exp Hin. rewrite Forall_forall in Hpage.
    destruct (Hpage exp Hin) as [d Hd]. unfold summary_of. rewrite Hd. cbn. eauto. }
  exists summaries. split; [assumption|]. split.
  - rewrite <- (Forall2_length _ _ _ HF), length_take, length_drop. done.
  - eapply Forall2_impl; [exact HF|]. intros exp summary H. cbn in H.
    unfold summary_of in H. destruct (Experiment.created_at exp) as [d|]; [|done].
    cbn in H. inversion H. cbn.
    pose proof (length_summary_prompt (Experiment.prompt exp)) as (Hl & Hshort & Hlong).
    repeat split; assumption.
Qed.

Lemma list_experiments_page_witness :
  exists summaries,
    list_experiments 1 5 Samples.table = Return summaries
    /\ length summaries = Nat.min 5 (length Samples.table - 1)
    /\ Forall2 (fun exp summary =>
                  ExperimentSummary.id summary = Experiment.id exp
                  /\ ExperimentSummary.name summary = Experiment.name exp
                  /\ Some (ExperimentSummary.created_at summary)
                     = Experiment.created_at exp
                  /\ ExperimentSummary.response_count summary
                     = Z.of_nat (length (Experiment.responses exp))
                  /\ length (ExperimentSummary.prompt summary) <= 103
                  /\ (length (Experiment.prompt exp) <= 100 ->
                      ExperimentSummary.prompt summary = Experiment.prompt exp)
                  /\ (100 < length (Experiment.prompt exp) ->
                      ExperimentSummary.prompt summary
                      = take 100 (Experiment.prompt exp) ++ lit "..."))
         (take 5 (drop 1 Samples.table)) summaries.
Proof.
  apply (list_experiments_page 1 5 Samples.table).
  repeat constructor; eexists; reflexivity.
Defined.




(** X21.  For a stored experiment the export route selects by the exact
    format string: ["json"] gives the response model of [get_experiment]
    (and fails exactly when reading fails), and every string other than
    ["json"] and ["csv"], upper-case spellings included, is refused with
    400 and a message that quotes it. *)
Theorem export_dispatch (experiment_id : Z) (format : str) (db : list Experiment.t)
    (exp : Experiment.t) :
  first_with_id experiment_id db = Some exp ->
  export_experiment experiment_id (lit "json") db
  = obind (get_experiment experiment_id db) (fun r => Return (ExportJson r))
  /\ (format <> lit "json" -> format <> lit "csv" ->
      export_experiment experiment_id format db
      = Raise (HTTPException 400
                 (lit "Unsupported format: " ++ format
                  ++ lit ". Use 'json' or 'csv'."))).
Proof.
  intros Hfirst. unfold export_experiment, get_experiment. rewrite Hfirst.
  split; [reflexivity|]. intros Hj Hc.
  rewrite !bool_decide_eq_false_2 by assumption. reflexivity.
Qed.

Lemma export_dispatch_witness :
  export_experiment 1 (lit "json") Samples.table
  = obind (get_experiment 1 Samples.table) (fun r => Return (ExportJson r))
  /\ (lit "CSV" <> lit "json" -> lit "CSV" <> lit "csv" ->
      export_experiment 1 (lit "CSV") Samples.table
      = Raise (HTTPException 400
                 (lit "Unsupported format: " ++ lit "CSV"
                  ++ lit ". Use 'json' or 'csv'."))).
Proof.
  apply (export_dispatch 1 (lit "CSV") Samples.table Samples.first_experiment).
  reflexivity.
Defined.
End ListingAndExport.

(** ** The conversion to the response model *)

Section Conversion.
Import Routes.
Local Open Scope Q_scope.

Lemma field_cases (d : gmap string Q) (key : string) :
  (exists v, d !! key = Some v /\ 0 <= v /\ v <= 1
             /\ QualityMetrics.field d key = Return v)
  \/ ((d !! key = None \/ exists v, d !! key = Some v /\ (v < 0 \/ 1 < v))
      /\ exists msg, QualityMetrics.field d key = Raise (ValidationError msg)).
Proof.
  unfold QualityMetrics.field. destruct (d !! key) as [v|]; [|right; eauto].
  destruct (Qle_bool 0 v) eqn:E0; cbn [negb].
  - destruct (Qle_bool v 1) eqn:E1; cbn [negb].
    + apply Qle_bool_iff in E0, E1. left. eauto 10.
    + right. split; [|eauto]. right. exists v. split; [done|]. right.
      apply Qnot_le_lt. intros H. apply Qle_bool_iff in H. congruence.
  - right. split; [|eauto]. right. exists v. split; [done|]. left.
    apply Qnot_le_lt. intros H. apply Qle_bool_iff in H. congruence.
Qed.

Lemma from_dict_valid (d : gmap string Q) :
  valid_metrics d ->
  exists m,
    QualityMetrics.from_dict d = Return m
    /\ d !! "coherence_score" = Some (QualityMetrics.coherence_score m)
    /\ d !! "completeness_score" = Some (QualityMetrics.completeness_score m)
    /\ d !! "length_appropriateness" = Some (QualityMetrics.length_appropriateness m)
    /\ d !! "repetition_penalty" = Some (QualityMetrics.repetition_penalty m)
    /\ d !! "structural_richness" = Some (QualityMetrics.structural_richness m)
    /\ d !! "overall_score" = Some (QualityMetrics.overall_score m).
Proof.
  unfold valid_metrics, QualityMetricsCalculator.metric_keys. intros H.
  apply Forall_cons in H as [(c & Hc & Bc) H]. apply Forall_cons in H as [(p & Hp & Bp) H].
  apply Forall_cons in H as [(l & Hl & Bl) H]. apply Forall_cons in H as [(r & Hr & Br) H].
  apply Forall_cons in H as [(s & Hs & Bs) H]. apply Forall_cons in H as [(o & Ho & Bo) _].
  exists (QualityMetrics.Build c p l r s o). unfold QualityMetrics.from_dict.
  rewrite (field_in_unit d _ c Hc Bc), (field_in_unit d _ p Hp Bp),
    (field_in_unit d _ l Hl Bl), (field_in_unit d _ r Hr Br),
    (field_in_unit d _ s Hs Bs), (field_in_unit d _ o Ho Bo).
  by repeat split.
Qed.

Lemma from_dict_cases (d : gmap string Q) :
  (valid_metrics d /\ exists m, QualityMetrics.from_dict d = Return m)
  \/ (~ valid_metrics d
      /\ exists msg, QualityMetrics.from_dict d = Raise (ValidationError msg)).
Proof.
  unfold QualityMetrics.from_dict, valid_metrics, QualityMetricsCalculator.metric_keys.
  assert (forall key (l : list string),
            (d !! key = None \/ exists v, d !! key = Some v /\ (v < 0 \/ 1 < v)) ->
            key ∈ l ->
            ~ Forall (fun key => exists v, d !! key = Some v /\ 0 <= v /\ v <= 1) l)
    as Hbad.
  { intros key l Hk Hin HF. rewrite Forall_forall in HF.
    destruct (HF key Hin) as (v & Hv & B0 & B1).
    destruct Hk as [Hk|(v' & Hv' & [B|B])]; [congruence|..];
      rewrite Hv in Hv'; inversion Hv'; subst v'; lra. }
  destruct (field_cases d "coherence_score") as [(c & Hc & ? & ? & ->)|[B [msg ->]]];
    [|right; split; [apply (Hbad _ _ B); set_solver | eauto]].
  destruct (field_cases d "completeness_score") as [(p & Hp & ? & ? & ->)|[B [msg ->]]];
    [|right; split; [apply (Hbad _ _ B); set_solver | eauto]].
  destruct (field_cases d "length_appropriateness")
    as [(l & Hl & ? & ? & ->)|[B [msg ->]]];
    [|right; split; [apply (Hbad _ _ B); set_solver | eauto]].
  destruct (field_cases d "repetition_penalty") as [(r & Hr & ? & ? & ->)|[B [msg ->]]];
    [|right; split; [apply (Hbad _ _ B); set_solver | eauto]].
  destruct (field_cases d "structural_richness") as [(s & Hs & ? & ? & ->)|[B [msg ->]]];
    [|right; split; [apply (Hbad _ _ B); set_solver | eauto]].
  destruct (field_cases d "overall_score") as [(o & Ho & ? & ? & ->)|[B [msg ->]]];
    [|right; split; [apply (Hbad _ _ B); set_solver | eauto]].
  left. split; [|cbn; eauto].
  repeat (constructor; [eauto 6|]). constructor.
Qed.

Lemma response_result_cases (resp : Response.t) :
  (readable resp /\ exists r, response_result resp = Return r)
  \/ (~ readable resp
      /\ exists msg, response_result resp = Raise (ValidationError msg)).
Proof.
  unfold response_result, readable.
  destruct (truthy_metrics (Response.metrics resp)).
  - destruct (from_dict_cases (the_metrics (Response.metrics resp)))
      as [[Hv [m ->]]|[Hv [msg ->]]]; cbn [obind]; [|right; split; [tauto | eauto]].
    destruct (Response.created_at resp) as [d|]; cbn.
    + left. split; [split; [eauto | done] | eauto].
    + right. split; [|eauto]. intros [[d Hd] _]. discriminate.
  - cbn [obind]. destruct (Response.created_at resp) as [d|]; cbn.
    + left. split; [split; [eauto | done] | eauto].
    + right. split; [|eauto]. intros [[d Hd] _]. discriminate.
Qed.

Lemma omapM_response_result (resps : list Response.t) :
  (Forall readable resps /\ exists rs, omapM response_result resps = Return rs)
  \/ (~ Forall readable resps
      /\ exists msg, omapM response_result resps = Raise (ValidationError msg)).
Proof.
  induction resps as [|resp resps IH]; [left; split; [constructor | by eexists]|].
  cbn [omapM].
  destruct (response_result_cases resp) as [[Hr [r ->]]|[Hr [msg ->]]]; cbn [obind].
  - destruct IH as [[Hrs [rs ->]]|[Hrs [msg ->]]]; cbn [obind].
    + left. split; [by constructor | eauto].
    + right. split; [|eauto]. intros H. by apply Forall_cons in H as [_ H].
  - right. split; [|eauto]. intros H. by apply Forall_cons in H as [H _].
Qed.

Lemma experiment_to_response_cases_aux (experiment : Experiment.t) :
  (is_Some (Experiment.created_at experiment)
   /\ Forall readable (Experiment.responses experiment)
   /\ exists r, _experiment_to_response experiment = Return r)
  \/ (~ (is_Some (Experiment.created_at experiment)
         /\ Forall readable (Experiment.responses experiment))
      /\ exists msg,
           _experiment_to_response experiment = Raise (ValidationError msg)).
Proof.
  unfold _experiment_to_response.
  destruct (omapM_response_result (Experiment.responses experiment))
    as [[Hrs [rs ->]]|[Hrs [msg ->]]]; [|right; split; [tauto | cbn; eauto]].
  cbn [obind].
  destruct (Experiment.created_at experiment) as [d|]; cbn.
  - left. eauto.
  - right. split; [|eauto]. intros [[d Hd] _]. discriminate.
Qed.

(** X22.  Reading a stored experiment succeeds exactly when the experiment
    and each of its responses have their creation time and each response's
    metrics are missing, empty or valid for [QualityMetrics]; otherwise
    the conversion raises a validation error.  When it succeeds, the result
    has one entry per stored response, in order, with the stored
    identifier, text and token count, and with all-zero metrics for a
    response whose metrics are missing or empty. *)
Theorem experiment_to_response_cases (experiment : Experiment.t) :
  (is_Some (Experiment.created_at experiment)
   /\ Forall readable (Experiment.responses experiment)
   /\ exists r,
        _experiment_to_response experiment = Return r
        /\ ExperimentResponse.id r = Experiment.id experiment
        /\ ExperimentResponse.name r = Experiment.name experiment
        /\ ExperimentResponse.prompt r = Experiment.prompt experiment
        /\ Forall2 (fun resp result =>
                      ResponseResult.id result = Response.id resp
                      /\ ResponseResult.response_text result
                         = Response.response_text resp
                      /\ ResponseResult.tokens_used result = Response.tokens_used resp
                      /\ (truthy_metrics (Response.metrics resp) = false ->
                          ResponseResult.metrics result = QualityMetrics.zeros)
                      /\ (truthy_metrics (Response.metrics resp) = true ->
                          QualityMetrics.from_dict (the_metrics (Response.metrics resp))
                          = Return (ResponseResult.metrics result)))
             (Experiment.responses experiment) (ExperimentResponse.responses r))
  \/ (~ (is_Some (Experiment.created_at experiment)
         /\ Forall readable (Experiment.responses experiment))
      /\ exists msg,
           _experiment_to_response experiment = Raise (ValidationError msg)).
Proof.
  unfold _experiment_to_response.
  destruct (omapM_response_result (Experiment.responses experiment))
    as [[Hrs [rs Hm]]|[Hrs [msg ->]]]; [|right; split; [tauto | cbn; eauto]].
  rewrite Hm. cbn [obind].
  destruct (Experiment.created_at experiment) as [d|]; cbn.
  2: { right. split; [|eauto]. intros [[d Hd] _]. discriminate. }
  left. split; [eauto|]. split; [assumption|].
  eexists. split; [reflexivity|]. cbn. repeat split.
  apply omapM_Return_inv in Hm. eapply Forall2_impl; [exact Hm|].
  intros resp result H. cbn in H. unfold response_result in H.
  destruct (truthy_metrics (Response.metrics resp)).
  - apply obind_Return_inv in H as (m & Hfrom & H).
    apply obind_Return_inv in H as (d' & _ & H). inversion H. by cbn.
  - cbn [obind] in H. apply obind_Return_inv in H as (d' & _ & H).
    inversion H. by cbn.
Qed.

(** X23.  One stored response whose metrics hold a score outside the unit
    interval, or lack one of the six scores, makes its whole experiment
    unreadable: reading it and exporting it as JSON raise a validation
    error, while the CSV export, which does not build the response model,
    still returns every row. *)
Theorem damaged_row_blocks_reading (experiment_id : Z) (db : list Experiment.t)
    (experiment : Experiment.t) (resp : Response.t) :
  first_with_id experiment_id db = Some experiment ->
  resp ∈ Experiment.responses experiment ->
  truthy_metrics (Response.metrics resp) = true ->
  ~ valid_metrics (the_metrics (Response.metrics resp)) ->
  exists msg rows,
    get_experiment experiment_id db = Raise (ValidationError msg)
    /\ export_experiment experiment_id (lit "json") db = Raise (ValidationError msg)
    /\ export_experiment experiment_id (lit "csv") db
       = Return (ExportCsv
                   (lit "experiment_" ++ str_of_int experiment_id ++ lit ".csv") rows)
    /\ length rows = S (length (Experiment.responses experiment)).
Proof.
  intros Hfirst Hin Ht Hbad.
  destruct (experiment_to_response_cases_aux experiment) as [[_ [Hall _]]|[_ [msg Hm]]].
  { exfalso. rewrite Forall_forall in Hall. destruct (Hall resp Hin) as [_ Hv]. auto. }
  exists msg, (csv_header :: map csv_row (Experiment.responses experiment)).
  unfold get_experiment, export_experiment. rewrite Hfirst, Hm.
  repeat split. cbn [length]. by rewrite length_map.
Qed.

Lemma damaged_row_blocks_reading_witness :
  exists msg rows,
    get_experiment 2 Samples.table = Raise (ValidationError msg)
    /\ export_experiment 2 (lit "json") Samples.table = Raise (ValidationError msg)
    /\ export_experiment 2 (lit "csv") Samples.table
       = Return (ExportCsv (lit "experiment_" ++ str_of_int 2 ++ lit ".csv") rows)
    /\ length rows = S (length (Experiment.responses Samples.damaged_experiment)).
Proof.
  apply (damaged_row_blocks_reading 2 Samples.table Samples.damaged_experiment
           (Samples.stored 3 Examples.answer (Some 12%Z)
              (Some (<["coherence_score" := 1.5%Q]> Examples.sample_metrics)))).
  - reflexivity.
  - apply list_elem_of_here.
  - reflexivity.
  - intros H. apply Forall_cons in H as [(v & Hv & _ & Hle) _].
    cbn [Samples.stored Response.metrics the_metrics] in Hv.
    rewrite lookup_insert_eq in Hv. injection Hv as <-.
    exact (Hle eq_refl).
Defined.
End Conversion.

(** ** The order of the bounds of an accepted range *)

Section FloatOrder.

Lemma SFcompare_swap (x y : spec_float) :
  SFcompare y x = option_map CompOpp (SFcompare x y).
Proof.
  destruct x as [sx|sx| |sx mx ex], y as [sy|sy| |sy my ey]; try reflexivity;
    try (destruct sx, sy; reflexivity); try (destruct sx; reflexivity);
    try (destruct sy; reflexivity).
  cbn [SFcompare]. fold (Pos.compare my mx) (Pos.compare mx my).
  rewrite (Z.compare_antisym ex ey), (Pos.compare_antisym mx my).
  destruct sx, sy; try reflexivity;
    destruct (ex ?= ey)%Z; cbn; try reflexivity;
    by destruct (mx ?= my)%positive.
Qed.

Lemma leb_of_not_ltb (a b z : float) :
  PrimFloat.leb z a = true -> PrimFloat.leb z b = true ->
  PrimFloat.ltb b a = false -> PrimFloat.leb a b = true.
Proof.
  rewrite !leb_spec, ltb_spec. unfold SFleb, SFltb.
  rewrite (SFcompare_swap (Prim2SF a) (Prim2SF b)).
  destruct (SFcompare (Prim2SF a) (Prim2SF b)) as [[| |]|] eqn:E; cbn; try done.
  intros Ha Hb _. exfalso.
  destruct (Prim2SF a) as [| | |]; destruct (Prim2SF b) as [| | |];
    destruct (Prim2SF z) as [| | |]; cbn in *; try discriminate;
    repeat match goal with s : bool |- _ => destruct s end; cbn in *; discriminate.
Qed.
End FloatOrder.

Section AcceptedRanges.
Lemma validate_opt_Return (r : ParameterRange.t) (o : option ParameterRange.t) :
  ParameterRange.validate_opt (Some r) = Return o ->
  ParameterRange.validate r = Return r.
Proof.
  cbn. intros H. apply obind_Return_inv in H as (r' & H & _).
  destruct (ParameterRange_validate_cases r) as [E|[msg E]]; congruence.
Qed.

(** X24.  Every range of a request that the schema accepts is ordered and
    not negative: [0 <= min <= max] as floats, so neither bound is NaN;
    the accepted body is passed on unchanged. *)
Theorem accepted_ranges_are_ordered (body request : ExperimentRequest.t)
    (r : ParameterRange.t) :
  ExperimentRequest.validate body = Return request ->
  Some r ∈ ExperimentRequest.ranges_of body ->
  request = body
  /\ ParameterRange.validate r = Return r
  /\ PrimFloat.leb 0 (ParameterRange.min r) = true
  /\ PrimFloat.leb (ParameterRange.min r) (ParameterRange.max r) = true.
Proof.
  intros Hv Hin.
  destruct (ExperimentRequest_validate_Return body request Hv) as [-> _].
  split; [reflexivity|].
  assert (ParameterRange.validate r = Return r) as Hr.
  { unfold ExperimentRequest.validate in Hv.
    destruct (length (ExperimentRequest.prompt body) <? 1)%nat; [discriminate|].
    destruct (match ExperimentRequest.name body with
              | Some n => (255 <? length n)%nat | None => false end); [discriminate|].
    apply obind_Return_inv in Hv as (o1 & H1 & Hv).
    apply obind_Return_inv in Hv as (o2 & H2 & Hv).
    apply obind_Return_inv in Hv as (o3 & H3 & Hv).
    apply obind_Return_inv in Hv as (o4 & H4 & Hv).
    apply obind_Return_inv in Hv as (o5 & H5 & Hv).
    unfold ExperimentRequest.ranges_of in Hin.
    repeat (apply elem_of_cons in Hin as [Hin|Hin];
            [rewrite <- Hin in *; eapply validate_opt_Return; eassumption|]).
    by apply elem_of_nil in Hin. }
  split; [assumption|].
  unfold ParameterRange.validate in Hr.
  destruct (PrimFloat.leb 0 (ParameterRange.min r)) eqn:E1; [|discriminate].
  destruct (PrimFloat.leb 0 (ParameterRange.max r)) eqn:E2; [|discriminate].
  destruct (PrimFloat.ltb (ParameterRange.max r) (ParameterRange.min r)) eqn:E3;
    [discriminate|].
  split; [reflexivity|]. by apply (leb_of_not_ltb _ _ 0%float).
Qed.

Lemma accepted_ranges_are_ordered_witness :
  Examples.sweep_request = Examples.sweep_request
  /\ ParameterRange.validate (ParameterRange.Build 0 1 (Some 0.5%float) None)
     = Return (ParameterRange.Build 0 1 (Some 0.5%float) None)
  /\ PrimFloat.leb 0 0 = true
  /\ PrimFloat.leb 0 1 = true.
Proof.
  apply (accepted_ranges_are_ordered Examples.sweep_request Examples.sweep_request
           (ParameterRange.Build 0 1 (Some 0.5%float) None)).
  - reflexivity.
  - apply list_elem_of_here.
Defined.
End AcceptedRanges.
